(** * Ammonia battery price arbitrage: the optimisation engine and its
      downstream guards, embedded and verified

    The development follows [src/ammonia_battery]:
    - [optimisation/engine.py]: the Pyomo model ([create_optimization_model]),
      the data binding ([prepare_data]), the result ledger
      ([process_results]) and the driver ([optimize]);
    - [analysis/curtailment_analysis.py]: [analyze_curtailment_interactions];
    - [economics/metrics.py]: [calculate_levelized_cost] and the annualised
      economics used by the ledger.

    Numbers.  Python floats are idealised as exact rationals [Q]; equality
    of computed quantities is [Qeq] (written [==]).  NaN is not represented:
    a run that would produce one is outside the model.  [float('inf')] is
    represented where the code returns it.  Statements about the constraint
    system, the shape of the data, the exceptions and the guards do not
    depend on rounding.  A statement that two quantities computed by
    different expressions are equal holds of the exact values and says so
    ("in exact arithmetic"); the floats can differ in the last digits, and
    [Float64] evaluates the objective and the ledger total in binary64 to
    show it.

    Pyomo.  A rule is embedded as the function it is: given the bound
    parameters (and an index) it either raises or yields the relational
    expression over the decision variables.  A solution is a valuation of
    the variables; it is accepted when every variable lies in its domain
    and bounds and every generated constraint holds. *)

From Stdlib Require Import QArith Qpower Qround Lqa Lia ZArith List Bool.
From stdpp Require Import gmap strings list pretty.
From Stdlib Require PrimFloat.

Set Default Proof Using "Type".

(* ===================================================================== *)
(** * Definitions                                                         *)
(* ===================================================================== *)

(** ** Python values, exceptions and sequence primitives *)

Module Py.

Inductive exn : Type :=
| KeyError (key : string)
| IndexError
| ValueError (msg : string)
| TypeError
| ZeroDivisionError
| ApplicationError
| OutsideModel (why : string).

Inductive result (A : Type) : Type :=
| Ok (a : A)
| Raise (e : exn).
Arguments Ok {A} a.
Arguments Raise {A} e.

Definition bind {A B} (c : result A) (k : A -> result B) : result B :=
  match c with
  | Ok a => k a
  | Raise e => Raise e
  end.

Definition is_ok {A} (c : result A) : bool :=
  match c with Ok _ => true | Raise _ => false end.

(** [for x in xs: ...] collecting one value per element; the first
    exception aborts the loop. *)
Fixpoint for_each {A B} (f : A -> result B) (xs : list A) : result (list B) :=
  match xs with
  | [] => Ok []
  | x :: xs' =>
      bind (f x) (fun y => bind (for_each f xs') (fun ys => Ok (y :: ys)))
  end.

(** The value of a computation known to succeed. *)
Definition from_ok {A} (fallback : A) (c : result A) : A :=
  match c with Ok a => a | Raise _ => fallback end.

(** [a / b] on floats. *)
Definition div (a b : Q) : result Q :=
  if Qeq_bool b 0 then Raise ZeroDivisionError else Ok (a / b)%Q.

(** [base ** n] for an integer exponent. *)
Definition pow (base : Q) (n : Z) : result Q :=
  if Qeq_bool base 0 && (n <? 0)%Z then Raise ZeroDivisionError
  else Ok (Qpower base n).

(** [int(x)]: truncation toward zero. *)
Definition int (x : Q) : Z := Z.quot (Qnum x) (Z.pos (Qden x)).

(** Builtin [sum]: left fold from 0. *)
Definition sum (xs : list Q) : Q := fold_left Qplus xs 0%Q.

(** [xs[i]] with Python's negative indices. *)
Definition getitem {A} (xs : list A) (i : Z) : result A :=
  let n := Z.of_nat (length xs) in
  let j := if (i <? 0)%Z then (i + n)%Z else i in
  if ((j <? 0) || (n <=? j))%Z then Raise IndexError
  else match xs !! Z.to_nat j with
       | Some x => Ok x
       | None => Raise IndexError
       end.

(** [dict(pairs)]: a later pair overrides an earlier one with the same key. *)
Definition dict {V} (pairs : list (nat * V)) : gmap nat V :=
  fold_left (fun m kv => <[kv.1 := kv.2]> m) pairs ∅.

(** Running sums, as [Series.cumsum]. *)
Fixpoint cumsum_from (acc : Q) (xs : list Q) : list Q :=
  match xs with
  | [] => []
  | x :: xs' => (acc + x)%Q :: cumsum_from (acc + x)%Q xs'
  end.

Definition cumsum (xs : list Q) : list Q := cumsum_from 0%Q xs.

(** [xs.index(x)]: position of the first occurrence. *)
Fixpoint index (xs : list nat) (x : nat) : result nat :=
  match xs with
  | [] => Raise (ValueError "not in list")
  | y :: ys => if Nat.eqb x y then Ok 0%nat
               else bind (index ys x) (fun i => Ok (S i))
  end.

End Py.

Import Py.

Notation "'let!' x ':=' c 'in' k" := (Py.bind c (fun x => k))
  (at level 10, x name, c at level 200, k at level 200).

(** A cell of a data frame or a parameter value. *)
Inductive cell : Type :=
| CNum (x : Q)
| CTime (seconds : Z)
| CStr (s : string).

(** ** Pyomo: variables, relational expressions, models and instances *)

Module Pyomo.

(** The decision variables of the model, by component name. *)
Inductive var : Type :=
| OPTIMAL_NH3_CAPACITY
| OPTIMAL_INITIAL_NH3_LEVEL
| CHARGING_POWER (t : nat)
| DISCHARGING_POWER (t : nat)
| NH3_LEVEL (t : nat)
| IS_CHARGING_ON (t : nat)
| IS_DISCHARGING_ON (t : nat)
| CHARGING_STARTED (t : nat)
| CHARGING_STOPPED (t : nat).

(** [pyo.value] of every variable after a solve. *)
Definition Solution : Type := var -> Q.

Inductive Domain : Type := NonNegativeReals | Binary.

(** [lhs <= rhs], [lhs == rhs], [lhs >= rhs] evaluated at a solution. *)
Inductive Relational : Type :=
| RelLe (lhs rhs : Q)
| RelEq (lhs rhs : Q)
| RelGe (lhs rhs : Q).

(** The contents of the [DataPortal]: the index set, the five series and
    the nine scalars. *)
Record DataPortal : Type := {
  DATETIME : list nat;
  PRICE : gmap nat cell;
  DEMAND : gmap nat cell;
  WIND : gmap nat cell;
  CURTAILMENT : gmap nat cell;
  CARBON_BASED_FUELS : gmap nat cell;
  MAXIMUM_CHARGING_POWER : Q;
  MAXIMUM_DISCHARGING_POWER : Q;
  CHARGING_EFFICIENCY : Q;
  DISCHARGING_EFFICIENCY : Q;
  TIMESTEP : Q;
  MIN_CHARGING_THRESHOLD : Q;
  MIN_DISCHARGING_THRESHOLD : Q;
  LHV_NH3 : Q;
  NH3_CONVERSION_FACTOR : Q
}.

(** [model.P[t]] for an indexed parameter. *)
Definition lookup_param (name : string) (p : gmap nat cell) (t : nat) : result cell :=
  match p !! t with
  | Some c => Ok c
  | None => Raise (KeyError name)
  end.

(** An indexed parameter used in arithmetic. *)
Definition numeric_param (name : string) (p : gmap nat cell) (t : nat) : result Q :=
  let! c := lookup_param name p t in
  match c with
  | CNum x => Ok x
  | _ => Raise TypeError
  end.

Definition Bounds : Type := (Q * Q)%type.

(** The components an [AbstractModel] of this program declares (sets and
    parameters are the fields of [DataPortal]). *)
Inductive Component : Type :=
| Var (v : var) (within : Domain) (bounds : option Bounds)
| IndexedVar (v : nat -> var) (within : Domain)
             (bounds : option (DataPortal -> nat -> Bounds))
| Objective (rule : DataPortal -> result (Solution -> Q))
| Constraint (rule : DataPortal -> result (Solution -> Relational))
| IndexedConstraint (rule : DataPortal -> nat -> result (Solution -> Relational)).

Definition AbstractModel : Type := list (string * Component).

Record VarData : Type := {
  vd_var : var;
  vd_domain : Domain;
  vd_bounds : option Bounds
}.

Record ConstraintData : Type := {
  c_name : string;
  c_index : option nat;
  c_body : Solution -> Relational
}.

Record ConcreteModel : Type := {
  params : DataPortal;
  variables : list VarData;
  objectives : list (string * (Solution -> Q));
  constraints : list ConstraintData
}.

Definition empty_instance (data : DataPortal) : ConcreteModel :=
  {| params := data; variables := []; objectives := []; constraints := [] |}.

Definition add_variables (vs : list VarData) (i : ConcreteModel) : ConcreteModel :=
  {| params := params i; variables := vs ++ variables i;
     objectives := objectives i; constraints := constraints i |}.

Definition add_objective (o : string * (Solution -> Q)) (i : ConcreteModel) : ConcreteModel :=
  {| params := params i; variables := variables i;
     objectives := o :: objectives i; constraints := constraints i |}.

Definition add_constraints (cs : list ConstraintData) (i : ConcreteModel) : ConcreteModel :=
  {| params := params i; variables := variables i;
     objectives := objectives i; constraints := cs ++ constraints i |}.

(** Construction of one component against the data: indexed components
    are expanded over [DATETIME] in order, and a rule that raises aborts
    the construction. *)
Definition construct (data : DataPortal) (name : string) (c : Component)
  : result (ConcreteModel -> ConcreteModel) :=
  match c with
  | Var v d b =>
      Ok (add_variables [ {| vd_var := v; vd_domain := d; vd_bounds := b |} ])
  | IndexedVar v d b =>
      Ok (add_variables
            (map (fun t => {| vd_var := v t; vd_domain := d;
                              vd_bounds := option_map (fun f => f data t) b |})
                 (DATETIME data)))
  | Objective rule =>
      let! f := rule data in Ok (add_objective (name, f))
  | Constraint rule =>
      let! body := rule data in
      Ok (add_constraints [ {| c_name := name; c_index := None; c_body := body |} ])
  | IndexedConstraint rule =>
      let! cs := for_each (fun t => let! body := rule data t in
                               Ok {| c_name := name; c_index := Some t; c_body := body |})
                     (DATETIME data) in
      Ok (add_constraints cs)
  end.

(** [model.create_instance(data)]: components are constructed in
    declaration order. *)
Fixpoint create_instance (model : AbstractModel) (data : DataPortal)
  : result ConcreteModel :=
  match model with
  | [] => Ok (empty_instance data)
  | (name, c) :: rest =>
      let! add := construct data name c in
      let! inst := create_instance rest data in
      Ok (add inst)
  end.

(** [instance.objective] *)
Fixpoint find_objective (name : string) (os : list (string * (Solution -> Q)))
  : result (Solution -> Q) :=
  match os with
  | [] => Raise (KeyError name)
  | (n, f) :: os' => if String.eqb n name then Ok f else find_objective name os'
  end.

Definition in_domain (d : Domain) (x : Q) : bool :=
  match d with
  | NonNegativeReals => Qle_bool 0 x
  | Binary => Qeq_bool x 0 || Qeq_bool x 1
  end.

Definition in_bounds (b : option Bounds) (x : Q) : bool :=
  match b with
  | None => true
  | Some (lo, hi) => Qle_bool lo x && Qle_bool x hi
  end.

Definition var_ok (s : Solution) (vd : VarData) : bool :=
  in_domain (vd_domain vd) (s (vd_var vd)) && in_bounds (vd_bounds vd) (s (vd_var vd)).

Definition satisfied (r : Relational) : bool :=
  match r with
  | RelLe a b => Qle_bool a b
  | RelEq a b => Qeq_bool a b
  | RelGe a b => Qle_bool b a
  end.

(** The meaning of a relational expression. *)
Definition holds (r : Relational) : Prop :=
  match r with
  | RelLe a b => (a <= b)%Q
  | RelEq a b => (a == b)%Q
  | RelGe a b => (b <= a)%Q
  end.

(** The rules of each kind a model declares under a given name. *)
Fixpoint objective_rules (model : AbstractModel)
  : list (string * (DataPortal -> result (Solution -> Q))) :=
  match model with
  | [] => []
  | (name, Objective rule) :: rest => (name, rule) :: objective_rules rest
  | _ :: rest => objective_rules rest
  end.

(** A solution the solver may return as optimal or feasible. *)
Definition accepted (inst : ConcreteModel) (s : Solution) : bool :=
  forallb (var_ok s) (variables inst)
  && forallb (fun c => satisfied (c_body c s)) (constraints inst).

End Pyomo.

Import Pyomo.

(** ** pandas: the part of the data-frame interface the program uses *)

Module Pandas.

Inductive Series : Type :=
| NumSeries (xs : list Q)        (* a column of numeric dtype *)
| TimeSeries (ts : list Z)       (* datetime64, in seconds *)
| ObjSeries (ss : list string).  (* any other dtype *)

Definition values (s : Series) : list cell :=
  match s with
  | NumSeries xs => map CNum xs
  | TimeSeries ts => map CTime ts
  | ObjSeries ss => map CStr ss
  end.

(** A frame: the length of its index and its columns by name. *)
Record DataFrame : Type := {
  nrows : nat;
  columns : gmap string Series
}.

(** [df[name]] *)
Definition getcol (df : DataFrame) (name : string) : result Series :=
  match columns df !! name with
  | Some s => Ok s
  | None => Raise (KeyError name)
  end.

(** [df[name] = s] *)
Definition setcol (df : DataFrame) (name : string) (s : Series) : DataFrame :=
  {| nrows := nrows df; columns := <[name := s]> (columns df) |}.

(** [df.select_dtypes(include=['number'])] *)
Definition select_numeric (cols : gmap string Series) : gmap string (list Q) :=
  omap (fun s => match s with NumSeries xs => Some xs | _ => None end) cols.

(** What the program takes from pandas' time handling: the timestamp
    parser [pd.to_datetime] (seconds), and the grouping of an index of
    timestamps into the bins of [resample(freq)], each bin with its label
    and the row positions that fall into it. *)
Class TimeOps : Type := {
  to_datetime : Series -> result (list Z);
  resample_bins : string -> list Z -> result (list (Z * list nat))
}.

Definition bin_ok (n : nat) (b : Z * list nat) : bool :=
  negb (Nat.eqb (length b.2) 0) && forallb (fun i => Nat.ltb i n) b.2.

(** [.mean()] of one column over one bin. *)
Definition bin_mean (xs : list Q) (b : Z * list nat) : Q :=
  (Py.sum (map (fun i => nth i xs 0%Q) b.2) / inject_Z (Z.of_nat (length b.2)))%Q.

(** [df[numeric_cols].resample(freq).mean()] followed by [reset_index()],
    for a frame indexed by the timestamps [index].  The mean of an empty
    bin is NaN, which rationals do not represent. *)
Definition resample_mean `{TimeOps} (freq : string) (index : list Z)
           (numeric : gmap string (list Q)) : result DataFrame :=
  let! bins := resample_bins freq index in
  if forallb (bin_ok (length index)) bins then
    Ok {| nrows := length bins;
          columns := <["DATETIME" := TimeSeries (map fst bins)]>
                       ((fun xs => NumSeries (map (bin_mean xs) bins)) <$> numeric) |}
  else Raise (OutsideModel "NaN").

End Pandas.

Import Pandas.

(** ** economics/metrics.py and the storage cost curve it calls *)

Module Metrics.

Local Open Scope Q_scope.

(** Float exponentiation with a fractional exponent; its value is not
    rational in general, so it is kept abstract. *)
Class RealPower : Type := { fpow : Q -> Q -> Q }.

Definition LIFETIME_YEARS : Z := 25.
Definition DISCOUNT_RATE : Q := 7 # 100.

Definition calculate_annualized_cost (capex : Q) (lifetime : Z) (discount_rate : Q)
  : result Q :=
  let! up := Py.pow (1 + discount_rate) lifetime in
  let! crf := Py.div (discount_rate * up) (up - 1) in
  Ok (capex * crf).

Definition USD_TO_GBP : Q := 75 # 100.

(** [NH3Storage(name, max_storage_capacity).sized_capex] with the default
    reference plant, costed in USD. *)
Definition NH3Storage_sized_capex `{RealPower} (max_capacity : Q) : Q :=
  let reference_capacity := 25000 in
  let reference_cost := 39000000 in
  let scaling_exponent := if Qlt_le_dec max_capacity 10000 then 7 # 10 else 6 # 10 in
  let scaled_cost := reference_cost * fpow (max_capacity / reference_capacity) scaling_exponent in
  scaled_cost * USD_TO_GBP.

Record SystemCosts : Type := {
  sc_p2a_capex : Q;
  sc_storage_capex : Q;
  sc_a2p_capex : Q;
  sc_total_capex : Q;
  sc_p2a_opex : Q;
  sc_storage_opex : Q;
  sc_a2p_opex : Q;
  sc_total_opex : Q
}.

Record Economics : Type := {
  optimal_storage_capex : Q;
  p2a_capex : Q;
  a2p_capex : Q;
  total_system_capex : Q;
  annualized_capex : Q;
  total_annual_opex : Q;
  annual_operational_profit : Q;
  net_annual_profit : Q;
  period_operational_profit : Q;
  period_hours : Q;
  time_fraction : Q
}.

Definition calculate_system_economics_with_optimal_storage `{RealPower}
           (optimal_capacity operational_profit hours : Q) (system_costs : SystemCosts)
  : result Economics :=
  let storage_capex := NH3Storage_sized_capex optimal_capacity in
  let p2a := sc_p2a_capex system_costs in
  let a2p := sc_a2p_capex system_costs in
  let total_capex := p2a + storage_capex + a2p in
  let p2a_opex := (2 # 100) * p2a in
  let a2p_opex := (2 # 100) * a2p in
  let storage_opex := (2 # 100) * storage_capex in
  let total_opex := p2a_opex + storage_opex + a2p_opex in
  let! annualized := calculate_annualized_cost total_capex LIFETIME_YEARS DISCOUNT_RATE in
  let fraction := hours / (366 * 24) in
  let annual_profit :=
    if Qlt_le_dec 0 fraction then operational_profit / fraction else 0 in
  let net := annual_profit - annualized - total_opex in
  Ok {| optimal_storage_capex := storage_capex;
        p2a_capex := p2a;
        a2p_capex := a2p;
        total_system_capex := total_capex;
        annualized_capex := annualized;
        total_annual_opex := total_opex;
        annual_operational_profit := annual_profit;
        net_annual_profit := net;
        period_operational_profit := operational_profit;
        period_hours := hours;
        time_fraction := fraction |}.

(** A float that may be [float('inf')]. *)
Inductive xfloat : Type :=
| Finite (x : Q)
| Infinity.

Definition calculate_levelized_cost
           (annual_output capital_cost annual_fixed_cost annual_variable_cost
            pv_replacement_costs : Q) (lifetime : Z) (discount_rate : Q)
  : result xfloat :=
  if Qeq_bool annual_output 0 then Ok Infinity
  else
    let! down := Py.pow (1 + discount_rate) (- lifetime) in
    let! pvf := Py.div (1 - down) discount_rate in
    let pv_total_costs :=
      capital_cost + ((annual_fixed_cost + annual_variable_cost) * pvf)
      + pv_replacement_costs in
    let pv_total_output := annual_output * pvf in
    let! levelized_cost := Py.div pv_total_costs pv_total_output in
    Ok (Finite levelized_cost).

End Metrics.

Import Metrics.

(** ** optimisation/engine.py: the model *)

Module Engine.

Local Open Scope Q_scope.

(** *** [create_optimization_model]: the rules *)

Definition operational_profit_rule (model : DataPortal) : result (Solution -> Q) :=
  let! terms := for_each
             (fun t => let! price := numeric_param "PRICE" (PRICE model) t in
                       Ok (fun s : Solution =>
                             (price * s (DISCHARGING_POWER t) * TIMESTEP model)
                             - (price * s (CHARGING_POWER t) * TIMESTEP model)))
             (DATETIME model) in
  Ok (fun s => Py.sum (map (fun term => term s) terms)).

Definition storage_capacity_constraint_rule (model : DataPortal) (t : nat)
  : result (Solution -> Relational) :=
  Ok (fun s => RelLe (s (NH3_LEVEL t)) (s OPTIMAL_NH3_CAPACITY)).

Definition initial_storage_constraint_rule (model : DataPortal)
  : result (Solution -> Relational) :=
  Ok (fun s => RelLe (s OPTIMAL_INITIAL_NH3_LEVEL) (s OPTIMAL_NH3_CAPACITY)).

Definition nh3_balance_rule (model : DataPortal) (t : nat)
  : result (Solution -> Relational) :=
  let! first := getitem (DATETIME model) 0 in
  if Nat.eqb t first then
    let! inv_eff := Py.div 1 (DISCHARGING_EFFICIENCY model) in
    Ok (fun s =>
          RelEq (s (NH3_LEVEL t))
                (s OPTIMAL_INITIAL_NH3_LEVEL
                 + (s (CHARGING_POWER t) * CHARGING_EFFICIENCY model
                    * TIMESTEP model * NH3_CONVERSION_FACTOR model)
                 - (s (DISCHARGING_POWER t) * inv_eff
                    * TIMESTEP model * NH3_CONVERSION_FACTOR model)))
  else
    let! i := Py.index (DATETIME model) t in
    let! prev_t := getitem (DATETIME model) (Z.of_nat i - 1) in
    let! inv_eff := Py.div 1 (DISCHARGING_EFFICIENCY model) in
    Ok (fun s =>
          RelEq (s (NH3_LEVEL t))
                (s (NH3_LEVEL prev_t)
                 + (s (CHARGING_POWER t) * CHARGING_EFFICIENCY model
                    * TIMESTEP model * NH3_CONVERSION_FACTOR model)
                 - (s (DISCHARGING_POWER t) * inv_eff
                    * TIMESTEP model * NH3_CONVERSION_FACTOR model))).

Definition cyclical_storage_constraint_rule (model : DataPortal)
  : result (Solution -> Relational) :=
  let! last_t := getitem (DATETIME model) (-1) in
  Ok (fun s => RelEq (s (NH3_LEVEL last_t)) (s OPTIMAL_INITIAL_NH3_LEVEL)).

Definition min_charging_rule (model : DataPortal) (t : nat)
  : result (Solution -> Relational) :=
  Ok (fun s => RelGe (s (CHARGING_POWER t))
                     (MIN_CHARGING_THRESHOLD model * MAXIMUM_CHARGING_POWER model
                      * s (IS_CHARGING_ON t))).

Definition max_charging_rule (model : DataPortal) (t : nat)
  : result (Solution -> Relational) :=
  Ok (fun s => RelLe (s (CHARGING_POWER t))
                     (MAXIMUM_CHARGING_POWER model * s (IS_CHARGING_ON t))).

Definition min_discharging_rule (model : DataPortal) (t : nat)
  : result (Solution -> Relational) :=
  Ok (fun s => RelGe (s (DISCHARGING_POWER t))
                     (MIN_DISCHARGING_THRESHOLD model * MAXIMUM_DISCHARGING_POWER model
                      * s (IS_DISCHARGING_ON t))).

Definition max_discharging_rule (model : DataPortal) (t : nat)
  : result (Solution -> Relational) :=
  Ok (fun s => RelLe (s (DISCHARGING_POWER t))
                     (MAXIMUM_DISCHARGING_POWER model * s (IS_DISCHARGING_ON t))).

Definition no_simultaneous_operation_rule (model : DataPortal) (t : nat)
  : result (Solution -> Relational) :=
  Ok (fun s => RelLe (s (IS_CHARGING_ON t) + s (IS_DISCHARGING_ON t)) 1).

(** *** [create_optimization_model]: the components, in declaration order.
    The method reads no attribute of [self]. *)
Definition create_optimization_model : AbstractModel :=
  [ ("OPTIMAL_NH3_CAPACITY",
      Var OPTIMAL_NH3_CAPACITY NonNegativeReals (Some (0, 100000)));
    ("OPTIMAL_INITIAL_NH3_LEVEL",
      Var OPTIMAL_INITIAL_NH3_LEVEL NonNegativeReals None);
    ("CHARGING_POWER",
      IndexedVar CHARGING_POWER NonNegativeReals
                 (Some (fun m _ => (0, MAXIMUM_CHARGING_POWER m))));
    ("DISCHARGING_POWER",
      IndexedVar DISCHARGING_POWER NonNegativeReals
                 (Some (fun m _ => (0, MAXIMUM_DISCHARGING_POWER m))));
    ("NH3_LEVEL", IndexedVar NH3_LEVEL NonNegativeReals None);
    ("IS_CHARGING_ON", IndexedVar IS_CHARGING_ON Binary None);
    ("IS_DISCHARGING_ON", IndexedVar IS_DISCHARGING_ON Binary None);
    ("CHARGING_STARTED", IndexedVar CHARGING_STARTED Binary None);
    ("CHARGING_STOPPED", IndexedVar CHARGING_STOPPED Binary None);
    ("objective", Objective operational_profit_rule);
    ("storage_capacity_constraint",
      IndexedConstraint storage_capacity_constraint_rule);
    ("initial_storage_constraint", Constraint initial_storage_constraint_rule);
    ("nh3_balance_constraint", IndexedConstraint nh3_balance_rule);
    ("cyclical_storage_constraint", Constraint cyclical_storage_constraint_rule);
    ("min_charging_constraint", IndexedConstraint min_charging_rule);
    ("max_charging_constraint", IndexedConstraint max_charging_rule);
    ("min_discharging_constraint", IndexedConstraint min_discharging_rule);
    ("max_discharging_constraint", IndexedConstraint max_discharging_rule);
    ("no_simultaneous_charge_discharge",
      IndexedConstraint no_simultaneous_operation_rule) ].

(** *** The optimizer object *)

Record AmmoniaBattery : Type := {
  p2a_max_capacity : Q;          (* battery.p2a.max_capacity *)
  p2a_overall_efficiency : Q;    (* battery.p2a.overall_efficiency *)
  storage_max_capacity : Q;      (* battery.storage.max_capacity *)
  a2p_max_capacity : Q;          (* battery.a2p.max_capacity *)
  a2p_conversion_technology : string;
  a2p_efficiency : Q             (* battery.a2p.power_generation.efficiency *)
}.

Record ResultRow : Type := {
  Time : cell + nat;
  TimeStep : nat;
  Price : Q;
  Charging_Power_MW : Q;
  Discharging_Power_MW : Q;
  NH3_Level_Tonnes : Q;
  NH3_Produced_Tonnes : Q;
  NH3_Consumed_Tonnes : Q;
  Charging_Cost : Q;
  Discharging_Revenue : Q;
  Net_Revenue : Q;
  Is_Charging : Q;
  Is_Discharging : Q;
  Demand : cell;
  Wind : cell;
  Curtailment : cell;
  Carbon_based_fuels : cell
}.

(** The ledger [results_df]: one row per timestep and the cumulative
    columns. *)
Record Ledger : Type := {
  rows : list ResultRow;
  Cumulative_NH3_Produced : list Q;
  Cumulative_NH3_Consumed : list Q;
  Cumulative_Net_Revenue : list Q
}.

Record OptimalDesign : Type := {
  optimal_capacity_tonnes : Q;
  optimal_initial_level_tonnes : Q
}.

Record Results : Type := {
  operational_results : Ledger;
  optimal_design : OptimalDesign;
  economics : Economics
}.

Record IntegratedAmmoniaBatteryOptimizer : Type := {
  time_interval_hours : Q;
  battery : AmmoniaBattery;
  charging_efficiency : Q;
  discharging_efficiency : Q;
  lhv_NH3 : Q;
  system_costs : SystemCosts;
  self_annualized_capex : Q;
  annual_opex : Q;
  min_charging_threshold : Q;
  min_discharging_threshold : Q;
  optimization_results : option Results
}.

(** [AmmoniaToPower.__init__]: the efficiency of the chosen technology. *)
Definition power_generation_efficiency (conversion_technology : string) : result Q :=
  if String.eqb conversion_technology "direct_combustion" then Ok (60 # 100)
  else if String.eqb conversion_technology "blend_combustion" then Ok (574 # 1000)
  else if String.eqb conversion_technology "h2_combustion" then Ok (525 # 1000)
  else Raise (ValueError "Unsupported conversion technology").

(** [PowerToAmmonia.calc_p2a_efficiency] with the energy consumptions the
    constructor fixes (MJ/kg NH3). *)
Definition calc_p2a_efficiency : Q * Q :=
  let electrolyser := 353 # 10 in
  let air_separation_unit := 74 # 100 in
  let synthesis_loop := (763 # 1000) + (587 # 1000) + (294 # 1000) in
  let total_energy_consumption := electrolyser + air_separation_unit + synthesis_loop in
  (total_energy_consumption, (186 # 10) / total_energy_consumption).

(** [__init__].  [costs] stands for [battery.calculate_total_system_costs()],
    whose equipment cost curves are not part of this development. *)
Definition init (p2a_capacity storage_capacity a2p_capacity : Q)
           (a2p_technology : string) (time_interval : Q) (costs : SystemCosts)
  : result IntegratedAmmoniaBatteryOptimizer :=
  let! eff := power_generation_efficiency a2p_technology in
  let b := {| p2a_max_capacity := p2a_capacity;
              p2a_overall_efficiency := snd calc_p2a_efficiency;
              storage_max_capacity := storage_capacity;
              a2p_max_capacity := a2p_capacity;
              a2p_conversion_technology := a2p_technology;
              a2p_efficiency := eff |} in
  let! annualized := calculate_annualized_cost (sc_total_capex costs)
                                               LIFETIME_YEARS DISCOUNT_RATE in
  Ok {| time_interval_hours := time_interval;
        battery := b;
        charging_efficiency := p2a_overall_efficiency b;
        discharging_efficiency := a2p_efficiency b;
        lhv_NH3 := 186 # 10;
        system_costs := costs;
        self_annualized_capex := annualized;
        annual_opex := sc_total_opex costs;
        min_charging_threshold := 0;
        min_discharging_threshold := 0;
        optimization_results := None |}.

Definition set_optimization_results (self : IntegratedAmmoniaBatteryOptimizer)
           (r : option Results) : IntegratedAmmoniaBatteryOptimizer :=
  {| time_interval_hours := time_interval_hours self;
     battery := battery self;
     charging_efficiency := charging_efficiency self;
     discharging_efficiency := discharging_efficiency self;
     lhv_NH3 := lhv_NH3 self;
     system_costs := system_costs self;
     self_annualized_capex := self_annualized_capex self;
     annual_opex := annual_opex self;
     min_charging_threshold := min_charging_threshold self;
     min_discharging_threshold := min_discharging_threshold self;
     optimization_results := r |}.

(** *** [_get_timestep] *)
Definition _get_timestep (self : IntegratedAmmoniaBatteryOptimizer) (df : DataFrame) : Q :=
  time_interval_hours self.

(** *** [prepare_data] *)

(** The frequency string [f"{int(self.time_interval_hours)}H"]. *)
Definition resample_freq (self : IntegratedAmmoniaBatteryOptimizer) : string :=
  pretty (Py.int (time_interval_hours self)) +:+ "H".

(** The block under [# Handle datetime and resampling]. *)
Definition handle_datetime `{TimeOps} (self : IntegratedAmmoniaBatteryOptimizer)
           (df : DataFrame) : result DataFrame :=
  match columns df !! "DATETIME" with
  | Some col =>
      let! stamps := to_datetime col in
      let df := setcol df "DATETIME" (TimeSeries stamps) in
      let! t1 := getitem stamps 1 in
      let! t0 := getitem stamps 0 in
      let original_interval := inject_Z (t1 - t0) / 3600 in
      if negb (Qeq_bool (time_interval_hours self) original_interval) then
        let freq := resample_freq self in
        let numeric_cols := select_numeric (delete "DATETIME" (columns df)) in
        resample_mean freq stamps numeric_cols
      else Ok df
  | None => Ok df
  end.

(** Every variable at 0: the plant never charges nor discharges. *)
Definition idle_solution : Solution := fun _ => 0.

(** The five series [prepare_data] binds, in binding order. *)
Definition series_columns : list string :=
  ["PRICE"; "DEMAND"; "WIND"; "CURTAILMENT"; "CARBON_BASED_FUELS"].

(** [dict(zip(time_indices, df[name]))] *)
Definition bind_series (df : DataFrame) (time_indices : list nat) (name : string)
  : result (gmap nat cell) :=
  let! col := getcol df name in
  Ok (Py.dict (zip time_indices (values col))).

Definition prepare_data `{TimeOps} (self : IntegratedAmmoniaBatteryOptimizer)
           (timeseries_df : DataFrame) : result DataPortal :=
  let! df := handle_datetime self timeseries_df in
  let time_indices := seq 0 (nrows df) in
  let! price := bind_series df time_indices "PRICE" in
  let! demand := bind_series df time_indices "DEMAND" in
  let! wind := bind_series df time_indices "WIND" in
  let! curtailment := bind_series df time_indices "CURTAILMENT" in
  let! carbon := bind_series df time_indices "CARBON_BASED_FUELS" in
  let! nh3_conversion_factor := Py.div 3600 (lhv_NH3 self * 1000) in
  Ok {| DATETIME := time_indices;
        PRICE := price;
        DEMAND := demand;
        WIND := wind;
        CURTAILMENT := curtailment;
        CARBON_BASED_FUELS := carbon;
        MAXIMUM_CHARGING_POWER := p2a_max_capacity (battery self);
        MAXIMUM_DISCHARGING_POWER := a2p_max_capacity (battery self);
        CHARGING_EFFICIENCY := charging_efficiency self;
        DISCHARGING_EFFICIENCY := discharging_efficiency self;
        TIMESTEP := _get_timestep self df;
        MIN_CHARGING_THRESHOLD := min_charging_threshold self;
        MIN_DISCHARGING_THRESHOLD := min_discharging_threshold self;
        LHV_NH3 := lhv_NH3 self;
        NH3_CONVERSION_FACTOR := nh3_conversion_factor |}.

(** *** [process_results] *)

(** [pyo.value(instance.objective)] *)
Definition objective_value (instance : ConcreteModel) (sol : Solution) : result Q :=
  let! f := find_objective "objective" (objectives instance) in
  Ok (f sol).

(** The body of the loop over [instance.DATETIME]. *)
Definition result_row (instance : ConcreteModel) (sol : Solution)
           (timeseries_df : DataFrame) (t : nat) : result ResultRow :=
  let model := params instance in
  let timestep := TIMESTEP model in
  let nh3_conversion_factor := NH3_CONVERSION_FACTOR model in
  let! datetime_val :=
    match columns timeseries_df !! "DATETIME" with
    | Some col => let! c := getitem (values col) (Z.of_nat t) in Ok (inl c)
    | None => Ok (inr t)
    end in
  let charging_power := sol (CHARGING_POWER t) in
  let discharging_power := sol (DISCHARGING_POWER t) in
  let nh3_level := sol (NH3_LEVEL t) in
  let charging_eff := CHARGING_EFFICIENCY model in
  let discharging_eff := DISCHARGING_EFFICIENCY model in
  let nh3_produced := charging_power * timestep * charging_eff * nh3_conversion_factor in
  let! inv_eff := Py.div 1 discharging_eff in
  let nh3_consumed := discharging_power * timestep * inv_eff * nh3_conversion_factor in
  let! price := numeric_param "PRICE" (PRICE model) t in
  let charging_cost := charging_power * timestep * price in
  let discharging_revenue := discharging_power * timestep * price in
  let! demand := lookup_param "DEMAND" (DEMAND model) t in
  let! wind := lookup_param "WIND" (WIND model) t in
  let! curtailment := lookup_param "CURTAILMENT" (CURTAILMENT model) t in
  let! carbon := lookup_param "CARBON_BASED_FUELS" (CARBON_BASED_FUELS model) t in
  Ok {| Time := datetime_val;
        TimeStep := t;
        Price := price;
        Charging_Power_MW := charging_power;
        Discharging_Power_MW := discharging_power;
        NH3_Level_Tonnes := nh3_level;
        NH3_Produced_Tonnes := nh3_produced;
        NH3_Consumed_Tonnes := nh3_consumed;
        Charging_Cost := charging_cost;
        Discharging_Revenue := discharging_revenue;
        Net_Revenue := discharging_revenue - charging_cost;
        Is_Charging := sol (IS_CHARGING_ON t);
        Is_Discharging := sol (IS_DISCHARGING_ON t);
        Demand := demand;
        Wind := wind;
        Curtailment := curtailment;
        Carbon_based_fuels := carbon |}.

Definition process_results `{RealPower} (self : IntegratedAmmoniaBatteryOptimizer)
           (instance : ConcreteModel) (sol : Solution) (timeseries_df : DataFrame)
  : result Results :=
  let optimal_capacity := sol OPTIMAL_NH3_CAPACITY in
  let optimal_initial_level := sol OPTIMAL_INITIAL_NH3_LEVEL in
  let! results := for_each (result_row instance sol timeseries_df)
                           (DATETIME (params instance)) in
  (* a frame built from no rows has no column to accumulate *)
  if Nat.eqb (length results) 0 then Raise (KeyError "NH3_Produced_Tonnes")
  else
    let results_df :=
      {| rows := results;
         Cumulative_NH3_Produced := Py.cumsum (map NH3_Produced_Tonnes results);
         Cumulative_NH3_Consumed := Py.cumsum (map NH3_Consumed_Tonnes results);
         Cumulative_Net_Revenue := Py.cumsum (map Net_Revenue results) |} in
    let total_operational_profit := Py.sum (map Net_Revenue results) in
    let! objective := objective_value instance sol in
    let hours := inject_Z (Z.of_nat (length results)) * TIMESTEP (params instance) in
    let! final_economics :=
      calculate_system_economics_with_optimal_storage
        optimal_capacity total_operational_profit hours (system_costs self) in
    Ok {| operational_results := results_df;
          optimal_design :=
            {| optimal_capacity_tonnes := optimal_capacity;
               optimal_initial_level_tonnes := optimal_initial_level |};
          economics := final_economics |}.

(** *** [optimize] *)

Record SolverResults : Type := {
  status : string;
  termination_condition : string
}.

(** [SolverFactory('glpk').solve(instance, options={'mipgap': mipgap})]:
    the solver's report and the variable values it loads into the
    instance. *)
Class Solver : Type := {
  solve : ConcreteModel -> Q -> result (SolverResults * Solution)
}.

Definition solved (results : SolverResults) : bool :=
  String.eqb (status results) "ok"
  && (String.eqb (termination_condition results) "optimal"
      || String.eqb (termination_condition results) "feasible").

(** The method returns a value ([None] or the results) and may assign
    [self.optimization_results]; an exception leaves [self] as it was. *)
Definition optimize `{TimeOps} `{RealPower} `{Solver}
           (self : IntegratedAmmoniaBatteryOptimizer) (timeseries_df : DataFrame)
           (mipgap : Q)
  : result (option Results * IntegratedAmmoniaBatteryOptimizer) :=
  let model := create_optimization_model in
  let! data := prepare_data self timeseries_df in
  let! instance := create_instance model data in
  let! outcome := solve instance mipgap in
  if solved outcome.1 then
    let! r := process_results self instance outcome.2 timeseries_df in
    Ok (Some r, set_optimization_results self (Some r))
  else Ok (None, self).

(** The mass a timestep adds to the store and the mass it draws from it. *)
Definition charge_in (data : DataPortal) (s : Solution) (t : nat) : Q :=
  (s (CHARGING_POWER t) * CHARGING_EFFICIENCY data * TIMESTEP data
  * NH3_CONVERSION_FACTOR data)%Q.

Definition discharge_out (data : DataPortal) (s : Solution) (t : nat) : Q :=
  (s (DISCHARGING_POWER t) * (1 / DISCHARGING_EFFICIENCY data) * TIMESTEP data
  * NH3_CONVERSION_FACTOR data)%Q.

End Engine.

Import Engine.

(** ** analysis/curtailment_analysis.py *)

Module CurtailmentAnalysis.

Local Open Scope Q_scope.

Record TimeAnalysis : Type := {
  total_hours : Q;
  curtailment_hours : Q;
  charging_during_curtailment_hours : Q;
  discharging_during_curtailment_hours : Q;
  idle_during_curtailment_hours : Q;
  pct_curtailment_periods_charging : Q;
  pct_curtailment_periods_discharging : Q;
  pct_curtailment_periods_idle : Q
}.

Record EnergyAnalysis : Type := {
  total_curtailment_energy_mwh : Q;
  curtailment_during_charging_mwh : Q;
  curtailment_during_discharging_mwh : Q;
  curtailment_during_idle_mwh : Q;
  pct_curtailment_energy_during_charging : Q;
  pct_curtailment_energy_during_discharging : Q
}.

Record BatteryCurtailmentInteraction : Type := {
  battery_charging_energy_during_curtailment_mwh : Q;
  battery_discharging_energy_during_curtailment_mwh : Q;
  curtailment_capture_efficiency_pct : Q;
  additional_excess_energy_from_battery_mwh : Q
}.

Record SummaryMetrics : Type := {
  curtailment_periods_total : nat;
  curtailment_periods_with_charging : nat;
  curtailment_periods_with_discharging : nat;
  curtailment_capture_ratio : Q;
  excess_energy_contribution_ratio : Q
}.

Record Report : Type := {
  time_analysis : TimeAnalysis;
  energy_analysis : EnergyAnalysis;
  battery_curtailment_interaction : BatteryCurtailmentInteraction;
  summary_metrics : SummaryMetrics
}.

(** [a > b] on floats. *)
Definition gt (a b : Q) : bool := negb (Qle_bool a b).

(** A column read as numbers. *)
Definition numeric (c : cell) : result Q :=
  match c with
  | CNum x => Ok x
  | _ => Raise TypeError
  end.

(** [mask.sum()] *)
Definition count (mask : list bool) : nat := length (filter (fun b => b = true) mask).

(** [df.loc[mask, column].sum()] *)
Definition masked_sum (mask : list bool) (column : list Q) : Q :=
  Py.sum (map snd (filter (fun p => p.1 = true) (zip mask column))).

Definition and_mask (a b : list bool) : list bool := zip_with andb a b.

Definition of_count (n : nat) : Q := inject_Z (Z.of_nat n).

Definition analyze_curtailment_interactions (optimization_results_df : list ResultRow)
           (timestep_hours : Q) : result Report :=
  let df := optimization_results_df in
  let! curtailment := for_each (fun r => numeric (Curtailment r)) df in
  let charging := map Charging_Power_MW df in
  let discharging := map Discharging_Power_MW df in
  let Is_Curtailment := map (fun c => gt c 0) curtailment in
  let Is_Battery_Charging := map (fun p => gt p 0) charging in
  let Is_Battery_Discharging := map (fun p => gt p 0) discharging in
  let Is_Battery_Idle :=
    zip_with andb (map (fun p => Qeq_bool p 0) charging)
                  (map (fun p => Qeq_bool p 0) discharging) in
  let Charging_During_Curtailment := and_mask Is_Curtailment Is_Battery_Charging in
  let Discharging_During_Curtailment := and_mask Is_Curtailment Is_Battery_Discharging in
  let Idle_During_Curtailment := and_mask Is_Curtailment Is_Battery_Idle in
  let total_periods := length df in
  let curtailment_periods := count Is_Curtailment in
  let charging_during_curtailment_periods := count Charging_During_Curtailment in
  let discharging_during_curtailment_periods := count Discharging_During_Curtailment in
  let idle_during_curtailment_periods := count Idle_During_Curtailment in
  let pct_of_periods (n : nat) :=
    if Nat.ltb 0 curtailment_periods
    then of_count n / of_count curtailment_periods * 100 else 0 in
  let total_curtailment_energy := Py.sum curtailment * timestep_hours in
  let curtailment_during_charging :=
    masked_sum Charging_During_Curtailment curtailment * timestep_hours in
  let curtailment_during_discharging :=
    masked_sum Discharging_During_Curtailment curtailment * timestep_hours in
  let curtailment_during_idle :=
    masked_sum Idle_During_Curtailment curtailment * timestep_hours in
  let battery_charging_energy_during_curtailment :=
    masked_sum Charging_During_Curtailment charging * timestep_hours in
  let battery_discharging_energy_during_curtailment :=
    masked_sum Discharging_During_Curtailment discharging * timestep_hours in
  let pct_of_energy (e : Q) :=
    if gt total_curtailment_energy 0 then e / total_curtailment_energy * 100 else 0 in
  let curtailment_capture_efficiency :=
    if gt curtailment_during_charging 0
    then battery_charging_energy_during_curtailment / curtailment_during_charging * 100
    else 0 in
  let additional_excess_energy := battery_discharging_energy_during_curtailment in
  Ok {| time_analysis :=
          {| total_hours := of_count total_periods * timestep_hours;
             curtailment_hours := of_count curtailment_periods * timestep_hours;
             charging_during_curtailment_hours :=
               of_count charging_during_curtailment_periods * timestep_hours;
             discharging_during_curtailment_hours :=
               of_count discharging_during_curtailment_periods * timestep_hours;
             idle_during_curtailment_hours :=
               of_count idle_during_curtailment_periods * timestep_hours;
             pct_curtailment_periods_charging :=
               pct_of_periods charging_during_curtailment_periods;
             pct_curtailment_periods_discharging :=
               pct_of_periods discharging_during_curtailment_periods;
             pct_curtailment_periods_idle :=
               pct_of_periods idle_during_curtailment_periods |};
        energy_analysis :=
          {| total_curtailment_energy_mwh := total_curtailment_energy;
             curtailment_during_charging_mwh := curtailment_during_charging;
             curtailment_during_discharging_mwh := curtailment_during_discharging;
             curtailment_during_idle_mwh := curtailment_during_idle;
             pct_curtailment_energy_during_charging :=
               pct_of_energy curtailment_during_charging;
             pct_curtailment_energy_during_discharging :=
               pct_of_energy curtailment_during_discharging |};
        battery_curtailment_interaction :=
          {| battery_charging_energy_during_curtailment_mwh :=
               battery_charging_energy_during_curtailment;
             battery_discharging_energy_during_curtailment_mwh :=
               battery_discharging_energy_during_curtailment;
             curtailment_capture_efficiency_pct := curtailment_capture_efficiency;
             additional_excess_energy_from_battery_mwh := additional_excess_energy |};
        summary_metrics :=
          {| curtailment_periods_total := curtailment_periods;
             curtailment_periods_with_charging := charging_during_curtailment_periods;
             curtailment_periods_with_discharging := discharging_during_curtailment_periods;
             curtailment_capture_ratio :=
               if gt total_curtailment_energy 0
               then battery_charging_energy_during_curtailment / total_curtailment_energy
               else 0;
             excess_energy_contribution_ratio :=
               if gt total_curtailment_energy 0
               then additional_excess_energy / total_curtailment_energy
               else 0 |} |}.

(** The eight percentage and ratio outputs. *)
Definition ratio_outputs (r : Report) : list Q :=
  [ pct_curtailment_periods_charging (time_analysis r);
    pct_curtailment_periods_discharging (time_analysis r);
    pct_curtailment_periods_idle (time_analysis r);
    pct_curtailment_energy_during_charging (energy_analysis r);
    pct_curtailment_energy_during_discharging (energy_analysis r);
    curtailment_capture_efficiency_pct (battery_curtailment_interaction r);
    curtailment_capture_ratio (summary_metrics r);
    excess_energy_contribution_ratio (summary_metrics r) ].

(** Those whose denominator is the total curtailment energy. *)
Definition energy_ratio_outputs (r : Report) : list Q :=
  [ pct_curtailment_energy_during_charging (energy_analysis r);
    pct_curtailment_energy_during_discharging (energy_analysis r);
    curtailment_capture_ratio (summary_metrics r);
    excess_energy_contribution_ratio (summary_metrics r) ].

End CurtailmentAnalysis.

Import CurtailmentAnalysis.

(** ** Concrete collaborators and inputs used to run the definitions *)

Module Fixtures.

Local Open Scope Q_scope.

(** Frequencies of the form [<digits>H]. *)
Fixpoint parse_hours (s : string) (acc : option Z) : option Z :=
  match s with
  | EmptyString => None
  | String c rest =>
      if Nat.eqb (Ascii.nat_of_ascii c) 72
      then match rest with EmptyString => acc | _ => None end
      else
        let d := (Z.of_nat (Ascii.nat_of_ascii c) - 48)%Z in
        if ((0 <=? d) && (d <=? 9))%Z
        then parse_hours rest (Some (10 * default 0%Z acc + d)%Z)
        else None
  end.

Definition positions_in (origin width k : Z) (index : list Z) : list nat :=
  map fst (filter (fun p => ((p.2 - origin) `div` width)%Z = k)
                  (zip (seq 0 (length index)) index)).

(** Left-closed, left-labelled bins of [width] hours counted from the
    midnight before the earliest timestamp, from the bin of the earliest
    to the bin of the latest timestamp. *)
Definition hour_bins (freq : string) (index : list Z) : result (list (Z * list nat)) :=
  match parse_hours freq None with
  | None => Raise (ValueError "Invalid frequency")
  | Some h =>
      if (h <=? 0)%Z then Raise (ValueError "Invalid frequency")
      else
        match index with
        | [] => Ok []
        | t :: _ =>
            let lo := fold_right Z.min t index in
            let hi := fold_right Z.max t index in
            let origin := (lo - lo `mod` 86400)%Z in
            let width := (h * 3600)%Z in
            let k0 := ((lo - origin) `div` width)%Z in
            let kN := ((hi - origin) `div` width)%Z in
            Ok (map (fun i => let k := (k0 + Z.of_nat i)%Z in
                              ((origin + k * width)%Z, positions_in origin width k index))
                    (seq 0 (Z.to_nat (kN - k0 + 1))))
        end
  end.

#[export] Instance reference_time : TimeOps :=
  {| to_datetime s := match s with
                      | TimeSeries ts => Ok ts
                      | _ => Raise (ValueError "unparsed timestamps")
                      end;
     resample_bins := hour_bins |}.

#[export] Instance sample_power : RealPower := {| fpow base _ := base |}.

Definition sample_costs : SystemCosts :=
  {| sc_p2a_capex := 1000; sc_storage_capex := 500; sc_a2p_capex := 800;
     sc_total_capex := 2300; sc_p2a_opex := 20; sc_storage_opex := 10;
     sc_a2p_opex := 16; sc_total_opex := 46 |}.

(** An optimizer with unit efficiencies and 10 MW on both sides. *)
Definition unit_optimizer (interval : Q) : IntegratedAmmoniaBatteryOptimizer :=
  {| time_interval_hours := interval;
     battery := {| p2a_max_capacity := 10; p2a_overall_efficiency := 1;
                   storage_max_capacity := 100000; a2p_max_capacity := 10;
                   a2p_conversion_technology := "direct_combustion";
                   a2p_efficiency := 1 |};
     charging_efficiency := 1;
     discharging_efficiency := 1;
     lhv_NH3 := 186 # 10;
     system_costs := sample_costs;
     self_annualized_capex := 0;
     annual_opex := 46;
     min_charging_threshold := 0;
     min_discharging_threshold := 0;
     optimization_results := None |}.

(** The same plant built with a 1-tonne store. *)
Definition small_storage_optimizer : IntegratedAmmoniaBatteryOptimizer :=
  {| time_interval_hours := 1;
     battery := {| p2a_max_capacity := 10; p2a_overall_efficiency := 1;
                   storage_max_capacity := 1; a2p_max_capacity := 10;
                   a2p_conversion_technology := "direct_combustion";
                   a2p_efficiency := 1 |};
     charging_efficiency := 1;
     discharging_efficiency := 1;
     lhv_NH3 := 186 # 10;
     system_costs := sample_costs;
     self_annualized_capex := 0;
     annual_opex := 46;
     min_charging_threshold := 0;
     min_discharging_threshold := 0;
     optimization_results := None |}.

Definition frame (n : nat) (cols : list (string * Series)) : DataFrame :=
  {| nrows := n; columns := list_to_map cols |}.

(** Two hourly rows, price 0 then 100. *)
Definition two_step_df : DataFrame :=
  frame 2 [ ("DATETIME", TimeSeries [0; 3600]%Z);
            ("PRICE", NumSeries [0; 100]);
            ("DEMAND", NumSeries [30; 40]);
            ("WIND", NumSeries [12; 8]);
            ("CURTAILMENT", NumSeries [2; 0]);
            ("CARBON_BASED_FUELS", NumSeries [18; 32]) ].

(** The same series without the timestamp column. *)
Definition no_datetime_df : DataFrame :=
  frame 2 [ ("PRICE", NumSeries [0; 100]);
            ("DEMAND", NumSeries [30; 40]);
            ("WIND", NumSeries [12; 8]);
            ("CURTAILMENT", NumSeries [2; 0]);
            ("CARBON_BASED_FUELS", NumSeries [18; 32]) ].

(** Timestamps present, the price column absent. *)
Definition no_price_df : DataFrame :=
  frame 2 [ ("DATETIME", TimeSeries [0; 3600]%Z);
            ("DEMAND", NumSeries [30; 40]);
            ("WIND", NumSeries [12; 8]);
            ("CURTAILMENT", NumSeries [2; 0]);
            ("CARBON_BASED_FUELS", NumSeries [18; 32]) ].

(** Six half-hourly rows covering three hours. *)
Definition half_hourly_df : DataFrame :=
  frame 6 [ ("DATETIME", TimeSeries [0; 1800; 3600; 5400; 7200; 9000]%Z);
            ("PRICE", NumSeries [10; 20; 30; 40; 50; 60]);
            ("DEMAND", NumSeries [1; 1; 1; 1; 1; 1]);
            ("WIND", NumSeries [2; 2; 2; 2; 2; 2]);
            ("CURTAILMENT", NumSeries [0; 0; 0; 0; 0; 0]);
            ("CARBON_BASED_FUELS", NumSeries [3; 3; 3; 3; 3; 3]) ].

(** Charge 10 MW in step 0, discharge 10 MW in step 1, start empty. *)
Definition charge_then_discharge : Solution :=
  fun v =>
    match v with
    | OPTIMAL_NH3_CAPACITY => 36000 # 18600
    | OPTIMAL_INITIAL_NH3_LEVEL => 0
    | CHARGING_POWER 0 => 10
    | DISCHARGING_POWER 1 => 10
    | NH3_LEVEL 0 => 36000 # 18600
    | IS_CHARGING_ON 0 => 1
    | IS_DISCHARGING_ON 1 => 1
    | _ => 0
    end.

(** The data bound from [two_step_df] at a one-hour timestep, and the
    instance of the model over it. *)
Definition two_step_data : DataPortal :=
  {| DATETIME := [0; 1]%nat;
     PRICE := Py.dict [(0%nat, CNum 0); (1%nat, CNum 100)];
     DEMAND := Py.dict [(0%nat, CNum 30); (1%nat, CNum 40)];
     WIND := Py.dict [(0%nat, CNum 12); (1%nat, CNum 8)];
     CURTAILMENT := Py.dict [(0%nat, CNum 2); (1%nat, CNum 0)];
     CARBON_BASED_FUELS := Py.dict [(0%nat, CNum 18); (1%nat, CNum 32)];
     MAXIMUM_CHARGING_POWER := 10;
     MAXIMUM_DISCHARGING_POWER := 10;
     CHARGING_EFFICIENCY := 1;
     DISCHARGING_EFFICIENCY := 1;
     TIMESTEP := 1;
     MIN_CHARGING_THRESHOLD := 0;
     MIN_DISCHARGING_THRESHOLD := 0;
     LHV_NH3 := 186 # 10;
     NH3_CONVERSION_FACTOR := 3600 / ((186 # 10) * 1000) |}.

Definition instance_of (data : DataPortal) : ConcreteModel :=
  match create_instance create_optimization_model data with
  | Ok inst => inst
  | Raise _ => empty_instance data
  end.

Definition two_step_instance : ConcreteModel := instance_of two_step_data.

(** The results processed from that instance and solution. *)
Definition no_results : Results :=
  {| operational_results :=
       {| rows := []; Cumulative_NH3_Produced := []; Cumulative_NH3_Consumed := [];
          Cumulative_Net_Revenue := [] |};
     optimal_design := {| optimal_capacity_tonnes := 0; optimal_initial_level_tonnes := 0 |};
     economics :=
       {| optimal_storage_capex := 0; p2a_capex := 0; a2p_capex := 0;
          total_system_capex := 0; annualized_capex := 0; total_annual_opex := 0;
          annual_operational_profit := 0; net_annual_profit := 0;
          period_operational_profit := 0; period_hours := 0; time_fraction := 0 |} |}.

Definition two_step_results : Results :=
  from_ok no_results
          (process_results (unit_optimizer 1) two_step_instance charge_then_discharge
                           two_step_df).

(** The data bound from [half_hourly_df] by an optimizer configured with a
    1.5-hour timestep. *)
Definition truncated_data : DataPortal :=
  from_ok two_step_data (prepare_data (unit_optimizer (3 # 2)) half_hourly_df).

Definition report (st tc : string) : SolverResults :=
  {| status := st; termination_condition := tc |}.

(** A solver that reports an optimal solution, and one that reports
    infeasibility. *)
Definition optimal_solver : Solver :=
  {| solve _ _ := Ok (report "ok" "optimal", charge_then_discharge) |}.

Definition infeasible_solver : Solver :=
  {| solve _ _ := Ok (report "warning" "infeasible", fun _ => 0) |}.

Definition ledger_row (curtailment charging discharging : Q) : ResultRow :=
  {| Time := inr 0%nat; TimeStep := 0; Price := 0;
     Charging_Power_MW := charging; Discharging_Power_MW := discharging;
     NH3_Level_Tonnes := 0; NH3_Produced_Tonnes := 0; NH3_Consumed_Tonnes := 0;
     Charging_Cost := 0; Discharging_Revenue := 0; Net_Revenue := 0;
     Is_Charging := 0; Is_Discharging := 0;
     Demand := CNum 0; Wind := CNum 0; Curtailment := CNum curtailment;
     Carbon_based_fuels := CNum 0 |}.

(** A ledger with battery activity and no curtailment, and its report. *)
Definition calm_ledger : list ResultRow :=
  [ledger_row 0 5 0; ledger_row 0 0 3; ledger_row 0 0 0].

Definition empty_report : Report :=
  {| time_analysis :=
       {| total_hours := 0; curtailment_hours := 0;
          charging_during_curtailment_hours := 0;
          discharging_during_curtailment_hours := 0;
          idle_during_curtailment_hours := 0;
          pct_curtailment_periods_charging := 0;
          pct_curtailment_periods_discharging := 0;
          pct_curtailment_periods_idle := 0 |};
     energy_analysis :=
       {| total_curtailment_energy_mwh := 0; curtailment_during_charging_mwh := 0;
          curtailment_during_discharging_mwh := 0; curtailment_during_idle_mwh := 0;
          pct_curtailment_energy_during_charging := 0;
          pct_curtailment_energy_during_discharging := 0 |};
     battery_curtailment_interaction :=
       {| battery_charging_energy_during_curtailment_mwh := 0;
          battery_discharging_energy_during_curtailment_mwh := 0;
          curtailment_capture_efficiency_pct := 0;
          additional_excess_energy_from_battery_mwh := 0 |};
     summary_metrics :=
       {| curtailment_periods_total := 0; curtailment_periods_with_charging := 0;
          curtailment_periods_with_discharging := 0; curtailment_capture_ratio := 0;
          excess_energy_contribution_ratio := 0 |} |}.

Definition calm_report : Report :=
  from_ok empty_report (analyze_curtailment_interactions calm_ledger (1 # 2)).

End Fixtures.

Import Fixtures.

Local Open Scope Q_scope.


(** ** Shapes of frames, models and solutions that later statements use *)

Module Shapes.

(** Every column of a frame has one entry per row of the index. *)
Definition well_formed (df : DataFrame) : Prop :=
  forall name col, columns df !! name = Some col -> length (values col) = nrows df.

(** How many variables and constraints the components of a model expand to
    over a horizon of [n] timesteps. *)
Fixpoint variable_count (n : nat) (model : AbstractModel) : nat :=
  match model with
  | [] => 0
  | (_, Var _ _ _) :: rest => S (variable_count n rest)
  | (_, IndexedVar _ _ _) :: rest => n + variable_count n rest
  | _ :: rest => variable_count n rest
  end.

Fixpoint constraint_count (n : nat) (model : AbstractModel) : nat :=
  match model with
  | [] => 0
  | (_, Constraint _) :: rest => S (constraint_count n rest)
  | (_, IndexedConstraint _) :: rest => n + constraint_count n rest
  | _ :: rest => constraint_count n rest
  end.

(** The two families of state-tracking binaries. *)
Definition is_state_tracking (v : var) : bool :=
  match v with
  | CHARGING_STARTED _ | CHARGING_STOPPED _ => true
  | _ => false
  end.

(** Two valuations that differ at most on the state-tracking binaries. *)
Definition same_operation (s s' : Solution) : Prop :=
  forall v, is_state_tracking v = false -> s v = s' v.

(** The parameter a series column is bound to. *)
Definition bound_series (data : DataPortal) (name : string) : option (gmap nat cell) :=
  if String.eqb name "PRICE" then Some (PRICE data)
  else if String.eqb name "DEMAND" then Some (DEMAND data)
  else if String.eqb name "WIND" then Some (WIND data)
  else if String.eqb name "CURTAILMENT" then Some (CURTAILMENT data)
  else if String.eqb name "CARBON_BASED_FUELS" then Some (CARBON_BASED_FUELS data)
  else None.

End Shapes.

Import Shapes.

(** ** Further sample inputs *)

Module Samples.

Local Open Scope Q_scope.

(** Bound data over an empty horizon, and bound data with a zero
    discharging efficiency. *)
Definition empty_horizon_data : DataPortal :=
  {| DATETIME := [];
     PRICE := ∅; DEMAND := ∅; WIND := ∅; CURTAILMENT := ∅; CARBON_BASED_FUELS := ∅;
     MAXIMUM_CHARGING_POWER := 10;
     MAXIMUM_DISCHARGING_POWER := 10;
     CHARGING_EFFICIENCY := 1;
     DISCHARGING_EFFICIENCY := 1;
     TIMESTEP := 1;
     MIN_CHARGING_THRESHOLD := 0;
     MIN_DISCHARGING_THRESHOLD := 0;
     LHV_NH3 := 186 # 10;
     NH3_CONVERSION_FACTOR := 3600 / ((186 # 10) * 1000) |}.

Definition zero_efficiency_data : DataPortal :=
  {| DATETIME := DATETIME two_step_data;
     PRICE := PRICE two_step_data;
     DEMAND := DEMAND two_step_data;
     WIND := WIND two_step_data;
     CURTAILMENT := CURTAILMENT two_step_data;
     CARBON_BASED_FUELS := CARBON_BASED_FUELS two_step_data;
     MAXIMUM_CHARGING_POWER := 10;
     MAXIMUM_DISCHARGING_POWER := 10;
     CHARGING_EFFICIENCY := 1;
     DISCHARGING_EFFICIENCY := 0;
     TIMESTEP := 1;
     MIN_CHARGING_THRESHOLD := 0;
     MIN_DISCHARGING_THRESHOLD := 0;
     LHV_NH3 := 186 # 10;
     NH3_CONVERSION_FACTOR := 3600 / ((186 # 10) * 1000) |}.

(** The two-step horizon with a price of zero throughout. *)
Definition zero_price_data : DataPortal :=
  {| DATETIME := DATETIME two_step_data;
     PRICE := Py.dict [(0%nat, CNum 0); (1%nat, CNum 0)];
     DEMAND := DEMAND two_step_data;
     WIND := WIND two_step_data;
     CURTAILMENT := CURTAILMENT two_step_data;
     CARBON_BASED_FUELS := CARBON_BASED_FUELS two_step_data;
     MAXIMUM_CHARGING_POWER := 10;
     MAXIMUM_DISCHARGING_POWER := 10;
     CHARGING_EFFICIENCY := 1;
     DISCHARGING_EFFICIENCY := 1;
     TIMESTEP := 1;
     MIN_CHARGING_THRESHOLD := 0;
     MIN_DISCHARGING_THRESHOLD := 0;
     LHV_NH3 := 186 # 10;
     NH3_CONVERSION_FACTOR := 3600 / ((186 # 10) * 1000) |}.

(** The two-step schedule with the state-tracking binaries set. *)
Definition charge_then_discharge_tracked : Solution :=
  fun v =>
    match v with
    | CHARGING_STARTED _ => 1
    | CHARGING_STOPPED 1 => 1
    | _ => charge_then_discharge v
    end.

End Samples.

Import Samples.

(** ** Further sample frames *)

Module SampleFrames.

Local Open Scope Q_scope.

(** A frame with timestamps and a single row. *)
Definition single_row_df : DataFrame :=
  frame 1 [ ("DATETIME", TimeSeries [0]%Z);
            ("PRICE", NumSeries [50]);
            ("DEMAND", NumSeries [30]);
            ("WIND", NumSeries [12]);
            ("CURTAILMENT", NumSeries [2]);
            ("CARBON_BASED_FUELS", NumSeries [18]) ].

(** Four half-hourly rows with a text column beside the series. *)
Definition labelled_df : DataFrame :=
  frame 4 [ ("DATETIME", TimeSeries [0; 1800; 3600; 5400]%Z);
            ("PRICE", NumSeries [10; 30; 50; 70]);
            ("DEMAND", NumSeries [1; 1; 1; 1]);
            ("WIND", NumSeries [2; 2; 2; 2]);
            ("CURTAILMENT", NumSeries [0; 4; 0; 0]);
            ("CARBON_BASED_FUELS", NumSeries [3; 3; 3; 3]);
            ("REGION", ObjSeries ["north"; "north"; "south"; "south"]) ].

(** [labelled_df] as an optimizer configured for hourly steps handles it. *)
Definition hourly_labelled_df : DataFrame :=
  from_ok labelled_df (handle_datetime (unit_optimizer 1) labelled_df).

End SampleFrames.

Import SampleFrames.

(** ** Ledgers for the curtailment analysis *)

Module Ledgers.

Local Open Scope Q_scope.

(** A row of a battery whose powers are nonnegative and not both positive,
    as the constraints of the model leave them. *)
Definition exclusive_row (row : ResultRow) : Prop :=
  0 <= Charging_Power_MW row /\ 0 <= Discharging_Power_MW row
  /\ (Charging_Power_MW row == 0 \/ Discharging_Power_MW row == 0).

(** Curtailment while charging, while discharging and while idle, and one
    period without curtailment. *)
Definition windy_ledger : list ResultRow :=
  [ledger_row 4 5 0; ledger_row 2 0 3; ledger_row 6 0 0; ledger_row 0 0 0].

Definition windy_report : Report :=
  from_ok empty_report (analyze_curtailment_interactions windy_ledger (1 # 2)).

End Ledgers.

Import Ledgers.

(** ** Equipment costing ([process_units/equipment.py]) *)

Module Equipment.

Local Open Scope Q_scope.

(** The plant cost index by year. *)
Definition CEPCI_TABLE : list (Z * Q) :=
  [ (2024%Z, 7991 # 10); (2023%Z, 7979 # 10); (2022%Z, 816); (2021%Z, 7088 # 10);
    (2020%Z, 5962 # 10); (2019%Z, 6075 # 10); (2018%Z, 6031 # 10); (2017%Z, 5675 # 10);
    (2016%Z, 5417 # 10); (2015%Z, 5568 # 10); (2014%Z, 5761 # 10); (2013%Z, 5673 # 10);
    (2012%Z, 5846 # 10); (2011%Z, 5857 # 10); (2010%Z, 5508 # 10); (2009%Z, 5219 # 10);
    (2008%Z, 5754 # 10); (2007%Z, 5254 # 10); (2006%Z, 4996 # 10); (2005%Z, 4682 # 10);
    (2004%Z, 4442 # 10); (2003%Z, 402); (2002%Z, 3956 # 10); (2001%Z, 3943 # 10) ].

Definition CEPCI_DICT : gmap Z Q := list_to_map CEPCI_TABLE.

(** [adjust_cost_with_cepci(base_cost, base_year, target_year)] *)
Definition adjust_cost_with_cepci (base_cost : Q) (base_year target_year : Z)
  : result Q :=
  match CEPCI_DICT !! base_year, CEPCI_DICT !! target_year with
  | Some base_index, Some target_index =>
      let! cepci_ratio := Py.div target_index base_index in
      Ok (base_cost * cepci_ratio)
  | _, _ => Raise (ValueError "CEPCI data not available")
  end.

End Equipment.

Import Equipment.

(** ** The profit as the program computes it, in binary64

    Everything above takes a Python float to be an exact rational.  The
    objective and the ledger total are the one place where a claim compares
    two floats the program computes by different expressions; here they are
    again over IEEE binary64, with the products in the order the source
    writes them. *)

Module Float64.

Import PrimFloat.
Local Open Scope float_scope.

(** One timestep: its price and the solved powers. *)
Record Step : Set := {
  price : float;
  charging_power : float;
  discharging_power : float
}.

(** [sum(xs)]: left to right from 0. *)
Definition sum (xs : list float) : float := fold_left add xs 0.

(** [operational_profit_rule], evaluated at the solved values. *)
Definition objective_value (steps : list Step) (TIMESTEP : float) : float :=
  sum (map (fun st => (price st * discharging_power st * TIMESTEP)
                      - (price st * charging_power st * TIMESTEP))
           steps).

(** The same with the constant factors multiplied first, as an expression
    tree that folds [PRICE[t] * TIMESTEP] into the coefficient of the power
    evaluates. *)
Definition objective_value_folded (steps : list Step) (TIMESTEP : float) : float :=
  sum (map (fun st => (price st * TIMESTEP * discharging_power st)
                      - (price st * TIMESTEP * charging_power st))
           steps).

(** [Net_Revenue] of one ledger row of [process_results]. *)
Definition net_revenue (timestep : float) (st : Step) : float :=
  let charging_cost := charging_power st * timestep * price st in
  let discharging_revenue := discharging_power st * timestep * price st in
  discharging_revenue - charging_cost.

(** [results_df['Net_Revenue'].sum()] *)
Definition total_operational_profit (steps : list Step) (timestep : float) : float :=
  sum (map (net_revenue timestep) steps).

(** Charging 2 MW at price 0, then discharging 1.4 MW at price 20, in steps
    of 1.5 hours.  Only one product is not zero, so the order of the
    summation plays no role. *)
Definition free_then_dear : list Step :=
  [ {| price := 0; charging_power := 2; discharging_power := 0 |};
    {| price := 20; charging_power := 0;
       discharging_power := 0x1.6666666666666p+0 (* 1.4 *) |} ].

Definition ninety_minutes : float := 0x1.8p+0 (* 1.5 *).

(** The two floats Python prints as 42.0 and 41.99999999999999. *)
Definition forty_two : float := 42.
Definition below_forty_two : float := 0x1.4ffffffffffffp+5.

End Float64.

(** ** The ledger of a frame without timestamps *)

Module SampleLedgers.

(** The ledger of the two-step schedule read against [no_datetime_df]. *)
Definition no_datetime_results : Results :=
  from_ok no_results
          (process_results (unit_optimizer 1) two_step_instance charge_then_discharge
                           no_datetime_df).

End SampleLedgers.

Import SampleLedgers.

(* ===================================================================== *)
(** * Theorems                                                            *)
(* ===================================================================== *)

(** ** Python primitives *)

Lemma bind_ok {A B} (c : result A) (k : A -> result B) (b : B) :
  Py.bind c k = Ok b -> exists a, c = Ok a /\ k a = Ok b.
Proof. destruct c as [a|e]; simpl; [eauto | discriminate]. Qed.

Section PyFacts.

Context {A B : Type}.

Lemma for_each_ok (f : A -> result B) (xs : list A) (ys : list B) :
  for_each f xs = Ok ys -> Forall2 (fun x y => f x = Ok y) xs ys.
Proof.
  revert ys. induction xs as [|x xs IH]; simpl; intros ys E.
  - injection E as <-. constructor.
  - apply bind_ok in E as (y & Ey & E).
    destruct (for_each f xs) as [ys'|] eqn:Et; simpl in E; [|discriminate].
    injection E as <-. constructor; auto.
Qed.

Lemma for_each_In (f : A -> result B) (xs : list A) (ys : list B) (x : A) :
  for_each f xs = Ok ys -> In x xs -> exists y, f x = Ok y /\ In y ys.
Proof.
  intros E%for_each_ok. induction E as [|x' y' xs' ys' Ef _ IH]; simpl.
  - tauto.
  - intros [->|Hin]; [eauto | destruct (IH Hin) as (y & ? & ?); eauto].
Qed.

Lemma for_each_In_inv (f : A -> result B) (xs : list A) (ys : list B) (y : B) :
  for_each f xs = Ok ys -> In y ys -> exists x, In x xs /\ f x = Ok y.
Proof.
  intros E%for_each_ok. induction E as [|x' y' xs' ys' Ef _ IH]; simpl.
  - tauto.
  - intros [->|Hin]; [eauto | destruct (IH Hin) as (x & ? & ?); eauto].
Qed.

Lemma for_each_exists (f : A -> result B) (xs : list A) :
  (forall x, In x xs -> exists y, f x = Ok y) -> exists ys, for_each f xs = Ok ys.
Proof.
  induction xs as [|x xs IH]; simpl; intros Hall; [eauto|].
  destruct (Hall x (or_introl eq_refl)) as [y ->].
  destruct IH as [ys ->]; [auto|]. simpl. eauto.
Qed.

Lemma getitem_nonneg (xs : list A) (i : nat) (x : A) :
  getitem xs (Z.of_nat i) = Ok x <-> xs !! i = Some x.
Proof.
  unfold getitem.
  destruct (Z.ltb_spec (Z.of_nat i) 0); [lia|].
  rewrite Nat2Z.id.
  destruct (Z.ltb_spec (Z.of_nat i) 0); [lia|]. simpl.
  destruct (Z.leb_spec (Z.of_nat (length xs)) (Z.of_nat i)) as [Hge|Hlt].
  - split; [discriminate|]. intros Hl%lookup_lt_Some. lia.
  - destruct (xs !! i); split; congruence.
Qed.

Lemma getitem_last (xs : list A) (x : A) :
  getitem xs (-1) = Ok x <-> exists front, xs = front ++ [x].
Proof.
  unfold getitem. simpl.
  induction xs as [|x0 ys _] using rev_ind.
  - simpl. split; [discriminate|]. intros [front E]. destruct front; discriminate.
  - rewrite length_app. simpl.
    replace (-1 + Z.of_nat (length ys + 1))%Z with (Z.of_nat (length ys)) by lia.
    destruct (Z.ltb_spec (Z.of_nat (length ys)) 0); [lia|].
    destruct (Z.leb_spec (Z.of_nat (length ys + 1)) (Z.of_nat (length ys))); [lia|].
    simpl. rewrite Nat2Z.id.
    rewrite lookup_app_r by lia. rewrite Nat.sub_diag. simpl.
    split.
    + intros [= ->]. eauto.
    + intros [front E]. apply app_inj_tail in E as [_ ->]. reflexivity.
Qed.

End PyFacts.

Lemma index_NoDup (xs : list nat) (i x : nat) :
  NoDup xs -> xs !! i = Some x -> Py.index xs x = Ok i.
Proof.
  intros Hnd. revert i. induction Hnd as [|y ys Hy Hnd IH]; intros i Hl.
  - discriminate.
  - destruct i as [|i]; simpl in *.
    + injection Hl as ->. rewrite Nat.eqb_refl. reflexivity.
    + destruct (Nat.eqb_spec x y) as [->|Hne].
      * exfalso. apply Hy. eapply list_elem_of_lookup_2; eauto.
      * rewrite (IH _ Hl). reflexivity.
Qed.

Lemma div_ok (a b q : Q) :
  Py.div a b = Ok q -> ~ b == 0 /\ q = a / b.
Proof.
  unfold Py.div. destruct (Qeq_bool b 0) eqn:E; [discriminate|].
  intros [= <-]. split; [|reflexivity].
  intros H%Qeq_bool_iff. congruence.
Qed.

(** ** Instances: what [create_instance] puts into them *)

Ltac invert_construct H :=
  match type of H with
  | construct _ _ ?c = Ok _ =>
      destruct c; simpl in H;
      repeat (let x := fresh "x" in let E := fresh "E" in
              apply bind_ok in H as (x & E & H));
      injection H as <-
  end.

Ltac invert_create H name c add inst' Ec Er :=
  simpl in H; apply bind_ok in H as (add & Ec & H);
  apply bind_ok in H as (inst' & Er & H); injection H as <-.

Section InstanceFacts.

Variable data : DataPortal.

Lemma construct_variables_mono name c add inst x :
  construct data name c = Ok add ->
  In x (variables inst) -> In x (variables (add inst)).
Proof.
  intros H Hin. invert_construct H; simpl; auto using in_or_app.
Qed.

Lemma construct_constraints_mono name c add inst x :
  construct data name c = Ok add ->
  In x (constraints inst) -> In x (constraints (add inst)).
Proof.
  intros H Hin. invert_construct H; simpl; auto using in_or_app.
Qed.

Lemma create_instance_params model inst :
  create_instance model data = Ok inst -> params inst = data.
Proof.
  revert inst. induction model as [|[name c] rest IH]; intros inst H.
  - injection H as <-. reflexivity.
  - invert_create H name c add inst' Ec Er.
    rewrite <- (IH _ Er). invert_construct Ec; reflexivity.
Qed.

Lemma create_instance_Var model inst name v d b :
  In (name, Var v d b) model ->
  create_instance model data = Ok inst ->
  In {| vd_var := v; vd_domain := d; vd_bounds := b |} (variables inst).
Proof.
  revert inst. induction model as [|[name' c] rest IH]; intros inst Hin H.
  - destruct Hin.
  - invert_create H name' c add inst' Ec Er.
    destruct Hin as [[= -> ->]|Hin].
    + simpl in Ec. injection Ec as <-. simpl. auto.
    + eapply construct_variables_mono; eauto.
Qed.

Lemma create_instance_IndexedVar model inst name v d b t :
  In (name, IndexedVar v d b) model ->
  create_instance model data = Ok inst ->
  In t (DATETIME data) ->
  In {| vd_var := v t; vd_domain := d;
        vd_bounds := option_map (fun f => f data t) b |} (variables inst).
Proof.
  revert inst. induction model as [|[name' c] rest IH]; intros inst Hin H Ht.
  - destruct Hin.
  - invert_create H name' c add inst' Ec Er.
    destruct Hin as [[= -> ->]|Hin].
    + simpl in Ec. injection Ec as <-. simpl.
      apply in_or_app. left.
      apply (in_map (fun t => {| vd_var := v t; vd_domain := d;
                                 vd_bounds := option_map (fun f => f data t) b |})).
      exact Ht.
    + eapply construct_variables_mono; eauto.
Qed.

Lemma create_instance_Constraint model inst name rule :
  In (name, Constraint rule) model ->
  create_instance model data = Ok inst ->
  exists body, rule data = Ok body
               /\ In {| c_name := name; c_index := None; c_body := body |}
                     (constraints inst).
Proof.
  revert inst. induction model as [|[name' c] rest IH]; intros inst Hin H.
  - destruct Hin.
  - invert_create H name' c add inst' Ec Er.
    destruct Hin as [[= -> ->]|Hin].
    + simpl in Ec. apply bind_ok in Ec as (body & Eb & [= <-]).
      exists body. simpl. auto.
    + destruct (IH _ Hin Er) as (body & Eb & Hb).
      exists body. split; [exact Eb|].
      eapply construct_constraints_mono; eauto.
Qed.

Lemma create_instance_IndexedConstraint model inst name rule t :
  In (name, IndexedConstraint rule) model ->
  create_instance model data = Ok inst ->
  In t (DATETIME data) ->
  exists body, rule data t = Ok body
               /\ In {| c_name := name; c_index := Some t; c_body := body |}
                     (constraints inst).
Proof.
  revert inst. induction model as [|[name' c] rest IH]; intros inst Hin H Ht.
  - destruct Hin.
  - invert_create H name' c add inst' Ec Er.
    destruct Hin as [[= -> ->]|Hin].
    + simpl in Ec. apply bind_ok in Ec as (cs & Ecs & [= <-]).
      destruct (for_each_In _ _ _ _ Ecs Ht) as (cd & Ecd & Hcd).
      apply bind_ok in Ecd as (body & Eb & [= <-]).
      exists body. split; [exact Eb|]. simpl. apply in_or_app. auto.
    + destruct (IH _ Hin Er Ht) as (body & Eb & Hb).
      exists body. split; [exact Eb|].
      eapply construct_constraints_mono; eauto.
Qed.

Lemma create_instance_objectives model inst :
  create_instance model data = Ok inst ->
  Forall2 (fun o r => o.1 = r.1 /\ r.2 data = Ok o.2)
          (objectives inst) (objective_rules model).
Proof.
  revert inst. induction model as [|[name c] rest IH]; intros inst H.
  - injection H as <-. constructor.
  - invert_create H name c add inst' Ec Er.
    specialize (IH _ Er).
    destruct c; simpl in Ec;
      try (injection Ec as <-; exact IH);
      apply bind_ok in Ec as (f & Ef & [= <-]); simpl; auto.
Qed.

(** Conversely, every variable and every constraint of the instance comes
    from a component of the model. *)
Lemma create_instance_variables_inv model inst vd :
  create_instance model data = Ok inst ->
  In vd (variables inst) ->
  (exists name, In (name, Var (vd_var vd) (vd_domain vd) (vd_bounds vd)) model)
  \/ (exists name v b t,
         In (name, IndexedVar v (vd_domain vd) b) model
         /\ In t (DATETIME data)
         /\ vd_var vd = v t
         /\ vd_bounds vd = option_map (fun f => f data t) b).
Proof.
  revert inst. induction model as [|[name c] rest IH]; intros inst H Hin.
  - injection H as <-. destruct Hin.
  - invert_create H name c add inst' Ec Er.
    assert (Hrest : In vd (variables inst') ->
                    (exists name0, In (name0, Var (vd_var vd) (vd_domain vd) (vd_bounds vd))
                                      ((name, c) :: rest))
                    \/ (exists name0 v b t,
                           In (name0, IndexedVar v (vd_domain vd) b) ((name, c) :: rest)
                           /\ In t (DATETIME data)
                           /\ vd_var vd = v t
                           /\ vd_bounds vd = option_map (fun f => f data t) b)).
    { intros Hin'. destruct (IH _ Er Hin') as [(n & Hn)|(n & v & b & t & Hn & Ht)].
      - left. exists n. right. exact Hn.
      - right. exists n, v, b, t. split; [right; exact Hn | exact Ht]. }
    destruct c; simpl in Ec.
    + injection Ec as <-. simpl in Hin. destruct Hin as [<-|Hin]; [|auto].
      left. exists name. left. reflexivity.
    + injection Ec as <-. simpl in Hin. apply in_app_or in Hin as [Hin|Hin]; [|auto].
      apply in_map_iff in Hin as (t & <- & Ht).
      right. exists name, v, bounds, t. simpl. split; [left; reflexivity | auto].
    + apply bind_ok in Ec as (f & _ & [= <-]). auto.
    + apply bind_ok in Ec as (body & _ & [= <-]). auto.
    + apply bind_ok in Ec as (cs & _ & [= <-]). auto.
Qed.

Lemma create_instance_constraints_inv model inst c :
  create_instance model data = Ok inst ->
  In c (constraints inst) ->
  (exists name rule, In (name, Constraint rule) model /\ rule data = Ok (c_body c))
  \/ (exists name rule t,
         In (name, IndexedConstraint rule) model
         /\ In t (DATETIME data)
         /\ rule data t = Ok (c_body c)).
Proof.
  revert inst. induction model as [|[name k] rest IH]; intros inst H Hin.
  - injection H as <-. destruct Hin.
  - invert_create H name k add inst' Ec Er.
    assert (Hrest : In c (constraints inst') ->
                    (exists name0 rule,
                        In (name0, Constraint rule) ((name, k) :: rest)
                        /\ rule data = Ok (c_body c))
                    \/ (exists name0 rule t,
                           In (name0, IndexedConstraint rule) ((name, k) :: rest)
                           /\ In t (DATETIME data)
                           /\ rule data t = Ok (c_body c))).
    { intros Hin'. destruct (IH _ Er Hin') as [(n & rl & Hn & Hr)|(n & rl & t & Hn & Ht)].
      - left. exists n, rl. split; [right; exact Hn | exact Hr].
      - right. exists n, rl, t. split; [right; exact Hn | exact Ht]. }
    destruct k; simpl in Ec.
    + injection Ec as <-. auto.
    + injection Ec as <-. auto.
    + apply bind_ok in Ec as (f & _ & [= <-]). auto.
    + apply bind_ok in Ec as (body & Eb & [= <-]). simpl in Hin.
      destruct Hin as [<-|Hin]; [|auto].
      left. exists name, rule. split; [left; reflexivity | exact Eb].
    + apply bind_ok in Ec as (cs & Ecs & [= <-]). simpl in Hin.
      apply in_app_or in Hin as [Hin|Hin]; [|auto].
      destruct (for_each_In_inv _ _ _ _ Ecs Hin) as (t & Ht & Et).
      apply bind_ok in Et as (body & Eb & [= <-]).
      right. exists name, rule, t. split; [left; reflexivity | auto].
Qed.

End InstanceFacts.

(** ** Accepted solutions *)

Lemma satisfied_holds (r : Relational) : satisfied r = true <-> holds r.
Proof.
  destruct r; simpl; [apply Qle_bool_iff | apply Qeq_bool_iff | apply Qle_bool_iff].
Qed.

Lemma accepted_constraint inst s c :
  accepted inst s = true -> In c (constraints inst) -> holds (c_body c s).
Proof.
  unfold accepted. intros [_ Hc]%andb_prop Hin.
  rewrite forallb_forall in Hc. apply satisfied_holds. exact (Hc c Hin).
Qed.

Lemma accepted_variable inst s vd :
  accepted inst s = true -> In vd (variables inst) ->
  in_domain (vd_domain vd) (s (vd_var vd)) = true
  /\ in_bounds (vd_bounds vd) (s (vd_var vd)) = true.
Proof.
  unfold accepted. intros [Hv _]%andb_prop Hin.
  rewrite forallb_forall in Hv. apply andb_prop. exact (Hv vd Hin).
Qed.

Lemma in_domain_NonNegativeReals x : in_domain NonNegativeReals x = true <-> 0 <= x.
Proof. apply Qle_bool_iff. Qed.

Lemma in_domain_Binary x : in_domain Binary x = true <-> x == 0 \/ x == 1.
Proof.
  simpl. rewrite orb_true_iff, !Qeq_bool_iff. reflexivity.
Qed.

Lemma in_bounds_Some lo hi x : in_bounds (Some (lo, hi)) x = true <-> lo <= x /\ x <= hi.
Proof.
  simpl. rewrite andb_true_iff, !Qle_bool_iff. reflexivity.
Qed.

(** ** The model of [create_optimization_model] *)

(** Case analysis on which component of the model a hypothesis
    [In (name, component) create_optimization_model] refers to. *)
Ltac which_component Hm :=
  simpl in Hm;
  repeat match type of Hm with
         | _ \/ _ => destruct Hm as [Hm|Hm]; [try discriminate Hm|]
         end;
  try match type of Hm with False => destruct Hm end.

Ltac in_model :=
  unfold create_optimization_model; simpl;
  repeat first [left; reflexivity | right].

Section ModelFacts.

Variables (data : DataPortal) (inst : ConcreteModel) (s : Solution).
Hypothesis Hinst : create_instance create_optimization_model data = Ok inst.
Hypothesis Hacc : accepted inst s = true.

Lemma indexed_rule_holds name rule t :
  In (name, IndexedConstraint rule) create_optimization_model ->
  In t (DATETIME data) ->
  exists body, rule data t = Ok body /\ holds (body s).
Proof using Hinst Hacc.
  intros Hm Ht.
  destruct (create_instance_IndexedConstraint _ _ _ _ _ _ Hm Hinst Ht) as (body & E & Hin).
  exists body. split; [exact E|].
  exact (accepted_constraint _ _ _ Hacc Hin).
Qed.

Lemma scalar_rule_holds name rule :
  In (name, Constraint rule) create_optimization_model ->
  exists body, rule data = Ok body /\ holds (body s).
Proof using Hinst Hacc.
  intros Hm.
  destruct (create_instance_Constraint data _ _ _ _ Hm Hinst) as (body & E & Hin).
  exists body. split; [exact E|].
  exact (accepted_constraint _ _ _ Hacc Hin).
Qed.

Lemma indexed_var_ok name v d b t :
  In (name, IndexedVar v d b) create_optimization_model ->
  In t (DATETIME data) ->
  in_domain d (s (v t)) = true
  /\ in_bounds (option_map (fun f => f data t) b) (s (v t)) = true.
Proof using Hinst Hacc.
  intros Hm Ht.
  exact (accepted_variable _ _ _ Hacc
           (create_instance_IndexedVar data _ _ _ _ _ _ _ Hm Hinst Ht)).
Qed.

Lemma scalar_var_ok name v d b :
  In (name, Var v d b) create_optimization_model ->
  in_domain d (s v) = true /\ in_bounds b (s v) = true.
Proof using Hinst Hacc.
  intros Hm.
  exact (accepted_variable _ _ _ Hacc (create_instance_Var data _ _ _ _ _ _ Hm Hinst)).
Qed.

(** The horizon of a constructed instance is not empty, and the discharging
    efficiency it divides by is not zero. *)
Lemma horizon_nonempty : exists front last_t, DATETIME data = front ++ [last_t].
Proof using Hinst.
  assert (Hm : In ("cyclical_storage_constraint",
                   Constraint cyclical_storage_constraint_rule)
                  create_optimization_model) by in_model.
  destruct (create_instance_Constraint data _ _ _ _ Hm Hinst) as (body & E & _).
  unfold cyclical_storage_constraint_rule in E.
  apply bind_ok in E as (last_t & El & _).
  apply getitem_last in El as [front ->]. eauto.
Qed.

Lemma discharging_efficiency_nonzero : ~ DISCHARGING_EFFICIENCY data == 0.
Proof using Hinst.
  destruct horizon_nonempty as (front & last_t & El).
  assert (Ht : In last_t (DATETIME data)).
  { rewrite El. apply in_or_app. right. left. reflexivity. }
  assert (Hm : In ("nh3_balance_constraint", IndexedConstraint nh3_balance_rule)
                  create_optimization_model) by in_model.
  destruct (create_instance_IndexedConstraint data _ _ _ _ _ Hm Hinst Ht)
    as (body & E & _).
  unfold nh3_balance_rule in E.
  apply bind_ok in E as (first & _ & E).
  destruct (Nat.eqb last_t first).
  - apply bind_ok in E as (q & Eq & _). exact (proj1 (div_ok _ _ _ Eq)).
  - apply bind_ok in E as (i & _ & E). apply bind_ok in E as (p & _ & E).
    apply bind_ok in E as (q & Eq & _). exact (proj1 (div_ok _ _ _ Eq)).
Qed.

End ModelFacts.

(** What [nh3_balance_rule] builds for the timestep at position [i] of a
    duplicate-free horizon: the first position starts from the optimised
    initial level, a later one from the level of the position before it. *)
Lemma nh3_balance_rule_at (data : DataPortal) (i t : nat)
      (body : Solution -> Relational) (s : Solution) :
  NoDup (DATETIME data) ->
  DATETIME data !! i = Some t ->
  nh3_balance_rule data t = Ok body ->
  match i with
  | O => body s
         = RelEq (s (NH3_LEVEL t))
                 (s OPTIMAL_INITIAL_NH3_LEVEL + charge_in data s t - discharge_out data s t)
  | S j => exists prev_t,
             DATETIME data !! j = Some prev_t
             /\ body s
                = RelEq (s (NH3_LEVEL t))
                        (s (NH3_LEVEL prev_t) + charge_in data s t - discharge_out data s t)
  end.
Proof.
  intros Hnd Hl E. unfold nh3_balance_rule in E.
  apply bind_ok in E as (first & Ef & E).
  apply (getitem_nonneg _ 0%nat) in Ef.
  unfold charge_in, discharge_out.
  destruct i as [|j].
  - assert (t = first) as -> by congruence.
    rewrite Nat.eqb_refl in E.
    apply bind_ok in E as (q & Eq & [= <-]).
    apply div_ok in Eq as [_ ->]. reflexivity.
  - destruct (Nat.eqb_spec t first) as [->|Hne].
    { pose proof (NoDup_lookup _ _ _ _ Hnd Hl Ef). discriminate. }
    apply bind_ok in E as (k & Ek & E).
    rewrite (index_NoDup _ _ _ Hnd Hl) in Ek. injection Ek as <-.
    apply bind_ok in E as (prev_t & Ep & E).
    replace (Z.of_nat (S j) - 1)%Z with (Z.of_nat j) in Ep by lia.
    apply getitem_nonneg in Ep.
    apply bind_ok in E as (q & Eq & [= <-]).
    apply div_ok in Eq as [_ ->].
    exists prev_t. split; [exact Ep | reflexivity].
Qed.

(** C1 (ammonia balance).  In every instance of the model and every accepted
    solution, the inventory after the first timestep of the horizon is the
    optimised initial level plus the mass charged minus the mass discharged
    in that step, and the inventory after any later timestep is the
    inventory of the timestep before it plus the mass charged minus the mass
    discharged; the charged mass is power x charging efficiency x timestep x
    conversion factor, the discharged mass is power x (1 / discharging
    efficiency) x timestep x conversion factor. *)
Theorem nh3_balance_in_accepted_solutions
        (data : DataPortal) (inst : ConcreteModel) (s : Solution) (i t : nat) :
  create_instance create_optimization_model data = Ok inst ->
  accepted inst s = true ->
  NoDup (DATETIME data) ->
  DATETIME data !! i = Some t ->
  ~ DISCHARGING_EFFICIENCY data == 0
  /\ match i with
     | O => s (NH3_LEVEL t)
            == s OPTIMAL_INITIAL_NH3_LEVEL + charge_in data s t - discharge_out data s t
     | S j => exists prev_t,
                DATETIME data !! j = Some prev_t
                /\ s (NH3_LEVEL t)
                   == s (NH3_LEVEL prev_t) + charge_in data s t - discharge_out data s t
     end.
Proof.
  intros Hinst Hacc Hnd Hl.
  split; [exact (discharging_efficiency_nonzero _ _ Hinst)|].
  assert (Ht : In t (DATETIME data)).
  { apply list_elem_of_In. eapply list_elem_of_lookup_2; eauto. }
  assert (Hm : In ("nh3_balance_constraint", IndexedConstraint nh3_balance_rule)
                  create_optimization_model) by in_model.
  destruct (indexed_rule_holds _ _ _ Hinst Hacc _ _ _ Hm Ht) as (body & E & Hb).
  pose proof (nh3_balance_rule_at data i t body s Hnd Hl E) as Hshape.
  destruct i as [|j].
  - rewrite Hshape in Hb. exact Hb.
  - destruct Hshape as (prev_t & Hp & Hshape).
    rewrite Hshape in Hb. exists prev_t. split; [exact Hp | exact Hb].
Qed.

(** C2 (cyclic closure, initial-level feasibility).  In every accepted
    solution the inventory at the last timestep of the horizon equals the
    optimised initial level, and the optimised initial level is at most the
    optimised storage capacity. *)
Theorem cyclic_closure_and_initial_level
        (data : DataPortal) (inst : ConcreteModel) (s : Solution) :
  create_instance create_optimization_model data = Ok inst ->
  accepted inst s = true ->
  (exists front last_t,
      DATETIME data = front ++ [last_t]
      /\ s (NH3_LEVEL last_t) == s OPTIMAL_INITIAL_NH3_LEVEL)
  /\ s OPTIMAL_INITIAL_NH3_LEVEL <= s OPTIMAL_NH3_CAPACITY.
Proof.
  intros Hinst Hacc. split.
  - assert (Hm : In ("cyclical_storage_constraint",
                     Constraint cyclical_storage_constraint_rule)
                    create_optimization_model) by in_model.
    destruct (scalar_rule_holds _ _ _ Hinst Hacc _ _ Hm) as (body & E & Hb).
    unfold cyclical_storage_constraint_rule in E.
    apply bind_ok in E as (last_t & El & [= <-]).
    apply getitem_last in El as [front El].
    exists front, last_t. split; [exact El | exact Hb].
  - assert (Hm : In ("initial_storage_constraint",
                     Constraint initial_storage_constraint_rule)
                    create_optimization_model) by in_model.
    destruct (scalar_rule_holds _ _ _ Hinst Hacc _ _ Hm) as (body & [= <-] & Hb).
    exact Hb.
Qed.

(** Idling is always allowed: with nonnegative power capacities the
    all-zero valuation, both flags 0 at every step, is accepted by every
    instance of the model. *)
Lemma idle_solution_accepted (data : DataPortal) (inst : ConcreteModel) :
  create_instance create_optimization_model data = Ok inst ->
  0 <= MAXIMUM_CHARGING_POWER data ->
  0 <= MAXIMUM_DISCHARGING_POWER data ->
  accepted inst idle_solution = true.
Proof.
  intros Hinst Hc Hd. unfold accepted.
  apply andb_true_intro. split; apply forallb_forall.
  - intros vd Hin. unfold var_ok.
    destruct (create_instance_variables_inv _ _ _ _ Hinst Hin)
      as [(n & Hm)|(n & v & b & t & Hm & Ht & Ev & Eb)].
    + which_component Hm; injection Hm as _ _ <- <-; reflexivity.
    + rewrite Eb, Ev.
      which_component Hm; injection Hm as _ <- <- <-; try reflexivity;
        unfold idle_solution; cbn [option_map in_bounds in_domain andb];
        apply andb_true_intro; split; try reflexivity;
        apply Qle_bool_iff; assumption.
  - intros c Hin. apply satisfied_holds.
    destruct (create_instance_constraints_inv _ _ _ _ Hinst Hin)
      as [(n & rule & Hm & Er)|(n & rule & t & Hm & Ht & Er)].
    + which_component Hm; injection Hm as _ <-.
      * injection Er as <-. cbn [holds]; unfold idle_solution; lra.
      * unfold cyclical_storage_constraint_rule in Er.
        apply bind_ok in Er as (last_t & _ & [= <-]).
        cbn [holds]; unfold idle_solution; lra.
    + which_component Hm; injection Hm as _ <-;
        try (injection Er as <-; cbn [holds]; unfold idle_solution; nra).
      unfold nh3_balance_rule in Er.
      apply bind_ok in Er as (first & _ & Er).
      destruct (Nat.eqb t first).
      * apply bind_ok in Er as (q & _ & [= <-]). cbn [holds]; unfold idle_solution; nra.
      * apply bind_ok in Er as (i & _ & Er). apply bind_ok in Er as (p & _ & Er).
        apply bind_ok in Er as (q & _ & [= <-]). cbn [holds]; unfold idle_solution; nra.
Qed.

(** C3 (operating flags).  For every timestep of the horizon, in every
    accepted solution: both flags are 0 or 1 and their sum is at most 1;
    the charging power is 0 when the charging flag is 0, is at most the
    maximum charging power times the flag, and is at least threshold x
    maximum power x flag when the flag is 1; and the same for discharging.
    Both flags may be 0: the idle valuation is itself accepted when the
    power capacities are nonnegative. *)
Theorem operating_flags_bound_power
        (data : DataPortal) (inst : ConcreteModel) (s : Solution) (t : nat) :
  create_instance create_optimization_model data = Ok inst ->
  accepted inst s = true ->
  In t (DATETIME data) ->
  let c := s (IS_CHARGING_ON t) in
  let d := s (IS_DISCHARGING_ON t) in
  (c == 0 \/ c == 1) /\ (d == 0 \/ d == 1)
  /\ c + d <= 1
  /\ (c == 0 -> s (CHARGING_POWER t) == 0)
  /\ s (CHARGING_POWER t) <= MAXIMUM_CHARGING_POWER data * c
  /\ (c == 1 ->
      MIN_CHARGING_THRESHOLD data * MAXIMUM_CHARGING_POWER data * c
      <= s (CHARGING_POWER t))
  /\ (d == 0 -> s (DISCHARGING_POWER t) == 0)
  /\ s (DISCHARGING_POWER t) <= MAXIMUM_DISCHARGING_POWER data * d
  /\ (d == 1 ->
      MIN_DISCHARGING_THRESHOLD data * MAXIMUM_DISCHARGING_POWER data * d
      <= s (DISCHARGING_POWER t))
  /\ (0 <= MAXIMUM_CHARGING_POWER data -> 0 <= MAXIMUM_DISCHARGING_POWER data ->
      accepted inst idle_solution = true).
Proof.
  intros Hinst Hacc Ht c d. subst c d.
  assert (Hc : In ("IS_CHARGING_ON", IndexedVar IS_CHARGING_ON Binary None)
                  create_optimization_model) by in_model.
  assert (Hd : In ("IS_DISCHARGING_ON", IndexedVar IS_DISCHARGING_ON Binary None)
                  create_optimization_model) by in_model.
  assert (Hp : In ("CHARGING_POWER",
                   IndexedVar CHARGING_POWER NonNegativeReals
                              (Some (fun m _ => (0, MAXIMUM_CHARGING_POWER m))))
                  create_optimization_model) by in_model.
  assert (Hq : In ("DISCHARGING_POWER",
                   IndexedVar DISCHARGING_POWER NonNegativeReals
                              (Some (fun m _ => (0, MAXIMUM_DISCHARGING_POWER m))))
                  create_optimization_model) by in_model.
  destruct (indexed_var_ok _ _ _ Hinst Hacc _ _ _ _ _ Hc Ht) as [Bc%in_domain_Binary _].
  destruct (indexed_var_ok _ _ _ Hinst Hacc _ _ _ _ _ Hd Ht) as [Bd%in_domain_Binary _].
  destruct (indexed_var_ok _ _ _ Hinst Hacc _ _ _ _ _ Hp Ht)
    as [Pc%in_domain_NonNegativeReals _].
  destruct (indexed_var_ok _ _ _ Hinst Hacc _ _ _ _ _ Hq Ht)
    as [Pd%in_domain_NonNegativeReals _].
  assert (H1 : In ("no_simultaneous_charge_discharge",
                   IndexedConstraint no_simultaneous_operation_rule)
                  create_optimization_model) by in_model.
  assert (H2 : In ("max_charging_constraint", IndexedConstraint max_charging_rule)
                  create_optimization_model) by in_model.
  assert (H3 : In ("min_charging_constraint", IndexedConstraint min_charging_rule)
                  create_optimization_model) by in_model.
  assert (H4 : In ("max_discharging_constraint", IndexedConstraint max_discharging_rule)
                  create_optimization_model) by in_model.
  assert (H5 : In ("min_discharging_constraint", IndexedConstraint min_discharging_rule)
                  create_optimization_model) by in_model.
  destruct (indexed_rule_holds _ _ _ Hinst Hacc _ _ _ H1 Ht) as (? & [= <-] & R1).
  destruct (indexed_rule_holds _ _ _ Hinst Hacc _ _ _ H2 Ht) as (? & [= <-] & R2).
  destruct (indexed_rule_holds _ _ _ Hinst Hacc _ _ _ H3 Ht) as (? & [= <-] & R3).
  destruct (indexed_rule_holds _ _ _ Hinst Hacc _ _ _ H4 Ht) as (? & [= <-] & R4).
  destruct (indexed_rule_holds _ _ _ Hinst Hacc _ _ _ H5 Ht) as (? & [= <-] & R5).
  simpl in R1, R2, R3, R4, R5.
  repeat match goal with |- _ /\ _ => split end; try assumption.
  - intros E0. rewrite E0 in R2. lra.
  - intros _. exact R3.
  - intros E0. rewrite E0 in R4. lra.
  - intros _. exact R5.
  - exact (idle_solution_accepted _ _ Hinst).
Qed.

(** C8 (design variables).  Whatever optimizer the data was bound by, and so
    whatever storage capacity it was constructed with, the capacity variable
    of the instance is declared nonnegative with the bounds (0, 100000), so
    in every accepted solution it lies between 0 and 100000, and the initial
    level is nonnegative. *)
Theorem design_variable_bounds `{TimeOps}
        (self : IntegratedAmmoniaBatteryOptimizer) (df : DataFrame)
        (data : DataPortal) (inst : ConcreteModel) (s : Solution) :
  prepare_data self df = Ok data ->
  create_instance create_optimization_model data = Ok inst ->
  accepted inst s = true ->
  In {| vd_var := OPTIMAL_NH3_CAPACITY; vd_domain := NonNegativeReals;
        vd_bounds := Some (0, 100000) |} (variables inst)
  /\ 0 <= s OPTIMAL_NH3_CAPACITY
  /\ s OPTIMAL_NH3_CAPACITY <= 100000
  /\ 0 <= s OPTIMAL_INITIAL_NH3_LEVEL.
Proof.
  intros _ Hinst Hacc.
  assert (Hc : In ("OPTIMAL_NH3_CAPACITY",
                   Var OPTIMAL_NH3_CAPACITY NonNegativeReals (Some (0, 100000)))
                  create_optimization_model) by in_model.
  assert (Hi : In ("OPTIMAL_INITIAL_NH3_LEVEL",
                   Var OPTIMAL_INITIAL_NH3_LEVEL NonNegativeReals None)
                  create_optimization_model) by in_model.
  split; [exact (create_instance_Var _ _ _ _ _ _ _ Hc Hinst)|].
  destruct (scalar_var_ok _ _ _ Hinst Hacc _ _ _ _ Hc)
    as [D%in_domain_NonNegativeReals [_ B]%in_bounds_Some].
  destruct (scalar_var_ok _ _ _ Hinst Hacc _ _ _ _ Hi)
    as [Di%in_domain_NonNegativeReals _].
  auto.
Qed.

(** The fixtures are what the program computes: binding [two_step_df] gives
    [two_step_data], the model has an instance over it, and charging then
    discharging is an accepted solution of that instance. *)
Lemma two_step_data_bound :
  prepare_data (unit_optimizer 1) two_step_df = Ok two_step_data.
Proof. vm_compute. reflexivity. Qed.

Lemma two_step_instance_created :
  create_instance create_optimization_model two_step_data = Ok two_step_instance.
Proof. vm_compute. reflexivity. Qed.

Lemma charge_then_discharge_accepted :
  accepted two_step_instance charge_then_discharge = true.
Proof. vm_compute. reflexivity. Qed.

Lemma nh3_balance_witness :
  ~ DISCHARGING_EFFICIENCY two_step_data == 0
  /\ exists prev_t,
      DATETIME two_step_data !! 0%nat = Some prev_t
      /\ charge_then_discharge (NH3_LEVEL 1)
         == charge_then_discharge (NH3_LEVEL prev_t)
            + charge_in two_step_data charge_then_discharge 1
            - discharge_out two_step_data charge_then_discharge 1.
Proof.
  apply (nh3_balance_in_accepted_solutions
           two_step_data two_step_instance charge_then_discharge 1 1).
  - vm_compute. reflexivity.
  - vm_compute. reflexivity.
  - apply (NoDup_seq 0 2).
  - reflexivity.
Defined.

Lemma cyclic_closure_witness :
  (exists front last_t,
      DATETIME two_step_data = front ++ [last_t]
      /\ charge_then_discharge (NH3_LEVEL last_t)
         == charge_then_discharge OPTIMAL_INITIAL_NH3_LEVEL)
  /\ charge_then_discharge OPTIMAL_INITIAL_NH3_LEVEL
     <= charge_then_discharge OPTIMAL_NH3_CAPACITY.
Proof.
  apply (cyclic_closure_and_initial_level two_step_data two_step_instance).
  - vm_compute. reflexivity.
  - vm_compute. reflexivity.
Defined.

Lemma operating_flags_witness :
  let s := charge_then_discharge in
  let c := s (IS_CHARGING_ON 0) in
  let d := s (IS_DISCHARGING_ON 0) in
  (c == 0 \/ c == 1) /\ (d == 0 \/ d == 1)
  /\ c + d <= 1
  /\ (c == 0 -> s (CHARGING_POWER 0) == 0)
  /\ s (CHARGING_POWER 0) <= MAXIMUM_CHARGING_POWER two_step_data * c
  /\ (c == 1 ->
      MIN_CHARGING_THRESHOLD two_step_data * MAXIMUM_CHARGING_POWER two_step_data * c
      <= s (CHARGING_POWER 0))
  /\ (d == 0 -> s (DISCHARGING_POWER 0) == 0)
  /\ s (DISCHARGING_POWER 0) <= MAXIMUM_DISCHARGING_POWER two_step_data * d
  /\ (d == 1 ->
      MIN_DISCHARGING_THRESHOLD two_step_data * MAXIMUM_DISCHARGING_POWER two_step_data * d
      <= s (DISCHARGING_POWER 0))
  /\ (0 <= MAXIMUM_CHARGING_POWER two_step_data ->
      0 <= MAXIMUM_DISCHARGING_POWER two_step_data ->
      accepted two_step_instance idle_solution = true).
Proof.
  apply (operating_flags_bound_power
           two_step_data two_step_instance charge_then_discharge 0).
  - vm_compute. reflexivity.
  - vm_compute. reflexivity.
  - left. reflexivity.
Defined.

Lemma design_variable_bounds_witness :
  storage_max_capacity (battery small_storage_optimizer)
  < charge_then_discharge OPTIMAL_NH3_CAPACITY
  /\ In {| vd_var := OPTIMAL_NH3_CAPACITY; vd_domain := NonNegativeReals;
           vd_bounds := Some (0, 100000) |} (variables two_step_instance)
  /\ 0 <= charge_then_discharge OPTIMAL_NH3_CAPACITY
  /\ charge_then_discharge OPTIMAL_NH3_CAPACITY <= 100000
  /\ 0 <= charge_then_discharge OPTIMAL_INITIAL_NH3_LEVEL.
Proof.
  split; [vm_compute; reflexivity|].
  apply (design_variable_bounds small_storage_optimizer two_step_df two_step_data).
  - vm_compute. reflexivity.
  - vm_compute. reflexivity.
  - vm_compute. reflexivity.
Defined.

(** ** The ledger of [process_results] *)

Lemma sum_from_Qeq (xs ys : list Q) (a b : Q) :
  Forall2 Qeq xs ys -> a == b -> fold_left Qplus xs a == fold_left Qplus ys b.
Proof.
  intros HF. revert a b. induction HF as [|x y xs ys Hxy _ IH]; intros a b Hab; simpl.
  - exact Hab.
  - apply IH. rewrite Hab, Hxy. reflexivity.
Qed.

Lemma sum_Qeq (xs ys : list Q) : Forall2 Qeq xs ys -> Py.sum xs == Py.sum ys.
Proof. intros HF. apply sum_from_Qeq; [exact HF | reflexivity]. Qed.

Lemma Forall2_join {A B C} (P : A -> B -> Prop) (Q : A -> C -> Prop)
      (R : B -> C -> Prop) (l : list A) (xs : list B) (ys : list C) :
  (forall a x y, P a x -> Q a y -> R x y) ->
  Forall2 P l xs -> Forall2 Q l ys -> Forall2 R xs ys.
Proof.
  intros HR HP. revert ys. induction HP as [|a x l xs Hax _ IH]; intros ys HQ.
  - inversion HQ. constructor.
  - inversion HQ as [|a' y l' ys' Hay HQ']; subst. constructor; eauto.
Qed.

Lemma Forall2_Forall_r {A B} (P : A -> B -> Prop) (R : B -> Prop)
      (l : list A) (ys : list B) :
  (forall a y, P a y -> R y) -> Forall2 P l ys -> Forall R ys.
Proof.
  intros HR HP. induction HP; constructor; eauto.
Qed.

(** What one row of the ledger holds. *)
Lemma result_row_fields inst s df t row :
  result_row inst s df t = Ok row ->
  numeric_param "PRICE" (PRICE (params inst)) t = Ok (Price row)
  /\ TimeStep row = t
  /\ Charging_Cost row
     = s (CHARGING_POWER t) * TIMESTEP (params inst) * Price row
  /\ Discharging_Revenue row
     = s (DISCHARGING_POWER t) * TIMESTEP (params inst) * Price row
  /\ Net_Revenue row = Discharging_Revenue row - Charging_Cost row.
Proof.
  unfold result_row. intros E.
  apply bind_ok in E as (dt & _ & E).
  apply bind_ok in E as (inv & _ & E).
  apply bind_ok in E as (price & Ep & E).
  apply bind_ok in E as (demand & _ & E).
  apply bind_ok in E as (wind & _ & E).
  apply bind_ok in E as (curt & _ & E).
  apply bind_ok in E as (carbon & _ & E).
  injection E as <-. simpl. auto.
Qed.

Lemma process_results_inv `{RealPower} self inst s df r :
  process_results self inst s df = Ok r ->
  exists v,
    objective_value inst s = Ok v
    /\ Forall2 (fun t row => result_row inst s df t = Ok row)
               (DATETIME (params inst)) (rows (operational_results r))
    /\ period_operational_profit (economics r)
       = Py.sum (map Net_Revenue (rows (operational_results r)))
    /\ optimal_capacity_tonnes (optimal_design r) = s OPTIMAL_NH3_CAPACITY
    /\ optimal_initial_level_tonnes (optimal_design r) = s OPTIMAL_INITIAL_NH3_LEVEL.
Proof.
  unfold process_results. intros E.
  apply bind_ok in E as (results & Er & E).
  destruct (Nat.eqb (length results) 0); [discriminate|].
  apply bind_ok in E as (v & Ev & E).
  apply bind_ok in E as (eco & Ee & E).
  injection E as <-. simpl.
  exists v. split; [exact Ev|]. split; [exact (for_each_ok _ _ _ Er)|].
  unfold calculate_system_economics_with_optimal_storage in Ee.
  apply bind_ok in Ee as (ann & _ & [= <-]). simpl. auto.
Qed.

Lemma Forall2_map_eq {A B C} (f : A -> C) (g : B -> C) (xs : list A) (ys : list B) :
  Forall2 (fun x y => f x = g y) xs ys -> map f xs = map g ys.
Proof.
  intros HF. induction HF as [|x y xs ys Hxy _ IH]; simpl; [reflexivity|].
  rewrite Hxy, IH. reflexivity.
Qed.

(** C4, as the code has it (objective and ledger agree in exact
    arithmetic).  For an instance of the model and the solved variable
    values, the objective is the sum over the horizon of
    [price * discharging * timestep - price * charging * timestep]; every
    row's [Net_Revenue] is its discharging revenue minus its charging cost,
    recomputed from the same solved powers as [power * timestep * price];
    the reported period profit is the sum of the [Net_Revenue] column.  The
    two sums run over the same timesteps and the same values with the
    factors in a different order: as exact numbers they are equal.  (As
    binary64 floats they can differ in the last digits, as the sample
    schedule below shows.) *)
Theorem objective_equals_ledger_net_revenue `{RealPower}
        (self : IntegratedAmmoniaBatteryOptimizer) (data : DataPortal)
        (inst : ConcreteModel) (s : Solution) (df : DataFrame) (r : Results) :
  create_instance create_optimization_model data = Ok inst ->
  process_results self inst s df = Ok r ->
  exists v,
    objective_value inst s = Ok v
    /\ v == Py.sum (map Net_Revenue (rows (operational_results r)))
    /\ v == period_operational_profit (economics r)
    /\ Forall (fun row =>
                 Net_Revenue row = Discharging_Revenue row - Charging_Cost row
                 /\ Discharging_Revenue row
                    = s (DISCHARGING_POWER (TimeStep row)) * TIMESTEP data * Price row
                 /\ Charging_Cost row
                    = s (CHARGING_POWER (TimeStep row)) * TIMESTEP data * Price row)
              (rows (operational_results r))
    /\ v = Py.sum (map (fun row =>
                          (Price row * s (DISCHARGING_POWER (TimeStep row)) * TIMESTEP data)
                          - (Price row * s (CHARGING_POWER (TimeStep row)) * TIMESTEP data))
                       (rows (operational_results r)))
    /\ period_operational_profit (economics r)
       = Py.sum (map Net_Revenue (rows (operational_results r))).
Proof.
  intros Hinst Hr.
  pose proof (create_instance_params _ _ _ Hinst) as Hp.
  destruct (process_results_inv _ _ _ _ _ Hr) as (v & Ev & Hrows & Hprofit & _).
  subst data.
  exists v. split; [exact Ev|].
  pose proof (create_instance_objectives _ _ _ Hinst) as Ho.
  simpl in Ho.
  inversion Ho as [|[n f] [n' rule] os rs [Hn Hf] Hrest Eo Erule]; subst.
  inversion Hrest; subst. simpl in Hn, Hf. subst n.
  unfold objective_value in Ev. rewrite <- Eo in Ev. simpl in Ev.
  injection Ev as <-.
  unfold operational_profit_rule in Hf.
  apply bind_ok in Hf as (terms & Et & [= <-]).
  apply for_each_ok in Et.
  assert (Hsum : Py.sum (map (fun term => term s) terms)
                 == Py.sum (map Net_Revenue (rows (operational_results r)))).
  { apply sum_Qeq.
    apply Forall2_fmap.
    eapply Forall2_join; [|exact Et|exact Hrows].
    intros t term row Eterm Erow. simpl.
    apply bind_ok in Eterm as (price & Eprice & [= <-]).
    apply result_row_fields in Erow as (Eprice' & _ & Ec & Ed & En).
    rewrite Eprice in Eprice'. injection Eprice' as Eprice'.
    rewrite En, Ec, Ed, <- Eprice'. ring. }
  split; [exact Hsum|]. split; [rewrite Hprofit; exact Hsum|].
  split.
  { eapply Forall2_Forall_r; [|exact Hrows].
    intros t row Erow. simpl in Erow.
    apply result_row_fields in Erow as (_ & -> & Ec & Ed & En).
    auto. }
  split; [|exact Hprofit].
  f_equal. apply Forall2_map_eq.
  eapply Forall2_join; [|exact Et|exact Hrows].
  intros t term row Eterm Erow. simpl.
  apply bind_ok in Eterm as (price & Eprice & [= <-]).
  apply result_row_fields in Erow as (Eprice' & -> & _).
  rewrite Eprice in Eprice'. injection Eprice' as <-. reflexivity.
Qed.

Lemma objective_equals_ledger_witness :
  exists v,
    objective_value two_step_instance charge_then_discharge = Ok v
    /\ v == Py.sum (map Net_Revenue (rows (operational_results two_step_results)))
    /\ v == period_operational_profit (economics two_step_results)
    /\ Forall (fun row =>
                 Net_Revenue row = Discharging_Revenue row - Charging_Cost row
                 /\ Discharging_Revenue row
                    = charge_then_discharge (DISCHARGING_POWER (TimeStep row))
                      * TIMESTEP two_step_data * Price row
                 /\ Charging_Cost row
                    = charge_then_discharge (CHARGING_POWER (TimeStep row))
                      * TIMESTEP two_step_data * Price row)
              (rows (operational_results two_step_results))
    /\ v = Py.sum (map (fun row =>
                          (Price row
                           * charge_then_discharge (DISCHARGING_POWER (TimeStep row))
                           * TIMESTEP two_step_data)
                          - (Price row
                             * charge_then_discharge (CHARGING_POWER (TimeStep row))
                             * TIMESTEP two_step_data))
                       (rows (operational_results two_step_results)))
    /\ period_operational_profit (economics two_step_results)
       = Py.sum (map Net_Revenue (rows (operational_results two_step_results))).
Proof.
  apply (objective_equals_ledger_net_revenue
           (unit_optimizer 1) two_step_data two_step_instance charge_then_discharge
           two_step_df two_step_results).
  - vm_compute. reflexivity.
  - vm_compute. reflexivity.
Defined.

(** C4, as stated, fails for the floats the program computes.  Charging at
    price 0 and discharging 1.4 MW at price 20 in steps of 1.5 hours, the
    objective [20 * 1.4 * 1.5] is 42.0 and the ledger total [1.4 * 1.5 * 20]
    is 41.99999999999999: the two are not [==] in Python. *)
Lemma objective_differs_from_ledger_in_binary64 :
  ~ (forall (steps : list Float64.Step) (timestep : PrimFloat.float),
        PrimFloat.eqb (Float64.objective_value steps timestep)
                      (Float64.total_operational_profit steps timestep) = true).
Proof.
  intros Hclaim.
  specialize (Hclaim Float64.free_then_dear Float64.ninety_minutes).
  vm_compute in Hclaim. discriminate.
Qed.

(** The values at that schedule; multiplying the constant factors first
    gives 42.0 as well, so the ledger differs from the objective in either
    order of evaluation. *)
Example sample_profit_in_binary64 :
  Float64.objective_value Float64.free_then_dear Float64.ninety_minutes
  = Float64.forty_two
  /\ Float64.objective_value_folded Float64.free_then_dear Float64.ninety_minutes
     = Float64.forty_two
  /\ Float64.total_operational_profit Float64.free_then_dear Float64.ninety_minutes
     = Float64.below_forty_two.
Proof. repeat split; vm_compute; reflexivity. Qed.

(** The objective of the two-step schedule is 1000. *)
Example two_step_objective :
  objective_value two_step_instance charge_then_discharge = Ok 1000.
Proof. vm_compute. reflexivity. Qed.

(** ** [optimize] *)

Lemma solved_iff (res : SolverResults) :
  solved res = true
  <-> status res = "ok"
      /\ (termination_condition res = "optimal"
          \/ termination_condition res = "feasible").
Proof.
  unfold solved.
  rewrite andb_true_iff, orb_true_iff, !String.eqb_eq. reflexivity.
Qed.

(** C5 (solver outcome).  Once the data is bound, the instance is created
    and the solver has reported: unless the status is 'ok' and the
    termination condition is 'optimal' or 'feasible', [optimize] returns
    [None] and leaves the optimizer as it was, so no ledger exists; otherwise
    it returns (and stores) exactly what [process_results] builds from the
    solved instance, or raises what [process_results] raises. *)
Theorem optimize_follows_solver_outcome `{TimeOps} `{RealPower} `{Solver}
        (self : IntegratedAmmoniaBatteryOptimizer) (df : DataFrame) (mipgap : Q)
        (data : DataPortal) (inst : ConcreteModel)
        (res : SolverResults) (sol : Solution) :
  prepare_data self df = Ok data ->
  create_instance create_optimization_model data = Ok inst ->
  solve inst mipgap = Ok (res, sol) ->
  (~ (status res = "ok"
      /\ (termination_condition res = "optimal"
          \/ termination_condition res = "feasible")) ->
   optimize self df mipgap = Ok (None, self))
  /\ (status res = "ok"
      /\ (termination_condition res = "optimal"
          \/ termination_condition res = "feasible") ->
      optimize self df mipgap
      = match process_results self inst sol df with
        | Ok r => Ok (Some r, set_optimization_results self (Some r))
        | Raise e => Raise e
        end).
Proof.
  intros Hd Hi Hs. unfold optimize.
  rewrite Hd. cbn [Py.bind]. rewrite Hi. cbn [Py.bind]. rewrite Hs. cbn [Py.bind fst snd].
  split.
  - intros Hno. destruct (solved res) eqn:E; [|reflexivity].
    apply solved_iff in E. contradiction.
  - intros Hyes%solved_iff. rewrite Hyes.
    destruct (process_results self inst sol df); reflexivity.
Qed.

Lemma optimize_infeasible_witness :
  (~ ("warning" = "ok" /\ ("infeasible" = "optimal" \/ "infeasible" = "feasible")) ->
   @optimize reference_time sample_power infeasible_solver
             (unit_optimizer 1) two_step_df (1 # 100)
   = Ok (None, unit_optimizer 1))
  /\ ("warning" = "ok" /\ ("infeasible" = "optimal" \/ "infeasible" = "feasible") ->
      @optimize reference_time sample_power infeasible_solver
                (unit_optimizer 1) two_step_df (1 # 100)
      = match process_results (unit_optimizer 1) two_step_instance (fun _ => 0) two_step_df with
        | Ok r => Ok (Some r, set_optimization_results (unit_optimizer 1) (Some r))
        | Raise e => Raise e
        end).
Proof.
  apply (@optimize_follows_solver_outcome reference_time sample_power infeasible_solver
           (unit_optimizer 1) two_step_df (1 # 100) two_step_data two_step_instance
           (report "warning" "infeasible") (fun _ => 0)).
  - vm_compute. reflexivity.
  - vm_compute. reflexivity.
  - reflexivity.
Defined.

(** With a solver that reports an optimal solution the ledger is returned
    and stored; with one that reports infeasibility nothing is. *)
Example optimize_optimal :
  @optimize reference_time sample_power optimal_solver
            (unit_optimizer 1) two_step_df (1 # 100)
  = Ok (Some two_step_results,
        set_optimization_results (unit_optimizer 1) (Some two_step_results)).
Proof. vm_compute. reflexivity. Qed.

Example optimize_infeasible :
  @optimize reference_time sample_power infeasible_solver
            (unit_optimizer 1) two_step_df (1 # 100)
  = Ok (None, unit_optimizer 1).
Proof. vm_compute. reflexivity. Qed.

(** ** [prepare_data] *)

Section PrepareData.

Context `{TimeOps}.
Variable self : IntegratedAmmoniaBatteryOptimizer.

(** Neither the timestamp conversion nor the resampling brings in a column
    the input did not have. *)
Lemma handle_datetime_missing df df' name :
  name <> "DATETIME" ->
  columns df !! name = None ->
  handle_datetime self df = Ok df' ->
  columns df' !! name = None.
Proof.
  intros Hne Hmiss. unfold handle_datetime.
  destruct (columns df !! "DATETIME") as [col|]; [|intros [= <-]; exact Hmiss].
  intros E.
  apply bind_ok in E as (stamps & _ & E).
  apply bind_ok in E as (t1 & _ & E).
  apply bind_ok in E as (t0 & _ & E).
  destruct (negb _).
  - unfold resample_mean in E.
    apply bind_ok in E as (bins & _ & E).
    destruct (forallb _ bins); [|discriminate].
    injection E as <-. simpl.
    rewrite lookup_insert_ne by congruence.
    rewrite lookup_fmap. unfold select_numeric. rewrite lookup_omap.
    rewrite lookup_delete_ne by congruence.
    rewrite lookup_insert_ne by congruence.
    rewrite Hmiss. reflexivity.
  - injection E as <-. simpl.
    rewrite lookup_insert_ne by congruence. exact Hmiss.
Qed.

Lemma bind_series_missing df idx name :
  columns df !! name = None -> bind_series df idx name = Raise (KeyError name).
Proof.
  intros Hmiss. unfold bind_series, getcol. rewrite Hmiss. reflexivity.
Qed.

Lemma prepare_data_inv df data :
  prepare_data self df = Ok data ->
  exists df',
    handle_datetime self df = Ok df'
    /\ DATETIME data = seq 0 (nrows df')
    /\ TIMESTEP data = _get_timestep self df'
    /\ (forall name, In name series_columns -> is_Some (columns df' !! name)).
Proof.
  unfold prepare_data. intros E.
  apply bind_ok in E as (df' & Eh & E).
  apply bind_ok in E as (price & Ep & E).
  apply bind_ok in E as (demand & Ed & E).
  apply bind_ok in E as (wind & Ew & E).
  apply bind_ok in E as (curt & Ec & E).
  apply bind_ok in E as (carbon & Eb & E).
  apply bind_ok in E as (factor & _ & E).
  injection E as <-. simpl.
  exists df'. repeat split; auto.
  intros name Hin.
  destruct (columns df' !! name) eqn:El; [eauto|].
  pose proof (bind_series_missing df' (seq 0 (nrows df')) name El) as Hraise.
  simpl in Hin.
  repeat (destruct Hin as [<-|Hin]; [congruence|]).
  destruct Hin.
Qed.

End PrepareData.


Example no_price_raises_KeyError :
  columns no_price_df !! "PRICE" = None
  /\ prepare_data (unit_optimizer 1) no_price_df = Raise (KeyError "PRICE").
Proof. split; vm_compute; reflexivity. Qed.

(** C7, as stated, fails: a frame without the DATETIME column is bound. *)
Lemma missing_datetime_is_bound :
  ~ (forall (self : IntegratedAmmoniaBatteryOptimizer) (df : DataFrame) (name : string),
        In name ("DATETIME" :: series_columns) ->
        columns df !! name = None ->
        Py.is_ok (prepare_data self df) = false).
Proof.
  intros Hclaim.
  specialize (Hclaim (unit_optimizer 1) no_datetime_df "DATETIME").
  assert (Hok : Py.is_ok (prepare_data (unit_optimizer 1) no_datetime_df) = true)
    by (vm_compute; reflexivity).
  rewrite Hclaim in Hok; [discriminate | left; reflexivity | vm_compute; reflexivity].
Qed.

(** C10 (the bound timestep).  [_get_timestep] returns the configured
    interval for every frame, and whenever [prepare_data] binds a frame the
    [TIMESTEP] parameter is the configured interval. *)
Theorem timestep_is_configured_interval `{TimeOps}
        (self : IntegratedAmmoniaBatteryOptimizer) (df : DataFrame) (data : DataPortal) :
  prepare_data self df = Ok data ->
  (forall any_df, _get_timestep self any_df = time_interval_hours self)
  /\ TIMESTEP data = time_interval_hours self.
Proof.
  intros E. split; [reflexivity|].
  destruct (prepare_data_inv _ _ _ E) as (df' & _ & _ & -> & _). reflexivity.
Qed.

(** A frame without timestamps whose rows are bound one by one under a
    1.5-hour timestep. *)
Lemma timestep_witness :
  (forall any_df, _get_timestep (unit_optimizer (3 # 2)) any_df = 3 # 2)
  /\ TIMESTEP (from_ok two_step_data (prepare_data (unit_optimizer (3 # 2)) no_datetime_df))
     = 3 # 2.
Proof.
  apply (timestep_is_configured_interval (unit_optimizer (3 # 2)) no_datetime_df).
  vm_compute. reflexivity.
Defined.

(** C6 at a fractional interval.  With a configured timestep of 1.5 hours
    and six half-hourly rows, the frequency handed to the resampler is "1H":
    the frame is averaged over one-hour bins into three rows (prices 15, 35,
    55) that are then bound under a 1.5-hour [TIMESTEP]; averaging over the
    1.5-hour target would give two rows (prices 20, 50).  With the default
    0.5 the frequency is "0H". *)
Theorem fractional_interval_is_truncated :
  resample_freq (unit_optimizer (3 # 2)) = "1H"
  /\ resample_freq (unit_optimizer (1 # 2)) = "0H"
  /\ prepare_data (unit_optimizer (3 # 2)) half_hourly_df = Ok truncated_data
  /\ DATETIME truncated_data = [0; 1; 2]%nat
  /\ TIMESTEP truncated_data = 3 # 2
  /\ Forall2 (fun t p => exists q, PRICE truncated_data !! t = Some (CNum q) /\ q == p)
             [0; 1; 2]%nat [15; 35; 55].
Proof.
  repeat match goal with |- _ /\ _ => split end; try (vm_compute; reflexivity).
  repeat constructor; eexists; (split; [vm_compute; reflexivity | reflexivity]).
Qed.

(** ** Degenerate denominators downstream *)

Lemma gt_zero_false (x : Q) : x == 0 -> gt x 0 = false.
Proof.
  intros Hx. unfold gt. apply negb_false_iff. apply Qle_bool_iff.
  rewrite Hx. apply Qle_refl.
Qed.

Lemma count_cons (b : bool) (mask : list bool) :
  count (b :: mask) = ((if b then 1 else 0) + count mask)%nat.
Proof.
  unfold count. destruct b.
  - rewrite filter_cons_True by reflexivity. reflexivity.
  - rewrite filter_cons_False by discriminate. reflexivity.
Qed.

Lemma count_zero (mask : list bool) :
  count mask = 0%nat <-> Forall (fun b => b = false) mask.
Proof.
  induction mask as [|b mask IH].
  - split; [constructor | reflexivity].
  - rewrite count_cons. split.
    + destruct b; [discriminate|]. simpl. intros Hc. constructor; [reflexivity|].
      apply IH. exact Hc.
    + intros HF. inversion HF as [|? ? -> HF']; subst. simpl. apply IH. exact HF'.
Qed.

Lemma and_mask_all_false (mask other : list bool) :
  Forall (fun b => b = false) mask ->
  Forall (fun b => b = false) (and_mask mask other).
Proof.
  intros HF. revert other. induction HF as [|b mask -> _ IH]; intros other.
  - constructor.
  - destruct other as [|o other]; [constructor|].
    unfold and_mask. simpl. constructor; [reflexivity | apply IH].
Qed.

Lemma masked_sum_all_false (mask : list bool) (column : list Q) :
  Forall (fun b => b = false) mask -> masked_sum mask column = 0.
Proof.
  intros HF. revert column. induction HF as [|b mask -> _ IH]; intros column.
  - reflexivity.
  - destruct column as [|x column]; [reflexivity|].
    unfold masked_sum in *. simpl.
    rewrite filter_cons_False by (simpl; discriminate). apply IH.
Qed.

Lemma numeric_nonneg (df : list ResultRow) (curtailment : list Q) :
  for_each (fun r => numeric (Curtailment r)) df = Ok curtailment ->
  Forall (fun r => exists c, Curtailment r = CNum c /\ 0 <= c) df ->
  Forall (fun c => 0 <= c) curtailment.
Proof.
  intros E%for_each_ok HF.
  induction E as [|r c df cs Er _ IH]; [constructor|].
  inversion HF as [|? ? (c' & Ec & Hc) HF']; subst.
  rewrite Ec in Er. injection Er as <-. constructor; auto.
Qed.

Ltac report_fields :=
  cbn [ratio_outputs energy_ratio_outputs
       time_analysis energy_analysis battery_curtailment_interaction summary_metrics
       pct_curtailment_periods_charging pct_curtailment_periods_discharging
       pct_curtailment_periods_idle
       total_curtailment_energy_mwh curtailment_during_charging_mwh
       pct_curtailment_energy_during_charging pct_curtailment_energy_during_discharging
       curtailment_capture_efficiency_pct
       curtailment_periods_total curtailment_capture_ratio
       excess_energy_contribution_ratio] in *.

Section CurtailmentReport.

Variables (df : list ResultRow) (timestep_hours : Q) (r : Report).
Hypothesis Hreport : analyze_curtailment_interactions df timestep_hours = Ok r.

(** No curtailment period: all eight outputs are 0. *)
Lemma no_curtailment_periods :
  curtailment_periods_total (summary_metrics r) = 0%nat ->
  Forall (fun x => x == 0) (ratio_outputs r).
Proof using Hreport.
  unfold analyze_curtailment_interactions in Hreport.
  apply bind_ok in Hreport as (curtailment & _ & E).
  injection E as <-. report_fields. intros Hz.
  pose proof (proj1 (count_zero _) Hz) as Hfalse.
  rewrite !(masked_sum_all_false _ _ (and_mask_all_false _ _ Hfalse)).
  rewrite Hz. cbn [Nat.ltb Nat.leb].
  rewrite (gt_zero_false (0 * timestep_hours)) by ring.
  repeat constructor; try reflexivity;
    destruct (gt _ 0); try reflexivity; unfold Qdiv; ring.
Qed.

(** Zero total curtailment energy: the four outputs divided by it are 0. *)
Lemma no_curtailment_energy :
  total_curtailment_energy_mwh (energy_analysis r) == 0 ->
  Forall (fun x => x == 0) (energy_ratio_outputs r).
Proof using Hreport.
  unfold analyze_curtailment_interactions in Hreport.
  apply bind_ok in Hreport as (curtailment & _ & E).
  injection E as <-. report_fields. intros Hz.
  rewrite (gt_zero_false _ Hz).
  repeat constructor; reflexivity.
Qed.

(** Zero curtailment energy during charging: the capture efficiency is 0. *)
Lemma no_curtailment_during_charging :
  curtailment_during_charging_mwh (energy_analysis r) == 0 ->
  curtailment_capture_efficiency_pct (battery_curtailment_interaction r) == 0.
Proof using Hreport.
  unfold analyze_curtailment_interactions in Hreport.
  apply bind_ok in Hreport as (curtailment & _ & E).
  injection E as <-. report_fields. intros Hz.
  rewrite (gt_zero_false _ Hz). reflexivity.
Qed.

End CurtailmentReport.

(** The analysis returns whenever the curtailment column is numeric. *)
Lemma analysis_returns (df : list ResultRow) (timestep_hours : Q) :
  Forall (fun row => exists c, Curtailment row = CNum c) df ->
  exists r, analyze_curtailment_interactions df timestep_hours = Ok r.
Proof.
  intros HF. unfold analyze_curtailment_interactions.
  assert (exists cs, for_each (fun r => numeric (Curtailment r)) df = Ok cs) as [cs ->].
  { induction HF as [|row df (c & Ec) _ (cs & IH)]; simpl; [eauto|].
    rewrite Ec. simpl. rewrite IH. simpl. eauto. }
  simpl. eauto.
Qed.

(** C9, as the code has it (degenerate denominators).  In
    [analyze_curtailment_interactions]: with no curtailment period all eight
    percentage and ratio outputs are 0; with zero total curtailment energy
    the four outputs divided by it are 0; with zero curtailment energy
    during charging the capture efficiency is 0.  In
    [calculate_levelized_cost] a zero annual output is guarded and the
    function returns [float('inf')]. *)
Theorem degenerate_denominators_resolve
        (df : list ResultRow) (timestep_hours : Q) (r : Report)
        (annual_output capital_cost annual_fixed_cost annual_variable_cost
         pv_replacement_costs : Q) (lifetime : Z) (discount_rate : Q) :
  analyze_curtailment_interactions df timestep_hours = Ok r ->
  (curtailment_periods_total (summary_metrics r) = 0%nat ->
   Forall (fun x => x == 0) (ratio_outputs r))
  /\ (total_curtailment_energy_mwh (energy_analysis r) == 0 ->
      Forall (fun x => x == 0) (energy_ratio_outputs r))
  /\ (curtailment_during_charging_mwh (energy_analysis r) == 0 ->
      curtailment_capture_efficiency_pct (battery_curtailment_interaction r) == 0)
  /\ (annual_output == 0 ->
      calculate_levelized_cost annual_output capital_cost annual_fixed_cost
                               annual_variable_cost pv_replacement_costs
                               lifetime discount_rate
      = Ok Infinity).
Proof.
  intros Hreport.
  repeat match goal with |- _ /\ _ => split end.
  - exact (no_curtailment_periods _ _ _ Hreport).
  - exact (no_curtailment_energy _ _ _ Hreport).
  - exact (no_curtailment_during_charging _ _ _ Hreport).
  - intros Hz%Qeq_bool_iff. unfold calculate_levelized_cost. rewrite Hz. reflexivity.
Qed.

Lemma degenerate_denominators_witness :
  Forall (fun x => x == 0) (ratio_outputs calm_report)
  /\ Forall (fun x => x == 0) (energy_ratio_outputs calm_report)
  /\ curtailment_capture_efficiency_pct (battery_curtailment_interaction calm_report) == 0
  /\ calculate_levelized_cost 0 1000 20 5 0 LIFETIME_YEARS DISCOUNT_RATE = Ok Infinity.
Proof.
  destruct (degenerate_denominators_resolve calm_ledger (1 # 2) calm_report
              0 1000 20 5 0 LIFETIME_YEARS DISCOUNT_RATE)
    as (Hperiods & Henergy & Hcapture & Hlevel).
  - vm_compute. reflexivity.
  - split; [apply Hperiods; vm_compute; reflexivity|].
    split; [apply Henergy; vm_compute; reflexivity|].
    split; [apply Hcapture; vm_compute; reflexivity|].
    apply Hlevel. reflexivity.
Defined.

(** The calm ledger has no curtailment period and no curtailment energy. *)
Example calm_report_is_degenerate :
  curtailment_periods_total (summary_metrics calm_report) = 0%nat
  /\ total_curtailment_energy_mwh (energy_analysis calm_report) == 0.
Proof. split; vm_compute; reflexivity. Qed.

(** C9, as stated, fails for the levelised cost: at zero annual output the
    value is not the default 0 but [float('inf')]. *)
Lemma levelized_cost_default_is_not_zero :
  ~ (forall capital_cost annual_fixed_cost annual_variable_cost pv_replacement_costs
            lifetime discount_rate,
        exists x,
          calculate_levelized_cost 0 capital_cost annual_fixed_cost annual_variable_cost
                                   pv_replacement_costs lifetime discount_rate
          = Ok (Finite x)
          /\ x == 0).
Proof.
  intros Hclaim.
  destruct (Hclaim 1000 20 5 0 LIFETIME_YEARS DISCOUNT_RATE) as (x & E & _).
  vm_compute in E. discriminate.
Qed.

(** Zero total curtailment energy resolves only the four outputs divided by
    it: with a zero timestep the energy is 0 although a curtailment period
    exists, and the share of curtailment periods spent charging is 100. *)
Example zero_timestep_keeps_period_shares :
  exists r,
    analyze_curtailment_interactions [ledger_row 5 10 0] 0 = Ok r
    /\ total_curtailment_energy_mwh (energy_analysis r) == 0
    /\ pct_curtailment_periods_charging (time_analysis r) == 100.
Proof. eexists. split; [vm_compute; reflexivity|]. split; vm_compute; reflexivity. Qed.

(** ** The model has instances, and the bound horizon is a range *)

Lemma index_In (xs : list nat) (x : nat) :
  In x xs -> exists i, Py.index xs x = Ok i /\ xs !! i = Some x.
Proof.
  induction xs as [|y ys IH]; simpl; [tauto|].
  intros Hin. destruct (Nat.eqb_spec x y) as [->|Hne].
  - exists 0%nat. auto.
  - destruct Hin as [->|Hin]; [congruence|].
    destruct (IH Hin) as (i & -> & Hl). exists (S i). auto.
Qed.

Lemma create_instance_exists (model : AbstractModel) (data : DataPortal) :
  Forall (fun nc => exists add, construct data nc.1 nc.2 = Ok add) model ->
  exists inst, create_instance model data = Ok inst.
Proof.
  induction 1 as [|[name c] rest (add & Ec) _ (inst & IH)]; simpl.
  - eauto.
  - simpl in Ec. rewrite Ec, IH. simpl. eauto.
Qed.

Lemma construct_IndexedConstraint_exists (data : DataPortal) (name : string) rule :
  (forall t, In t (DATETIME data) -> exists body, rule data t = Ok body) ->
  exists add, construct data name (IndexedConstraint rule) = Ok add.
Proof.
  intros Hall. cbn [construct].
  match goal with
  | |- context [for_each ?f ?xs] => destruct (for_each_exists f xs) as [cs ->]
  end.
  - intros t Ht. destruct (Hall t Ht) as [body ->]. simpl. eauto.
  - simpl. eauto.
Qed.

(** Data with a nonempty horizon, a nonzero discharging efficiency and a
    numeric price at every step has an instance of the model. *)
Lemma instance_exists (data : DataPortal) :
  DATETIME data <> [] ->
  ~ DISCHARGING_EFFICIENCY data == 0 ->
  (forall t, In t (DATETIME data) -> exists q, PRICE data !! t = Some (CNum q)) ->
  exists inst, create_instance create_optimization_model data = Ok inst.
Proof.
  intros Hne Heff Hprice.
  assert (Hdiv : exists q, Py.div 1 (DISCHARGING_EFFICIENCY data) = Ok q).
  { unfold Py.div. destruct (Qeq_bool _ 0) eqn:E; [|eauto].
    apply Qeq_bool_iff in E. contradiction. }
  destruct Hdiv as [inv Hdiv].
  apply create_instance_exists. unfold create_optimization_model.
  repeat apply Forall_cons_2; try apply Forall_nil_2; cbn [fst snd];
    try (eexists; reflexivity);
    try (apply construct_IndexedConstraint_exists; intros t Ht; eexists; reflexivity).
  - (* objective *)
    cbn [construct]. unfold operational_profit_rule.
    match goal with
    | |- context [for_each ?f ?xs] => destruct (for_each_exists f xs) as [terms ->]
    end.
    + intros t Ht. destruct (Hprice t Ht) as [q Hq].
      unfold numeric_param, lookup_param. rewrite Hq. simpl. eauto.
    + simpl. eauto.
  - (* ammonia balance *)
    apply construct_IndexedConstraint_exists. intros t Ht.
    unfold nh3_balance_rule.
    destruct (DATETIME data) as [|first rest] eqn:El; [contradiction|].
    replace (getitem (first :: rest) 0) with (Ok first : result nat) by reflexivity.
    cbn [Py.bind].
    destruct (Nat.eqb_spec t first) as [->|Hneq].
    + rewrite Hdiv. simpl. eauto.
    + destruct (index_In _ _ Ht) as (i & -> & Hi). cbn [Py.bind].
      destruct i as [|j]; [simpl in Hi; congruence|].
      replace (Z.of_nat (S j) - 1)%Z with (Z.of_nat j) by lia.
      assert (Hj : exists p, (first :: rest) !! j = Some p).
      { apply lookup_lt_is_Some. apply lookup_lt_Some in Hi. lia. }
      destruct Hj as [p Hp]. apply getitem_nonneg in Hp. rewrite Hp.
      cbn [Py.bind]. rewrite Hdiv. simpl. eauto.
  - (* cyclic closure *)
    cbn [construct]. unfold cyclical_storage_constraint_rule.
    destruct (exists_last Hne) as (front & last_t & El).
    assert (E : getitem (DATETIME data) (-1) = Ok last_t).
    { apply getitem_last. eauto. }
    rewrite E. simpl. eauto.
Qed.

(** The horizon [prepare_data] binds is [0 .. n-1], so the step before [t]
    is [t - 1]: the balance reads as the specification writes it. *)
Lemma nh3_balance_over_bound_horizon `{TimeOps}
      (self : IntegratedAmmoniaBatteryOptimizer) (df : DataFrame)
      (data : DataPortal) (inst : ConcreteModel) (s : Solution) (t : nat) :
  prepare_data self df = Ok data ->
  create_instance create_optimization_model data = Ok inst ->
  accepted inst s = true ->
  In t (DATETIME data) ->
  match t with
  | O => s (NH3_LEVEL 0)
         == s OPTIMAL_INITIAL_NH3_LEVEL + charge_in data s 0 - discharge_out data s 0
  | S t' => s (NH3_LEVEL t)
            == s (NH3_LEVEL t') + charge_in data s t - discharge_out data s t
  end.
Proof.
  intros Hd Hinst Hacc Ht.
  destruct (prepare_data_inv _ _ _ Hd) as (df' & _ & Hrange & _).
  assert (Hnd : NoDup (DATETIME data)) by (rewrite Hrange; apply NoDup_seq).
  assert (Hl : DATETIME data !! t = Some t).
  { rewrite Hrange in *. apply in_seq in Ht. apply lookup_seq. lia. }
  assert (Hm : In ("nh3_balance_constraint", IndexedConstraint nh3_balance_rule)
                  create_optimization_model) by in_model.
  destruct (indexed_rule_holds _ _ _ Hinst Hacc _ _ _ Hm Ht) as (body & E & Hb).
  pose proof (nh3_balance_rule_at data t t body s Hnd Hl E) as Hshape.
  destruct t as [|t'].
  - rewrite Hshape in Hb. exact Hb.
  - destruct Hshape as (prev_t & Hp & Hshape).
    rewrite Hrange in Hp. apply lookup_seq in Hp as [-> _].
    rewrite Hshape in Hb. exact Hb.
Qed.

(** When the sampling interval of the frame equals the configured one, the
    frame passes through with its timestamps parsed and nothing else
    changed. *)
Lemma equal_interval_passes_through `{TimeOps}
      (self : IntegratedAmmoniaBatteryOptimizer) (df : DataFrame)
      (col : Series) (stamps : list Z) (t0 t1 : Z) :
  columns df !! "DATETIME" = Some col ->
  to_datetime col = Ok stamps ->
  stamps !! 0%nat = Some t0 ->
  stamps !! 1%nat = Some t1 ->
  time_interval_hours self == inject_Z (t1 - t0) / 3600 ->
  handle_datetime self df = Ok (setcol df "DATETIME" (TimeSeries stamps)).
Proof.
  intros Hc Hp H0 H1 Heq. unfold handle_datetime. rewrite Hc, Hp. cbn [Py.bind].
  apply (getitem_nonneg _ 0%nat) in H0. apply (getitem_nonneg _ 1%nat) in H1.
  change (Z.of_nat 0) with 0%Z in H0. change (Z.of_nat 1) with 1%Z in H1. rewrite H1. cbn [Py.bind]. rewrite H0. cbn [Py.bind].
  apply Qeq_bool_iff in Heq. rewrite Heq. reflexivity.
Qed.

(** Otherwise the frame is resampled at the frequency [resample_freq]. *)
Lemma different_interval_resamples `{TimeOps}
      (self : IntegratedAmmoniaBatteryOptimizer) (df : DataFrame)
      (col : Series) (stamps : list Z) (t0 t1 : Z) :
  columns df !! "DATETIME" = Some col ->
  to_datetime col = Ok stamps ->
  stamps !! 0%nat = Some t0 ->
  stamps !! 1%nat = Some t1 ->
  ~ time_interval_hours self == inject_Z (t1 - t0) / 3600 ->
  handle_datetime self df
  = resample_mean (resample_freq self) stamps
                  (select_numeric
                     (delete "DATETIME" (<["DATETIME" := TimeSeries stamps]> (columns df)))).
Proof.
  intros Hc Hp H0 H1 Hne. unfold handle_datetime. rewrite Hc, Hp. cbn [Py.bind].
  apply (getitem_nonneg _ 0%nat) in H0. apply (getitem_nonneg _ 1%nat) in H1.
  change (Z.of_nat 0) with 0%Z in H0. change (Z.of_nat 1) with 1%Z in H1. rewrite H1. cbn [Py.bind]. rewrite H0. cbn [Py.bind].
  destruct (Qeq_bool _ _) eqn:E; [apply Qeq_bool_iff in E; contradiction|].
  reflexivity.
Qed.

(** ** Running the program on the sample inputs *)

(** Without a DATETIME column the whole run goes through, and the ledger
    carries the integer index as its [Time]. *)
Example optimize_without_datetime :
  exists r self',
    @optimize reference_time sample_power optimal_solver
              (unit_optimizer 1) no_datetime_df (1 # 100) = Ok (Some r, self')
    /\ map Time (rows (operational_results r)) = [inr 0%nat; inr 1%nat].
Proof. do 2 eexists. split; vm_compute; reflexivity. Qed.

(** Averaging the six half-hourly prices over the 1.5-hour target. *)
Example target_interval_means :
  Forall2 Qeq
          (map (bin_mean [10; 20; 30; 40; 50; 60])
               [(0%Z, [0; 1; 2]%nat); (5400%Z, [3; 4; 5]%nat)])
          [20; 50].
Proof. repeat constructor. Qed.

(** The constructor: efficiencies of the default plant, zero thresholds, and
    the rejection of an unknown technology. *)
Example default_plant :
  exists self,
    init 100 100000 100 "direct_combustion" (1 # 2) sample_costs = Ok self
    /\ charging_efficiency self == 18600 # 37684
    /\ discharging_efficiency self == 6 # 10
    /\ min_charging_threshold self = 0
    /\ min_discharging_threshold self = 0
    /\ time_interval_hours self = 1 # 2.
Proof.
  eexists. split; [vm_compute; reflexivity|].
  repeat split; vm_compute; reflexivity.
Qed.

Example unknown_technology :
  init 100 100000 100 "fuel_cell" (1 # 2) sample_costs
  = Raise (ValueError "Unsupported conversion technology").
Proof. reflexivity. Qed.

(* ===================================================================== *)
(** * Further properties of the code                                      *)
(* ===================================================================== *)

(** ** Accepted solutions: bounds, exclusivity, conservation of mass *)

(** X1 (operating envelope).  At every timestep of the horizon an accepted
    solution keeps the inventory between 0 and the optimised capacity, the
    capacity at most 100000, the charging power between 0 and the maximum
    charging power and the discharging power between 0 and the maximum
    discharging power. *)
Theorem operating_envelope
        (data : DataPortal) (inst : ConcreteModel) (s : Solution) (t : nat) :
  create_instance create_optimization_model data = Ok inst ->
  accepted inst s = true ->
  In t (DATETIME data) ->
  (0 <= s (NH3_LEVEL t) /\ s (NH3_LEVEL t) <= s OPTIMAL_NH3_CAPACITY)
  /\ s OPTIMAL_NH3_CAPACITY <= 100000
  /\ (0 <= s (CHARGING_POWER t)
      /\ s (CHARGING_POWER t) <= MAXIMUM_CHARGING_POWER data)
  /\ (0 <= s (DISCHARGING_POWER t)
      /\ s (DISCHARGING_POWER t) <= MAXIMUM_DISCHARGING_POWER data).
Proof.
  intros Hinst Hacc Ht.
  assert (Hl : In ("NH3_LEVEL", IndexedVar NH3_LEVEL NonNegativeReals None)
                  create_optimization_model) by in_model.
  assert (Hk : In ("OPTIMAL_NH3_CAPACITY",
                   Var OPTIMAL_NH3_CAPACITY NonNegativeReals (Some (0, 100000)))
                  create_optimization_model) by in_model.
  assert (Hp : In ("CHARGING_POWER",
                   IndexedVar CHARGING_POWER NonNegativeReals
                              (Some (fun m _ => (0, MAXIMUM_CHARGING_POWER m))))
                  create_optimization_model) by in_model.
  assert (Hq : In ("DISCHARGING_POWER",
                   IndexedVar DISCHARGING_POWER NonNegativeReals
                              (Some (fun m _ => (0, MAXIMUM_DISCHARGING_POWER m))))
                  create_optimization_model) by in_model.
  assert (Hc : In ("storage_capacity_constraint",
                   IndexedConstraint storage_capacity_constraint_rule)
                  create_optimization_model) by in_model.
  destruct (indexed_var_ok _ _ _ Hinst Hacc _ _ _ _ _ Hl Ht)
    as [L0%in_domain_NonNegativeReals _].
  destruct (scalar_var_ok _ _ _ Hinst Hacc _ _ _ _ Hk) as [_ [_ K]%in_bounds_Some].
  destruct (indexed_var_ok _ _ _ Hinst Hacc _ _ _ _ _ Hp Ht) as [_ P].
  destruct (indexed_var_ok _ _ _ Hinst Hacc _ _ _ _ _ Hq Ht) as [_ D].
  cbn [option_map] in P, D.
  apply in_bounds_Some in P. apply in_bounds_Some in D.
  destruct (indexed_rule_holds _ _ _ Hinst Hacc _ _ _ Hc Ht) as (? & [= <-] & R).
  simpl in R. auto.
Qed.

Lemma operating_envelope_witness :
  (0 <= charge_then_discharge (NH3_LEVEL 0)
   /\ charge_then_discharge (NH3_LEVEL 0) <= charge_then_discharge OPTIMAL_NH3_CAPACITY)
  /\ charge_then_discharge OPTIMAL_NH3_CAPACITY <= 100000
  /\ (0 <= charge_then_discharge (CHARGING_POWER 0)
      /\ charge_then_discharge (CHARGING_POWER 0) <= MAXIMUM_CHARGING_POWER two_step_data)
  /\ (0 <= charge_then_discharge (DISCHARGING_POWER 0)
      /\ charge_then_discharge (DISCHARGING_POWER 0)
         <= MAXIMUM_DISCHARGING_POWER two_step_data).
Proof.
  apply (operating_envelope two_step_data two_step_instance charge_then_discharge 0).
  - vm_compute. reflexivity.
  - vm_compute. reflexivity.
  - left. reflexivity.
Defined.

(** X2 (never both at once).  No accepted solution charges and discharges
    in the same timestep. *)
Theorem never_charging_and_discharging
        (data : DataPortal) (inst : ConcreteModel) (s : Solution) (t : nat) :
  create_instance create_optimization_model data = Ok inst ->
  accepted inst s = true ->
  In t (DATETIME data) ->
  ~ (0 < s (CHARGING_POWER t) /\ 0 < s (DISCHARGING_POWER t)).
Proof.
  intros Hinst Hacc Ht [Hp Hd].
  assert (Hc : In ("IS_CHARGING_ON", IndexedVar IS_CHARGING_ON Binary None)
                  create_optimization_model) by in_model.
  assert (Hf : In ("IS_DISCHARGING_ON", IndexedVar IS_DISCHARGING_ON Binary None)
                  create_optimization_model) by in_model.
  assert (H1 : In ("no_simultaneous_charge_discharge",
                   IndexedConstraint no_simultaneous_operation_rule)
                  create_optimization_model) by in_model.
  assert (H2 : In ("max_charging_constraint", IndexedConstraint max_charging_rule)
                  create_optimization_model) by in_model.
  assert (H4 : In ("max_discharging_constraint", IndexedConstraint max_discharging_rule)
                  create_optimization_model) by in_model.
  destruct (indexed_var_ok _ _ _ Hinst Hacc _ _ _ _ _ Hc Ht) as [Bc%in_domain_Binary _].
  destruct (indexed_var_ok _ _ _ Hinst Hacc _ _ _ _ _ Hf Ht) as [Bd%in_domain_Binary _].
  destruct (indexed_rule_holds _ _ _ Hinst Hacc _ _ _ H1 Ht) as (? & [= <-] & R1).
  destruct (indexed_rule_holds _ _ _ Hinst Hacc _ _ _ H2 Ht) as (? & [= <-] & R2).
  destruct (indexed_rule_holds _ _ _ Hinst Hacc _ _ _ H4 Ht) as (? & [= <-] & R4).
  simpl in R1, R2, R4.
  destruct Bc as [Bc|Bc]; [rewrite Bc in R2; lra|].
  destruct Bd as [Bd|Bd]; [rewrite Bd in R4; lra|].
  rewrite Bc, Bd in R1. lra.
Qed.

Lemma never_charging_and_discharging_witness :
  ~ (0 < charge_then_discharge (CHARGING_POWER 1)
     /\ 0 < charge_then_discharge (DISCHARGING_POWER 1)).
Proof.
  apply (never_charging_and_discharging two_step_data two_step_instance
                                        charge_then_discharge 1).
  - vm_compute. reflexivity.
  - vm_compute. reflexivity.
  - right. left. reflexivity.
Defined.

Lemma sum_snoc (xs : list Q) (x : Q) : Py.sum (xs ++ [x]) = Py.sum xs + x.
Proof. unfold Py.sum. rewrite fold_left_app. reflexivity. Qed.

Lemma sum_from_shift (xs : list Q) (a : Q) :
  fold_left Qplus xs a == a + fold_left Qplus xs 0.
Proof.
  revert a. induction xs as [|x xs IH]; intros a; simpl.
  - ring.
  - rewrite (IH (a + x)), (IH (0 + x)). ring.
Qed.

Lemma sum_cons (x : Q) (xs : list Q) : Py.sum (x :: xs) == x + Py.sum xs.
Proof. unfold Py.sum. simpl. rewrite sum_from_shift. ring. Qed.

(** The balance constraint at one position of the horizon. *)
Lemma balance_step (data : DataPortal) (inst : ConcreteModel) (s : Solution) (i t : nat) :
  create_instance create_optimization_model data = Ok inst ->
  accepted inst s = true ->
  NoDup (DATETIME data) ->
  DATETIME data !! i = Some t ->
  match i with
  | O => s (NH3_LEVEL t)
         == s OPTIMAL_INITIAL_NH3_LEVEL + charge_in data s t - discharge_out data s t
  | S j => exists prev_t,
             DATETIME data !! j = Some prev_t
             /\ s (NH3_LEVEL t)
                == s (NH3_LEVEL prev_t) + charge_in data s t - discharge_out data s t
  end.
Proof.
  intros Hinst Hacc Hnd Hl.
  assert (Ht : In t (DATETIME data)).
  { apply list_elem_of_In. eapply list_elem_of_lookup_2; eauto. }
  assert (Hm : In ("nh3_balance_constraint", IndexedConstraint nh3_balance_rule)
                  create_optimization_model) by in_model.
  destruct (indexed_rule_holds _ _ _ Hinst Hacc _ _ _ Hm Ht) as (body & E & Hb).
  pose proof (nh3_balance_rule_at data i t body s Hnd Hl E) as Hshape.
  destruct i as [|j].
  - rewrite Hshape in Hb. exact Hb.
  - destruct Hshape as (prev_t & Hp & Hshape).
    rewrite Hshape in Hb. eauto.
Qed.

(** The inventory after the timestep at position [i] is the initial level
    plus everything charged minus everything discharged up to there. *)
Lemma level_is_running_balance
      (data : DataPortal) (inst : ConcreteModel) (s : Solution) (i t : nat) :
  create_instance create_optimization_model data = Ok inst ->
  accepted inst s = true ->
  NoDup (DATETIME data) ->
  DATETIME data !! i = Some t ->
  s (NH3_LEVEL t)
  == s OPTIMAL_INITIAL_NH3_LEVEL
     + Py.sum (map (charge_in data s) (take (S i) (DATETIME data)))
     - Py.sum (map (discharge_out data s) (take (S i) (DATETIME data))).
Proof.
  intros Hinst Hacc Hnd. revert t. induction i as [|i IH]; intros t Hl.
  - pose proof (balance_step _ _ _ _ _ Hinst Hacc Hnd Hl) as B. simpl in B.
    rewrite (take_S_r _ _ _ Hl). simpl. unfold Py.sum. simpl. rewrite B. ring.
  - destruct (balance_step _ _ _ _ _ Hinst Hacc Hnd Hl) as (prev_t & Hp & B).
    rewrite (take_S_r _ _ _ Hl), !map_app. simpl map. rewrite !sum_snoc.
    rewrite B, (IH _ Hp). ring.
Qed.

(** X3 (conservation of mass).  In an accepted solution over a
    duplicate-free horizon, the inventory after every timestep is the
    optimised initial level plus the mass charged so far minus the mass
    discharged so far, and over the whole horizon the mass charged equals
    the mass discharged. *)
Theorem mass_is_conserved
        (data : DataPortal) (inst : ConcreteModel) (s : Solution) :
  create_instance create_optimization_model data = Ok inst ->
  accepted inst s = true ->
  NoDup (DATETIME data) ->
  (forall i t,
      DATETIME data !! i = Some t ->
      s (NH3_LEVEL t)
      == s OPTIMAL_INITIAL_NH3_LEVEL
         + Py.sum (map (charge_in data s) (take (S i) (DATETIME data)))
         - Py.sum (map (discharge_out data s) (take (S i) (DATETIME data))))
  /\ Py.sum (map (charge_in data s) (DATETIME data))
     == Py.sum (map (discharge_out data s) (DATETIME data)).
Proof.
  intros Hinst Hacc Hnd. split.
  - intros i t Hl. exact (level_is_running_balance _ _ _ _ _ Hinst Hacc Hnd Hl).
  - assert (Hm : In ("cyclical_storage_constraint",
                     Constraint cyclical_storage_constraint_rule)
                    create_optimization_model) by in_model.
    destruct (scalar_rule_holds _ _ _ Hinst Hacc _ _ Hm) as (body & E & Hb).
    unfold cyclical_storage_constraint_rule in E.
    apply bind_ok in E as (last_t & El & [= <-]).
    apply getitem_last in El as [front El]. simpl in Hb.
    assert (Hl : DATETIME data !! length front = Some last_t).
    { rewrite El. rewrite lookup_app_r by lia. rewrite Nat.sub_diag. reflexivity. }
    pose proof (level_is_running_balance _ _ _ _ _ Hinst Hacc Hnd Hl) as B.
    rewrite take_ge in B by (rewrite El, length_app; simpl; lia).
    rewrite Hb in B. lra.
Qed.

Lemma mass_is_conserved_witness :
  (forall i t,
      DATETIME two_step_data !! i = Some t ->
      charge_then_discharge (NH3_LEVEL t)
      == charge_then_discharge OPTIMAL_INITIAL_NH3_LEVEL
         + Py.sum (map (charge_in two_step_data charge_then_discharge)
                       (take (S i) (DATETIME two_step_data)))
         - Py.sum (map (discharge_out two_step_data charge_then_discharge)
                       (take (S i) (DATETIME two_step_data))))
  /\ Py.sum (map (charge_in two_step_data charge_then_discharge) (DATETIME two_step_data))
     == Py.sum (map (discharge_out two_step_data charge_then_discharge)
                    (DATETIME two_step_data)).
Proof.
  apply (mass_is_conserved two_step_data two_step_instance charge_then_discharge).
  - vm_compute. reflexivity.
  - vm_compute. reflexivity.
  - apply (NoDup_seq 0 2).
Defined.

(** ** Instances: when they exist, how large they are, what they leave free *)

Lemma numeric_param_ok (name : string) (p : gmap nat cell) (t : nat) (q : Q) :
  numeric_param name p t = Ok q <-> p !! t = Some (CNum q).
Proof.
  unfold numeric_param, lookup_param.
  destruct (p !! t) as [[x| |]|]; simpl; split; congruence.
Qed.

(** The objective of a constructed instance is the one
    [operational_profit_rule] builds. *)
Lemma instance_objective (data : DataPortal) (inst : ConcreteModel) :
  create_instance create_optimization_model data = Ok inst ->
  exists f,
    operational_profit_rule data = Ok f
    /\ forall s, objective_value inst s = Ok (f s).
Proof.
  intros Hinst.
  pose proof (create_instance_objectives _ _ _ Hinst) as Ho. simpl in Ho.
  inversion Ho as [|[n f] [n' rule] os rs [Hn Hf] Hrest Eo Erule].
  inversion Hrest. simpl in Hn, Hf. subst n os.
  exists f. split; [exact Hf|].
  intros s. unfold objective_value. rewrite <- Eo. reflexivity.
Qed.

(** X4 (when the model has an instance).  [create_instance] succeeds on the
    model exactly when the horizon is not empty, the discharging efficiency
    is not zero and the price is a number at every timestep. *)
Theorem instance_exists_iff (data : DataPortal) :
  (exists inst, create_instance create_optimization_model data = Ok inst)
  <-> (DATETIME data <> []
       /\ ~ DISCHARGING_EFFICIENCY data == 0
       /\ forall t, In t (DATETIME data) -> exists q, PRICE data !! t = Some (CNum q)).
Proof.
  split.
  - intros [inst Hinst]. split; [|split].
    + destruct (horizon_nonempty _ _ Hinst) as (front & last_t & ->).
      intros E. destruct front; discriminate.
    + exact (discharging_efficiency_nonzero _ _ Hinst).
    + intros t Ht.
      destruct (instance_objective _ _ Hinst) as (f & Ef & _).
      unfold operational_profit_rule in Ef.
      apply bind_ok in Ef as (terms & Et & _).
      destruct (for_each_In _ _ _ _ Et Ht) as (term & Eterm & _).
      apply bind_ok in Eterm as (price & Eprice & _).
      exists price. apply numeric_param_ok in Eprice. exact Eprice.
  - intros (Hne & Heff & Hprice). exact (instance_exists data Hne Heff Hprice).
Qed.

(** Construction stops at the first component that raises. *)
Lemma create_instance_first_failure
      (data : DataPortal) (before after : AbstractModel) (name : string)
      (c : Component) (e : exn) :
  Forall (fun nc => exists add, construct data nc.1 nc.2 = Ok add) before ->
  construct data name c = Raise e ->
  create_instance (before ++ (name, c) :: after) data = Raise e.
Proof.
  intros Hbefore Hc. induction Hbefore as [|[n k] rest (add & Ek) _ IH]; simpl.
  - rewrite Hc. reflexivity.
  - simpl in Ek. rewrite Ek. simpl. rewrite IH. reflexivity.
Qed.

(** X5 (empty horizon).  Over an empty horizon the cyclic-closure rule has
    no last timestep to read: [create_instance] raises [IndexError]. *)
Theorem empty_horizon_has_no_instance (data : DataPortal) :
  DATETIME data = [] ->
  create_instance create_optimization_model data = Raise IndexError.
Proof.
  intros Hempty.
  change create_optimization_model
    with (take 13 create_optimization_model
            ++ ("cyclical_storage_constraint",
                Constraint cyclical_storage_constraint_rule)
            :: drop 14 create_optimization_model).
  apply create_instance_first_failure.
  - cbn [take create_optimization_model].
    repeat apply Forall_cons_2; try apply Forall_nil_2; cbn [fst snd construct];
      try (eexists; reflexivity);
      try (unfold operational_profit_rule); rewrite Hempty; simpl; eauto.
  - cbn [construct]. unfold cyclical_storage_constraint_rule.
    rewrite Hempty. reflexivity.
Qed.

Lemma empty_horizon_witness :
  create_instance create_optimization_model empty_horizon_data = Raise IndexError.
Proof.
  apply (empty_horizon_has_no_instance empty_horizon_data). reflexivity.
Defined.

(** X6 (zero discharging efficiency).  With a nonempty horizon and numeric
    prices, a discharging efficiency of zero makes the balance rule divide
    by zero: [create_instance] raises [ZeroDivisionError]. *)
Theorem zero_efficiency_has_no_instance (data : DataPortal) :
  DATETIME data <> [] ->
  (forall t, In t (DATETIME data) -> exists q, PRICE data !! t = Some (CNum q)) ->
  DISCHARGING_EFFICIENCY data == 0 ->
  create_instance create_optimization_model data = Raise ZeroDivisionError.
Proof.
  intros Hne Hprice Hzero.
  change create_optimization_model
    with (take 12 create_optimization_model
            ++ ("nh3_balance_constraint", IndexedConstraint nh3_balance_rule)
            :: drop 13 create_optimization_model).
  apply create_instance_first_failure.
  - cbn [take create_optimization_model].
    repeat apply Forall_cons_2; try apply Forall_nil_2; cbn [fst snd];
      try (eexists; reflexivity);
      try (apply construct_IndexedConstraint_exists; intros t Ht; eexists; reflexivity).
    cbn [construct]. unfold operational_profit_rule.
    match goal with
    | |- context [for_each ?f ?xs] => destruct (for_each_exists f xs) as [terms ->]
    end.
    + intros t Ht. destruct (Hprice t Ht) as [q Hq].
      rewrite (proj2 (numeric_param_ok "PRICE" _ _ _) Hq). simpl. eauto.
    + simpl. eauto.
  - cbn [construct].
    destruct (DATETIME data) as [|first rest] eqn:El; [contradiction|].
    cbn [for_each]. unfold nh3_balance_rule at 1. rewrite El.
    replace (getitem (first :: rest) 0) with (Ok first : result nat) by reflexivity.
    cbn [Py.bind]. rewrite Nat.eqb_refl.
    unfold Py.div. apply Qeq_bool_iff in Hzero. rewrite Hzero. reflexivity.
Qed.

Lemma zero_efficiency_witness :
  create_instance create_optimization_model zero_efficiency_data = Raise ZeroDivisionError.
Proof.
  apply (zero_efficiency_has_no_instance zero_efficiency_data).
  - discriminate.
  - intros t [<-|[<-|[]]]; eexists; vm_compute; reflexivity.
  - reflexivity.
Defined.

Lemma create_instance_sizes (model : AbstractModel) (data : DataPortal)
      (inst : ConcreteModel) :
  create_instance model data = Ok inst ->
  length (variables inst) = variable_count (length (DATETIME data)) model
  /\ length (constraints inst) = constraint_count (length (DATETIME data)) model
  /\ length (objectives inst) = length (objective_rules model).
Proof.
  revert inst. induction model as [|[name c] rest IH]; intros inst H.
  - injection H as <-. auto.
  - invert_create H name c add inst' Ec Er.
    destruct (IH _ Er) as (Hv & Hc & Ho).
    destruct c; simpl in Ec.
    + injection Ec as <-. simpl. auto.
    + injection Ec as <-. simpl. rewrite length_app, length_map. auto.
    + apply bind_ok in Ec as (f & _ & [= <-]). simpl. auto.
    + apply bind_ok in Ec as (body & _ & [= <-]). simpl. auto.
    + apply bind_ok in Ec as (cs & Ecs & [= <-]). simpl.
      rewrite length_app. apply for_each_ok, Forall2_length in Ecs. auto.
Qed.

(** X7 (size of an instance).  Over a horizon of [n] timesteps an instance
    of the model has 2 + 7n variables, 2 + 7n constraints and one
    objective. *)
Theorem instance_size (data : DataPortal) (inst : ConcreteModel) :
  create_instance create_optimization_model data = Ok inst ->
  length (variables inst) = (2 + 7 * length (DATETIME data))%nat
  /\ length (constraints inst) = (2 + 7 * length (DATETIME data))%nat
  /\ length (objectives inst) = 1%nat.
Proof.
  intros Hinst.
  destruct (create_instance_sizes _ _ _ Hinst) as (Hv & Hc & Ho).
  rewrite Hv, Hc, Ho. simpl. repeat split; lia.
Qed.

Lemma instance_size_witness :
  length (variables two_step_instance) = (2 + 7 * length (DATETIME two_step_data))%nat
  /\ length (constraints two_step_instance) = (2 + 7 * length (DATETIME two_step_data))%nat
  /\ length (objectives two_step_instance) = 1%nat.
Proof.
  apply (instance_size two_step_data two_step_instance).
  vm_compute. reflexivity.
Defined.

(** The objective reads the charging and discharging powers only. *)
Lemma objective_same_operation (data : DataPortal) (f : Solution -> Q) (s s' : Solution) :
  operational_profit_rule data = Ok f ->
  same_operation s s' ->
  f s' = f s.
Proof.
  intros Ef Hsame. unfold operational_profit_rule in Ef.
  apply bind_ok in Ef as (terms & Et & [= <-]).
  f_equal. apply map_ext_in. intros term Hterm.
  destruct (for_each_In_inv _ _ _ _ Et Hterm) as (t & _ & Eterm).
  apply bind_ok in Eterm as (price & _ & [= <-]).
  rewrite <- (Hsame (DISCHARGING_POWER t) eq_refl).
  rewrite <- (Hsame (CHARGING_POWER t) eq_refl). reflexivity.
Qed.

Ltac to_same_operation Hsame s' :=
  repeat match goal with
         | |- context [s' ?v] => rewrite <- (Hsame v eq_refl)
         end.

Ltac transfer_constraint Er Hc Hsame s' :=
  revert Hc; injection Er as <-; intros Hc;
  cbn [holds] in *; to_same_operation Hsame s'; exact Hc.

(** X8 (state-tracking binaries are free).  The variables CHARGING_STARTED
    and CHARGING_STOPPED occur in no constraint and not in the objective:
    changing them to any binary values keeps an accepted solution accepted
    and leaves the objective value as it was. *)
Theorem state_tracking_is_unconstrained
        (data : DataPortal) (inst : ConcreteModel) (s s' : Solution) :
  create_instance create_optimization_model data = Ok inst ->
  accepted inst s = true ->
  same_operation s s' ->
  (forall t, In t (DATETIME data) ->
             (s' (CHARGING_STARTED t) == 0 \/ s' (CHARGING_STARTED t) == 1)
             /\ (s' (CHARGING_STOPPED t) == 0 \/ s' (CHARGING_STOPPED t) == 1)) ->
  accepted inst s' = true
  /\ objective_value inst s' = objective_value inst s.
Proof.
  intros Hinst Hacc Hsame Hbin. split.
  - unfold accepted. apply andb_true_intro. split; apply forallb_forall.
    + intros vd Hin. unfold var_ok. apply andb_true_intro.
      pose proof (accepted_variable _ _ _ Hacc Hin) as Hv.
      destruct (create_instance_variables_inv _ _ _ _ Hinst Hin)
        as [(n & Hm)|(n & v & b & t & Hm & Ht & Ev & Eb)].
      * which_component Hm; injection Hm as _ Ev _ _;
          rewrite <- Ev in *; to_same_operation Hsame s'; exact Hv.
      * rewrite Ev in *.
        which_component Hm; injection Hm as _ <- Ed Eb';
          try (progress (to_same_operation Hsame s'); exact Hv);
          rewrite Eb, <- Eb', <- Ed; split; try reflexivity;
          apply in_domain_Binary; apply (Hbin t Ht).
    + intros c Hin.
      pose proof (accepted_constraint _ _ _ Hacc Hin) as Hc.
      apply satisfied_holds.
      destruct (create_instance_constraints_inv _ _ _ _ Hinst Hin)
        as [(n & rule & Hm & Er)|(n & rule & t & Hm & Ht & Er)].
      * which_component Hm; injection Hm as _ <-.
        -- transfer_constraint Er Hc Hsame s'.
        -- unfold cyclical_storage_constraint_rule in Er.
           apply bind_ok in Er as (last_t & _ & Er).
           transfer_constraint Er Hc Hsame s'.
      * which_component Hm; injection Hm as _ <-;
          try (transfer_constraint Er Hc Hsame s').
        unfold nh3_balance_rule in Er.
        apply bind_ok in Er as (first & _ & Er).
        destruct (Nat.eqb t first).
        -- apply bind_ok in Er as (q & _ & Er).
           transfer_constraint Er Hc Hsame s'.
        -- apply bind_ok in Er as (i & _ & Er). apply bind_ok in Er as (p & _ & Er).
           apply bind_ok in Er as (q & _ & Er).
           transfer_constraint Er Hc Hsame s'.
  - destruct (instance_objective _ _ Hinst) as (f & Ef & Hobj).
    rewrite !Hobj. f_equal. exact (objective_same_operation _ _ _ _ Ef Hsame).
Qed.

Lemma state_tracking_witness :
  accepted two_step_instance charge_then_discharge_tracked = true
  /\ objective_value two_step_instance charge_then_discharge_tracked
     = objective_value two_step_instance charge_then_discharge.
Proof.
  apply (state_tracking_is_unconstrained two_step_data).
  - vm_compute. reflexivity.
  - vm_compute. reflexivity.
  - intros v Hv. destruct v; try discriminate Hv; reflexivity.
  - intros t [<-|[<-|[]]]; split; vm_compute; auto.
Defined.

Lemma sum_zero (xs : list Q) : Forall (fun x => x == 0) xs -> Py.sum xs == 0.
Proof.
  induction 1 as [|x xs Hx _ IH]; [reflexivity|].
  rewrite sum_cons, Hx, IH. ring.
Qed.

(** X9 (zero profit).  On every instance of the model the objective of a
    schedule is 0 when every price of the horizon is 0, and the objective of
    the idle schedule is 0 whatever the prices are. *)
Theorem zero_profit_cases (data : DataPortal) (inst : ConcreteModel) (s : Solution) :
  create_instance create_optimization_model data = Ok inst ->
  (forall t, In t (DATETIME data) ->
             exists q, PRICE data !! t = Some (CNum q) /\ q == 0)
  \/ s = idle_solution ->
  exists v, objective_value inst s = Ok v /\ v == 0.
Proof.
  intros Hinst Hcase.
  destruct (instance_objective _ _ Hinst) as (f & Ef & Hobj).
  unfold operational_profit_rule in Ef.
  apply bind_ok in Ef as (terms & Et & [= <-]).
  eexists. split; [apply Hobj|].
  apply sum_zero. apply Forall_forall. intros x Hx%list_elem_of_In.
  apply in_map_iff in Hx as (term & <- & Hterm).
  destruct (for_each_In_inv _ _ _ _ Et Hterm) as (t & Ht & Eterm).
  apply bind_ok in Eterm as (price & Eprice%numeric_param_ok & [= <-]).
  destruct Hcase as [Hzero| ->].
  - destruct (Hzero t Ht) as (q & Eq & Hq).
    rewrite Eprice in Eq. injection Eq as <-. rewrite Hq. ring.
  - unfold idle_solution. ring.
Qed.

Lemma zero_profit_witness :
  exists v, objective_value (instance_of zero_price_data) charge_then_discharge = Ok v
            /\ v == 0.
Proof.
  apply (zero_profit_cases zero_price_data (instance_of zero_price_data)
                           charge_then_discharge).
  - vm_compute. reflexivity.
  - left. intros t [<-|[<-|[]]]; eexists; (split; [vm_compute; reflexivity|reflexivity]).
Defined.

(** Idling on the priced two-step horizon earns nothing. *)
Example idle_objective :
  objective_value two_step_instance idle_solution = Ok 0.
Proof. vm_compute. reflexivity. Qed.

(** ** Data binding: round trip, short frames, shape of the handled frame *)

Lemma fold_insert_zip_seq {V} (xs : list V) (a n : nat) (m : gmap nat V) (t : nat) :
  fold_left (fun m kv => <[kv.1 := kv.2]> m) (zip (seq a n) xs) m !! t
  = if decide (a <= t < a + n)%nat
    then match xs !! (t - a)%nat with Some x => Some x | None => m !! t end
    else m !! t.
Proof.
  revert xs a m. induction n as [|n IH]; intros xs a m; simpl.
  - case_decide; [lia | reflexivity].
  - destruct xs as [|x xs]; simpl.
    + case_decide; reflexivity.
    + rewrite IH. simpl.
      destruct (decide (t = a)) as [->|Hne].
      * rewrite Nat.sub_diag. simpl.
        repeat case_decide; try lia. apply lookup_insert_eq.
      * rewrite lookup_insert_ne by congruence.
        repeat case_decide; try lia; try reflexivity.
        replace (t - a)%nat with (S (t - S a)) by lia. reflexivity.
Qed.

(** [dict(zip(range(n), xs))[t]] is [xs[t]] for [t < n], and absent beyond. *)
Lemma dict_zip_seq {V} (xs : list V) (n t : nat) :
  Py.dict (zip (seq 0 n) xs) !! t = if decide (t < n)%nat then xs !! t else None.
Proof.
  unfold Py.dict. rewrite fold_insert_zip_seq. rewrite Nat.sub_0_r.
  repeat case_decide; try lia; [destruct (xs !! t); reflexivity | apply lookup_empty].
Qed.

Lemma bind_series_ok (df : DataFrame) (idx : list nat) (name : string)
      (m : gmap nat cell) :
  bind_series df idx name = Ok m ->
  exists col, columns df !! name = Some col /\ m = Py.dict (zip idx (values col)).
Proof.
  unfold bind_series, getcol.
  destruct (columns df !! name) as [col|]; simpl; [|discriminate].
  intros [= <-]. eauto.
Qed.

(** X10 (binding round trip).  After a successful [prepare_data], each of
    the five bound parameters holds at timestep [t] exactly the entry of its
    column in the handled frame at row [t], for every row, and nothing at
    other indices; in a well-formed frame every timestep of the horizon has
    a value in every series. *)
Theorem bound_series_round_trip `{TimeOps}
        (self : IntegratedAmmoniaBatteryOptimizer) (df : DataFrame) (data : DataPortal) :
  prepare_data self df = Ok data ->
  exists df',
    handle_datetime self df = Ok df'
    /\ forall name, In name series_columns ->
         exists col m,
           columns df' !! name = Some col
           /\ bound_series data name = Some m
           /\ (forall t, m !! t
                         = if decide (t < nrows df')%nat then values col !! t else None)
           /\ (well_formed df' -> forall t, In t (DATETIME data) -> is_Some (m !! t)).
Proof.
  unfold prepare_data. intros E.
  apply bind_ok in E as (df' & Eh & E).
  apply bind_ok in E as (price & Ep & E).
  apply bind_ok in E as (demand & Ed & E).
  apply bind_ok in E as (wind & Ew & E).
  apply bind_ok in E as (curt & Ec & E).
  apply bind_ok in E as (carbon & Eb & E).
  apply bind_ok in E as (factor & _ & E).
  injection E as <-.
  exists df'. split; [exact Eh|].
  assert (Hone : forall name m,
             bind_series df' (seq 0 (nrows df')) name = Ok m ->
             exists col,
               columns df' !! name = Some col
               /\ (forall t, m !! t
                             = if decide (t < nrows df')%nat then values col !! t else None)
               /\ (well_formed df' ->
                   forall t, In t (seq 0 (nrows df')) -> is_Some (m !! t))).
  { intros name m Em. apply bind_series_ok in Em as (col & Hc & ->).
    exists col. split; [exact Hc|]. split; [intros t; apply dict_zip_seq|].
    intros Hwf t Ht%in_seq. rewrite dict_zip_seq.
    case_decide; [|lia]. apply lookup_lt_is_Some. rewrite (Hwf _ _ Hc). lia. }
  intros name Hin. simpl in Hin.
  destruct Hin as [<-|[<-|[<-|[<-|[<-|[]]]]]].
  - destruct (Hone _ _ Ep) as (col & ? & ? & ?). exists col, price. auto.
  - destruct (Hone _ _ Ed) as (col & ? & ? & ?). exists col, demand. auto.
  - destruct (Hone _ _ Ew) as (col & ? & ? & ?). exists col, wind. auto.
  - destruct (Hone _ _ Ec) as (col & ? & ? & ?). exists col, curt. auto.
  - destruct (Hone _ _ Eb) as (col & ? & ? & ?). exists col, carbon. auto.
Qed.

Lemma bound_series_witness :
  exists df',
    handle_datetime (unit_optimizer 1) two_step_df = Ok df'
    /\ forall name, In name series_columns ->
         exists col m,
           columns df' !! name = Some col
           /\ bound_series two_step_data name = Some m
           /\ (forall t, m !! t
                         = if decide (t < nrows df')%nat then values col !! t else None)
           /\ (well_formed df' ->
               forall t, In t (DATETIME two_step_data) -> is_Some (m !! t)).
Proof.
  apply (bound_series_round_trip (unit_optimizer 1) two_step_df two_step_data).
  vm_compute. reflexivity.
Defined.

(** X11 (frames shorter than two rows).  A frame that has a DATETIME column
    but fewer than two timestamps cannot be bound: reading the second
    timestamp raises [IndexError]. *)
Theorem short_frame_raises `{TimeOps}
        (self : IntegratedAmmoniaBatteryOptimizer) (df : DataFrame)
        (col : Series) (stamps : list Z) :
  columns df !! "DATETIME" = Some col ->
  to_datetime col = Ok stamps ->
  (length stamps < 2)%nat ->
  prepare_data self df = Raise IndexError.
Proof.
  intros Hc Hp Hlen. unfold prepare_data, handle_datetime.
  rewrite Hc, Hp. cbn [Py.bind].
  assert (E : getitem stamps 1 = Raise IndexError).
  { unfold getitem. simpl.
    destruct (Z.leb_spec (Z.of_nat (length stamps)) 1); [reflexivity | lia]. }
  rewrite E. reflexivity.
Qed.

Lemma short_frame_witness :
  prepare_data (unit_optimizer 1) single_row_df = Raise IndexError.
Proof.
  apply (short_frame_raises (unit_optimizer 1) single_row_df
                            (TimeSeries [0%Z]) [0%Z]).
  - reflexivity.
  - reflexivity.
  - simpl. lia.
Defined.

(** X12 (shape of the handled frame).  If the timestamp parser returns one
    timestamp per entry, [handle_datetime] turns a well-formed frame into a
    well-formed frame; and either it keeps every column other than DATETIME
    as it was, or (after resampling) every column other than DATETIME is a
    numeric column that was numeric in the input: text columns are gone. *)
Theorem handled_frame_shape `{TimeOps}
        (self : IntegratedAmmoniaBatteryOptimizer) (df df' : DataFrame) :
  (forall col stamps, to_datetime col = Ok stamps -> length stamps = length (values col)) ->
  well_formed df ->
  handle_datetime self df = Ok df' ->
  well_formed df'
  /\ ((nrows df' = nrows df
       /\ forall name, name <> "DATETIME" -> columns df' !! name = columns df !! name)
      \/ (forall name col,
             name <> "DATETIME" ->
             columns df' !! name = Some col ->
             exists xs ys, col = NumSeries xs
                           /\ columns df !! name = Some (NumSeries ys))).
Proof.
  intros Hparse Hwf. unfold handle_datetime.
  destruct (columns df !! "DATETIME") as [dt|] eqn:Hdt.
  2:{ intros [= <-]. split; [exact Hwf|]. left. auto. }
  intros E.
  apply bind_ok in E as (stamps & Es & E).
  apply bind_ok in E as (t1 & _ & E).
  apply bind_ok in E as (t0 & _ & E).
  destruct (negb _).
  - unfold resample_mean in E.
    apply bind_ok in E as (bins & _ & E).
    destruct (forallb _ bins); [|discriminate].
    injection E as <-. split.
    + intros name col. cbn [columns nrows].
      destruct (decide (name = "DATETIME")) as [->|Hne].
      * rewrite lookup_insert_eq. intros [= <-]. simpl. rewrite !length_map. reflexivity.
      * rewrite lookup_insert_ne by congruence. rewrite lookup_fmap.
        destruct (select_numeric _ !! name) as [xs|]; simpl; [|discriminate].
        intros [= <-]. simpl. rewrite !length_map. reflexivity.
    + right. intros name col Hne. cbn [columns].
      rewrite lookup_insert_ne by congruence. rewrite lookup_fmap.
      unfold select_numeric. rewrite lookup_omap.
      rewrite lookup_delete_ne by congruence.
      cbn [setcol columns]. rewrite lookup_insert_ne by congruence.
      destruct (columns df !! name) as [[ys| |]|]; simpl; try discriminate.
      intros [= <-]. eauto.
  - injection E as <-. split.
    + intros name col. cbn [setcol columns nrows].
      destruct (decide (name = "DATETIME")) as [->|Hne].
      * rewrite lookup_insert_eq. intros [= <-]. simpl. rewrite length_map.
        rewrite (Hparse _ _ Es). exact (Hwf _ _ Hdt).
      * rewrite lookup_insert_ne by congruence. apply Hwf.
    + left. split; [reflexivity|]. intros name Hne. cbn [setcol columns].
      apply lookup_insert_ne. congruence.
Qed.

Lemma frame_well_formed (n : nat) (cols : list (string * Series)) :
  Forall (fun p => length (values p.2) = n) cols -> well_formed (frame n cols).
Proof.
  intros Hall name col Hl. unfold frame in Hl. cbn [columns] in Hl.
  apply elem_of_list_to_map_2 in Hl.
  rewrite Forall_forall in Hall. exact (Hall _ Hl).
Qed.

Lemma handled_frame_witness :
  well_formed hourly_labelled_df
  /\ ((nrows hourly_labelled_df = nrows labelled_df
       /\ forall name, name <> "DATETIME" ->
                       columns hourly_labelled_df !! name = columns labelled_df !! name)
      \/ (forall name col,
             name <> "DATETIME" ->
             columns hourly_labelled_df !! name = Some col ->
             exists xs ys, col = NumSeries xs
                           /\ columns labelled_df !! name = Some (NumSeries ys))).
Proof.
  apply (handled_frame_shape (unit_optimizer 1) labelled_df hourly_labelled_df).
  - intros col stamps. destruct col; simpl; try discriminate.
    intros [= <-]. rewrite length_map. reflexivity.
  - apply frame_well_formed. repeat constructor.
  - vm_compute. reflexivity.
Defined.

(** The hourly frame made from [labelled_df]: two rows, mean prices 20 and
    60, and no REGION column. *)
Example hourly_labelled_columns :
  nrows hourly_labelled_df = 2%nat
  /\ columns hourly_labelled_df !! "REGION" = None
  /\ exists p0 p1, columns hourly_labelled_df !! "PRICE" = Some (NumSeries [p0; p1])
                   /\ p0 == 20 /\ p1 == 60.
Proof.
  split; [vm_compute; reflexivity|]. split; [vm_compute; reflexivity|].
  do 2 eexists. split; [vm_compute; reflexivity|]. split; reflexivity.
Qed.

(** ** The ledger: shape, inventory round trip, cumulative columns *)




Lemma cumsum_from_step (xs : list Q) (a : Q) (i : nat) (u v : Q) :
  Py.cumsum_from a xs !! i = Some u ->
  Py.cumsum_from a xs !! S i = Some v ->
  exists x, xs !! S i = Some x /\ v = u + x.
Proof.
  revert a i. induction xs as [|x xs IH]; intros a i Hu Hv; simpl in *; [discriminate|].
  destruct i as [|i]; simpl in *.
  - injection Hu as <-. destruct xs as [|y xs]; simpl in *; [discriminate|].
    injection Hv as <-. eauto.
  - exact (IH _ _ Hu Hv).
Qed.

(** What [process_results] returns, field by field. *)
Lemma process_results_ledger `{RealPower}
      (self : IntegratedAmmoniaBatteryOptimizer) (inst : ConcreteModel)
      (s : Solution) (df : DataFrame) (r : Results) :
  process_results self inst s df = Ok r ->
  exists results,
    for_each (result_row inst s df) (DATETIME (params inst)) = Ok results
    /\ results <> []
    /\ operational_results r
       = {| rows := results;
            Cumulative_NH3_Produced := Py.cumsum (map NH3_Produced_Tonnes results);
            Cumulative_NH3_Consumed := Py.cumsum (map NH3_Consumed_Tonnes results);
            Cumulative_Net_Revenue := Py.cumsum (map Net_Revenue results) |}
    /\ optimal_design r
       = {| optimal_capacity_tonnes := s OPTIMAL_NH3_CAPACITY;
            optimal_initial_level_tonnes := s OPTIMAL_INITIAL_NH3_LEVEL |}
    /\ period_operational_profit (economics r) = Py.sum (map Net_Revenue results)
    /\ period_hours (economics r)
       = inject_Z (Z.of_nat (length results)) * TIMESTEP (params inst).
Proof.
  unfold process_results. intros E.
  apply bind_ok in E as (results & Er & E).
  destruct (Nat.eqb_spec (length results) 0) as [|Hlen]; [discriminate|].
  apply bind_ok in E as (v & Ev & E).
  apply bind_ok in E as (eco & Ee & E).
  injection E as <-. simpl.
  exists results. split; [exact Er|]. split.
  { intros ->. apply Hlen. reflexivity. }
  unfold calculate_system_economics_with_optimal_storage in Ee.
  apply bind_ok in Ee as (ann & _ & [= <-]). simpl. auto.
Qed.

(** The mass fields of a ledger row. *)
Lemma result_row_mass inst s df t row :
  result_row inst s df t = Ok row ->
  TimeStep row = t
  /\ NH3_Level_Tonnes row = s (NH3_LEVEL t)
  /\ Charging_Power_MW row = s (CHARGING_POWER t)
  /\ Discharging_Power_MW row = s (DISCHARGING_POWER t)
  /\ NH3_Produced_Tonnes row == charge_in (params inst) s t
  /\ NH3_Consumed_Tonnes row == discharge_out (params inst) s t.
Proof.
  unfold result_row. intros E.
  apply bind_ok in E as (dt & _ & E).
  apply bind_ok in E as (inv & Ei & E).
  apply bind_ok in E as (price & Ep & E).
  apply bind_ok in E as (demand & _ & E).
  apply bind_ok in E as (wind & _ & E).
  apply bind_ok in E as (curt & _ & E).
  apply bind_ok in E as (carbon & _ & E).
  apply div_ok in Ei as [_ ->].
  injection E as <-. simpl. unfold charge_in, discharge_out.
  repeat split; ring.
Qed.






Lemma Forall2_Forall_In {A B} (P : A -> B -> Prop) (R : B -> Prop)
      (l : list A) (ys : list B) :
  (forall a y, In a l -> P a y -> R y) -> Forall2 P l ys -> Forall R ys.
Proof.
  intros HR HP. induction HP as [|a y l ys Hay _ IH]; constructor.
  - apply (HR a y); [left; reflexivity | exact Hay].
  - apply IH. intros a' y' Hin. apply HR. right. exact Hin.
Qed.

Lemma cumsum_from_nondecreasing (xs : list Q) (a : Q) (i : nat) (u v : Q) :
  Forall (fun x => 0 <= x) xs ->
  Py.cumsum_from a xs !! i = Some u ->
  Py.cumsum_from a xs !! S i = Some v ->
  u <= v.
Proof.
  intros Hpos Hu Hv.
  destruct (cumsum_from_step _ _ _ _ _ Hu Hv) as (x & Hx & ->).
  rewrite Forall_forall in Hpos.
  assert (0 <= x) by (apply Hpos; eapply list_elem_of_lookup_2; eauto).
  lra.
Qed.

(** X15 (cumulative mass never decreases).  For an accepted solution, with
    nonnegative charging efficiency, timestep and conversion factor and a
    positive discharging efficiency, the cumulative ammonia produced and the
    cumulative ammonia consumed of the ledger are nondecreasing from one row
    to the next. *)
Theorem cumulative_mass_is_monotone `{RealPower}
        (self : IntegratedAmmoniaBatteryOptimizer) (data : DataPortal)
        (inst : ConcreteModel) (s : Solution) (df : DataFrame) (r : Results) :
  create_instance create_optimization_model data = Ok inst ->
  accepted inst s = true ->
  process_results self inst s df = Ok r ->
  0 <= CHARGING_EFFICIENCY data ->
  0 < DISCHARGING_EFFICIENCY data ->
  0 <= TIMESTEP data ->
  0 <= NH3_CONVERSION_FACTOR data ->
  forall i u v,
    (Cumulative_NH3_Produced (operational_results r) !! i = Some u ->
     Cumulative_NH3_Produced (operational_results r) !! S i = Some v ->
     u <= v)
    /\ (Cumulative_NH3_Consumed (operational_results r) !! i = Some u ->
        Cumulative_NH3_Consumed (operational_results r) !! S i = Some v ->
        u <= v).
Proof.
  intros Hinst Hacc Hr Hce Hde Hts Hcf i u v.
  pose proof (create_instance_params _ _ _ Hinst) as Hparams.
  destruct (process_results_ledger _ _ _ _ _ Hr) as (results & Er & _ & -> & _).
  cbn [Cumulative_NH3_Produced Cumulative_NH3_Consumed].
  rewrite Hparams in Er. apply for_each_ok in Er.
  assert (Hinv : 0 <= 1 / DISCHARGING_EFFICIENCY data).
  { apply Qlt_le_weak. unfold Qdiv. rewrite Qmult_1_l. apply Qinv_lt_0_compat. exact Hde. }
  assert (Hmass : Forall (fun row => 0 <= NH3_Produced_Tonnes row
                                     /\ 0 <= NH3_Consumed_Tonnes row) results).
  { eapply Forall2_Forall_In; [|exact Er]. intros t row Ht Erow. simpl in Erow.
    apply result_row_mass in Erow as (_ & _ & _ & _ & Ep & Ec).
    rewrite Hparams in Ep, Ec. rewrite Ep, Ec.
    assert (Hp : In ("CHARGING_POWER",
                     IndexedVar CHARGING_POWER NonNegativeReals
                                (Some (fun m _ => (0, MAXIMUM_CHARGING_POWER m))))
                    create_optimization_model) by in_model.
    assert (Hq : In ("DISCHARGING_POWER",
                     IndexedVar DISCHARGING_POWER NonNegativeReals
                                (Some (fun m _ => (0, MAXIMUM_DISCHARGING_POWER m))))
                    create_optimization_model) by in_model.
    destruct (indexed_var_ok _ _ _ Hinst Hacc _ _ _ _ _ Hp Ht)
      as [P0%in_domain_NonNegativeReals _].
    destruct (indexed_var_ok _ _ _ Hinst Hacc _ _ _ _ _ Hq Ht)
      as [D0%in_domain_NonNegativeReals _].
    unfold charge_in, discharge_out. split.
    - apply Qmult_le_0_compat; [apply Qmult_le_0_compat; [apply Qmult_le_0_compat|]|];
        assumption.
    - apply Qmult_le_0_compat; [apply Qmult_le_0_compat; [apply Qmult_le_0_compat|]|];
        assumption. }
  split; apply cumsum_from_nondecreasing; apply Forall_fmap;
    (eapply Forall_impl; [exact Hmass|]); intros row [? ?]; assumption.
Qed.

Lemma cumulative_mass_witness :
  exists u v,
    Cumulative_NH3_Produced (operational_results two_step_results) !! 0%nat = Some u
    /\ Cumulative_NH3_Produced (operational_results two_step_results) !! 1%nat = Some v
    /\ u <= v.
Proof.
  do 2 eexists. split; [vm_compute; reflexivity|]. split; [vm_compute; reflexivity|].
  refine (proj1 (cumulative_mass_is_monotone
                   (unit_optimizer 1) two_step_data two_step_instance
                   charge_then_discharge two_step_df two_step_results
                   _ _ _ _ _ _ _ 0%nat _ _) _ _);
    vm_compute; congruence.
Defined.

(** ** [optimize] end to end *)

(** With the default lifetime and discount rate the capital recovery factor
    is defined. *)
Lemma annualized_default (capex : Q) :
  exists a, calculate_annualized_cost capex LIFETIME_YEARS DISCOUNT_RATE = Ok a.
Proof.
  unfold calculate_annualized_cost.
  destruct (Py.pow (1 + DISCOUNT_RATE) LIFETIME_YEARS) as [up|] eqn:Eup;
    [|vm_compute in Eup; discriminate].
  cbn [Py.bind].
  destruct (Py.div (DISCOUNT_RATE * up) (up - 1)) as [crf|] eqn:Ediv.
  - simpl. eauto.
  - vm_compute in Eup. injection Eup as <-. vm_compute in Ediv. discriminate.
Qed.

(** The series as [prepare_data] binds them. *)
Lemma prepare_data_series `{TimeOps}
      (self : IntegratedAmmoniaBatteryOptimizer) (df : DataFrame) (data : DataPortal) :
  prepare_data self df = Ok data ->
  exists df',
    handle_datetime self df = Ok df'
    /\ DATETIME data = seq 0 (nrows df')
    /\ DISCHARGING_EFFICIENCY data = discharging_efficiency self
    /\ forall name, In name series_columns ->
         exists m, bound_series data name = Some m
                   /\ bind_series df' (seq 0 (nrows df')) name = Ok m.
Proof.
  unfold prepare_data. intros E.
  apply bind_ok in E as (df' & Eh & E).
  apply bind_ok in E as (price & Ep & E).
  apply bind_ok in E as (demand & Ed & E).
  apply bind_ok in E as (wind & Ew & E).
  apply bind_ok in E as (curt & Ec & E).
  apply bind_ok in E as (carbon & Eb & E).
  apply bind_ok in E as (factor & _ & E).
  injection E as <-.
  exists df'. repeat split; auto.
  intros name Hin. simpl in Hin.
  destruct Hin as [<-|[<-|[<-|[<-|[<-|[]]]]]]; eexists; (split; [reflexivity|]);
    assumption.
Qed.

Lemma bound_value `{TimeOps} (df' : DataFrame) (name : string) (m : gmap nat cell)
      (t : nat) :
  bind_series df' (seq 0 (nrows df')) name = Ok m ->
  well_formed df' ->
  (t < nrows df')%nat ->
  exists col c, columns df' !! name = Some col /\ values col !! t = Some c
                /\ m !! t = Some c.
Proof.
  intros Em Hwf Ht. apply bind_series_ok in Em as (col & Hc & ->).
  assert (Hsome : is_Some (values col !! t)).
  { apply lookup_lt_is_Some. rewrite (Hwf _ _ Hc). exact Ht. }
  destruct Hsome as [c Hcell]. exists col, c. split; [exact Hc|]. split; [exact Hcell|].
  rewrite dict_zip_seq. case_decide; [exact Hcell | lia].
Qed.

(** Result extraction cannot fail when the handled frame has no more rows
    than the frame the ledger takes its timestamps from. *)
Lemma process_results_returns `{TimeOps} `{RealPower}
      (self : IntegratedAmmoniaBatteryOptimizer) (df df' : DataFrame)
      (data : DataPortal) (inst : ConcreteModel) (s : Solution) :
  prepare_data self df = Ok data ->
  handle_datetime self df = Ok df' ->
  create_instance create_optimization_model data = Ok inst ->
  well_formed df ->
  well_formed df' ->
  (nrows df' <= nrows df)%nat ->
  exists r, process_results self inst s df = Ok r.
Proof.
  intros Hd Hh Hinst Hwf Hwf' Hrows.
  pose proof (create_instance_params _ _ _ Hinst) as Hparams.
  destruct (prepare_data_series _ _ _ Hd) as (df'' & Hh' & Hrange & _ & Hseries).
  rewrite Hh in Hh'. injection Hh' as <-.
  assert (Hprice : forall t, In t (DATETIME data) ->
                             exists q, numeric_param "PRICE" (PRICE data) t = Ok q).
  { intros t Ht.
    destruct (instance_objective _ _ Hinst) as (f & Ef & _).
    unfold operational_profit_rule in Ef.
    apply bind_ok in Ef as (terms & Et & _).
    destruct (for_each_In _ _ _ _ Et Ht) as (term & Eterm & _).
    apply bind_ok in Eterm as (price & Eprice & _). eauto. }
  assert (Hdiv : exists q, Py.div 1 (DISCHARGING_EFFICIENCY data) = Ok q).
  { pose proof (discharging_efficiency_nonzero _ _ Hinst) as Hne.
    unfold Py.div. destruct (Qeq_bool _ 0) eqn:E; [|eauto].
    apply Qeq_bool_iff in E. contradiction. }
  destruct Hdiv as [inv Hdiv].
  assert (Hcell : forall name t,
             In name series_columns -> In t (DATETIME data) ->
             exists m c, bound_series data name = Some m /\ m !! t = Some c).
  { intros name t Hname Ht. rewrite Hrange in Ht. apply in_seq in Ht.
    destruct (Hseries name Hname) as (m & Hm & Em).
    destruct (bound_value df' name m t Em Hwf' ltac:(lia)) as (col & c & _ & _ & Hc).
    eauto. }
  unfold process_results. rewrite Hparams.
  destruct (for_each_exists (result_row inst s df) (DATETIME data)) as [results Er].
  { intros t Ht. unfold result_row. rewrite Hparams.
    assert (Htime : exists v,
               match columns df !! "DATETIME" with
               | Some col => let! c := getitem (values col) (Z.of_nat t) in Ok (inl c)
               | None => Ok (inr t)
               end = Ok (v : cell + nat)).
    { destruct (columns df !! "DATETIME") as [col|] eqn:Hc; [|eauto].
      assert (Hsome : is_Some (values col !! t)).
      { apply lookup_lt_is_Some. rewrite (Hwf _ _ Hc).
        rewrite Hrange in Ht. apply in_seq in Ht. lia. }
      destruct Hsome as [c Hcell']. apply getitem_nonneg in Hcell'.
      rewrite Hcell'. simpl. eauto. }
    destruct Htime as [v ->]. cbn [Py.bind]. rewrite Hdiv. cbn [Py.bind].
    destruct (Hprice t Ht) as [q ->]. cbn [Py.bind].
    destruct (Hcell "DEMAND" t ltac:(simpl; tauto) Ht) as (? & c1 & [= <-] & Hc1).
    destruct (Hcell "WIND" t ltac:(simpl; tauto) Ht) as (? & c2 & [= <-] & Hc2).
    destruct (Hcell "CURTAILMENT" t ltac:(simpl; tauto) Ht) as (? & c3 & [= <-] & Hc3).
    destruct (Hcell "CARBON_BASED_FUELS" t ltac:(simpl; tauto) Ht)
      as (? & c4 & [= <-] & Hc4).
    unfold lookup_param. rewrite Hc1, Hc2, Hc3, Hc4. simpl. eauto. }
  rewrite Er. cbn [Py.bind].
  assert (Hlen : length results <> 0%nat).
  { apply for_each_ok, Forall2_length in Er. rewrite <- Er.
    destruct (horizon_nonempty _ _ Hinst) as (front & last_t & ->).
    rewrite length_app. simpl. lia. }
  destruct (Nat.eqb_spec (length results) 0) as [|_]; [contradiction|].
  destruct (instance_objective _ _ Hinst) as (f & _ & Hobj).
  rewrite Hobj. cbn [Py.bind].
  unfold calculate_system_economics_with_optimal_storage.
  match goal with
  | |- context [calculate_annualized_cost ?c _ _] =>
      destruct (annualized_default c) as [a ->]
  end.
  simpl. eauto.
Qed.

Lemma prepare_data_needs_series `{TimeOps}
      (self : IntegratedAmmoniaBatteryOptimizer) (df : DataFrame) (name : string) :
  In name series_columns ->
  columns df !! name = None ->
  exists e, prepare_data self df = Raise e.
Proof.
  intros Hin Hmiss.
  destruct (prepare_data self df) as [data|e] eqn:E; [|eauto].
  exfalso.
  destruct (prepare_data_inv _ _ _ E) as (df' & Eh & _ & _ & Hcols).
  assert (Hne : name <> "DATETIME").
  { simpl in Hin. intros ->.
    repeat (destruct Hin as [Hin|Hin]; [discriminate|]). destruct Hin. }
  pose proof (handle_datetime_missing _ _ _ _ Hne Hmiss Eh) as Hnone.
  destruct (Hcols name Hin) as [c Hc]. congruence.
Qed.

(** X16 (no solve without data).  When the frame lacks one of the five
    series columns, [optimize] raises the error of the data binding,
    whatever solver is installed: the solver is not consulted, nothing is
    returned and nothing is stored. *)
Theorem optimize_fails_before_solving `{TimeOps} `{RealPower}
        (self : IntegratedAmmoniaBatteryOptimizer) (df : DataFrame) (mipgap : Q)
        (name : string) :
  In name series_columns ->
  columns df !! name = None ->
  exists e,
    prepare_data self df = Raise e
    /\ forall solver : Solver, @optimize _ _ solver self df mipgap = Raise e.
Proof.
  intros Hin Hmiss.
  destruct (prepare_data_needs_series self df name Hin Hmiss) as [e He].
  exists e. split; [exact He|].
  intros solver. unfold optimize. rewrite He. reflexivity.
Qed.

Lemma optimize_fails_witness :
  exists e,
    prepare_data (unit_optimizer 1) no_price_df = Raise e
    /\ forall solver : Solver,
        @optimize _ _ solver (unit_optimizer 1) no_price_df (1 # 100) = Raise e.
Proof.
  apply (optimize_fails_before_solving (unit_optimizer 1) no_price_df (1 # 100) "PRICE").
  - left. reflexivity.
  - vm_compute. reflexivity.
Defined.

(** X17 (a valid input gets an answer).  Suppose the frame and the handled
    frame are well-formed, the handled frame has at least one row and no
    more rows than the frame, it has the five series columns with numeric
    prices, and the heating value and the discharging efficiency of the
    optimizer are not zero.  Then the data binds and the model has an
    instance over it, and whatever the solver answers on that instance,
    [optimize] follows it: an exception of the solver is raised; a report
    other than 'ok' with 'optimal' or 'feasible' gives [None] and leaves the
    optimizer as it was; and on a report of success [process_results] does
    not raise, and [optimize] returns the results it builds from the
    solver's values and stores them. *)
Theorem optimize_returns `{TimeOps} `{RealPower} `{Solver}
        (self : IntegratedAmmoniaBatteryOptimizer) (df df' : DataFrame) (mipgap : Q) :
  handle_datetime self df = Ok df' ->
  well_formed df ->
  well_formed df' ->
  (0 < nrows df' <= nrows df)%nat ->
  (forall name, In name series_columns -> is_Some (columns df' !! name)) ->
  (exists prices, columns df' !! "PRICE" = Some (NumSeries prices)) ->
  ~ lhv_NH3 self == 0 ->
  ~ discharging_efficiency self == 0 ->
  exists data inst,
    prepare_data self df = Ok data
    /\ create_instance create_optimization_model data = Ok inst
    /\ (forall e, solve inst mipgap = Raise e -> optimize self df mipgap = Raise e)
    /\ (forall res sol,
           solve inst mipgap = Ok (res, sol) ->
           (~ (status res = "ok"
               /\ (termination_condition res = "optimal"
                   \/ termination_condition res = "feasible")) ->
            optimize self df mipgap = Ok (None, self))
           /\ (status res = "ok"
               /\ (termination_condition res = "optimal"
                   \/ termination_condition res = "feasible") ->
               exists r,
                 process_results self inst sol df = Ok r
                 /\ optimize self df mipgap
                    = Ok (Some r, set_optimization_results self (Some r)))).
Proof.
  intros Hh Hwf Hwf' [Hpos Hrows] Hcols [prices Hprices] Hlhv Heff.
  (* the data binds *)
  assert (Hbind : forall name, In name series_columns ->
                               exists m, bind_series df' (seq 0 (nrows df')) name = Ok m).
  { intros name Hin. destruct (Hcols name Hin) as [col Hc].
    unfold bind_series, getcol. rewrite Hc. simpl. eauto. }
  assert (Hdata : exists data, prepare_data self df = Ok data).
  { unfold prepare_data. rewrite Hh. cbn [Py.bind].
    destruct (Hbind "PRICE" ltac:(simpl; tauto)) as [m1 ->]. cbn [Py.bind].
    destruct (Hbind "DEMAND" ltac:(simpl; tauto)) as [m2 ->]. cbn [Py.bind].
    destruct (Hbind "WIND" ltac:(simpl; tauto)) as [m3 ->]. cbn [Py.bind].
    destruct (Hbind "CURTAILMENT" ltac:(simpl; tauto)) as [m4 ->]. cbn [Py.bind].
    destruct (Hbind "CARBON_BASED_FUELS" ltac:(simpl; tauto)) as [m5 ->]. cbn [Py.bind].
    unfold Py.div.
    destruct (Qeq_bool (lhv_NH3 self * 1000) 0) eqn:E; [|simpl; eauto].
    apply Qeq_bool_iff in E. exfalso. apply Hlhv.
    destruct (Qmult_integral _ _ E) as [E'|E']; [exact E' | discriminate E']. }
  destruct Hdata as [data Hd].
  (* the model has an instance over it *)
  destruct (prepare_data_series _ _ _ Hd) as (df'' & Hh' & Hrange & Hde & Hseries).
  rewrite Hh in Hh'. injection Hh' as <-.
  assert (Hinst : exists inst, create_instance create_optimization_model data = Ok inst).
  { apply instance_exists.
    - rewrite Hrange. destruct (nrows df'); [lia | discriminate].
    - rewrite Hde. exact Heff.
    - intros t Ht. rewrite Hrange in Ht. apply in_seq in Ht.
      destruct (Hseries "PRICE" ltac:(simpl; tauto)) as (m & [= <-] & Em).
      destruct (bound_value df' "PRICE" _ t Em Hwf' ltac:(lia))
        as (col & c & Hc & Hcell & Hm).
      rewrite Hprices in Hc. injection Hc as <-.
      simpl in Hcell. rewrite list_lookup_fmap in Hcell.
      destruct (prices !! t) as [q|]; [|discriminate]. injection Hcell as <-.
      eauto. }
  destruct Hinst as [inst Hinst].
  exists data, inst. split; [exact Hd|]. split; [exact Hinst|].
  unfold optimize. rewrite Hd. cbn [Py.bind]. rewrite Hinst. cbn [Py.bind].
  split.
  - intros e ->. reflexivity.
  - intros res sol ->. cbn [Py.bind fst snd]. split.
    + intros Hno. destruct (solved res) eqn:E; [|reflexivity].
      apply solved_iff in E. contradiction.
    + intros Hyes%solved_iff. rewrite Hyes.
      destruct (process_results_returns self df df' data inst sol
                  Hd Hh Hinst Hwf Hwf' Hrows) as [r Hr].
      exists r. split; [exact Hr|]. rewrite Hr. reflexivity.
Qed.

Lemma optimize_returns_witness :
  exists r,
    process_results (unit_optimizer 1) two_step_instance charge_then_discharge
                    two_step_df = Ok r
    /\ @optimize reference_time sample_power optimal_solver
                 (unit_optimizer 1) two_step_df (1 # 100)
       = Ok (Some r, set_optimization_results (unit_optimizer 1) (Some r)).
Proof.
  destruct (@optimize_returns reference_time sample_power optimal_solver
              (unit_optimizer 1) two_step_df two_step_df (1 # 100))
    as (data & inst & Hdata & Hinst & _ & Hreport).
  - vm_compute. reflexivity.
  - apply frame_well_formed. repeat constructor.
  - apply frame_well_formed. repeat constructor.
  - simpl. lia.
  - intros name Hin. simpl in Hin.
    destruct Hin as [<-|[<-|[<-|[<-|[<-|[]]]]]]; vm_compute; eauto.
  - eexists. vm_compute. reflexivity.
  - vm_compute. discriminate.
  - vm_compute. discriminate.
  - assert (Hd : prepare_data (unit_optimizer 1) two_step_df = Ok two_step_data)
      by (vm_compute; reflexivity).
    rewrite Hd in Hdata. injection Hdata as <-.
    assert (Hi : create_instance create_optimization_model two_step_data
                 = Ok two_step_instance) by (vm_compute; reflexivity).
    rewrite Hi in Hinst. injection Hinst as <-.
    destruct (Hreport (report "ok" "optimal") charge_then_discharge) as [_ Hsuccess].
    + reflexivity.
    + apply Hsuccess. split; [reflexivity | left; reflexivity].
Defined.

(** ** The curtailment analysis splits the curtailment periods *)

Lemma masked_sum_cons (b : bool) (mask : list bool) (x : Q) (column : list Q) :
  masked_sum (b :: mask) (x :: column)
  == (if b then x else 0) + masked_sum mask column.
Proof.
  unfold masked_sum. simpl. destruct b.
  - rewrite filter_cons_True by reflexivity. simpl. apply sum_cons.
  - rewrite filter_cons_False by (simpl; discriminate). ring.
Qed.

Lemma of_count_add (n m : nat) : of_count (n + m) == of_count n + of_count m.
Proof. unfold of_count. rewrite Nat2Z.inj_add, inject_Z_plus. reflexivity. Qed.

Lemma gt_zero_true (x : Q) : 0 < x -> gt x 0 = true.
Proof.
  intros Hx. unfold gt. apply negb_true_iff.
  destruct (Qle_bool x 0) eqn:E; [|reflexivity].
  apply Qle_bool_iff in E. lra.
Qed.

Lemma gt_zero_spec (x : Q) : gt x 0 = true <-> 0 < x.
Proof.
  split; [|apply gt_zero_true].
  unfold gt. intros E%negb_true_iff.
  destruct (Qlt_le_dec 0 x) as [Hlt|Hle]; [exact Hlt|].
  apply Qle_bool_iff in Hle. congruence.
Qed.

(** A row of a battery that is not charging and discharging at once is in
    exactly one of the three states. *)
Lemma one_state (charging discharging : Q) :
  0 <= charging -> 0 <= discharging -> charging == 0 \/ discharging == 0 ->
  (gt charging 0, gt discharging 0, Qeq_bool charging 0 && Qeq_bool discharging 0)
  = (true, false, false)
  \/ (gt charging 0, gt discharging 0, Qeq_bool charging 0 && Qeq_bool discharging 0)
     = (false, true, false)
  \/ (gt charging 0, gt discharging 0, Qeq_bool charging 0 && Qeq_bool discharging 0)
     = (false, false, true).
Proof.
  intros Hc Hd Hex.
  destruct (Qeq_bool charging 0) eqn:Ec, (Qeq_bool discharging 0) eqn:Ed.
  - apply Qeq_bool_iff in Ec, Ed.
    rewrite (gt_zero_false _ Ec), (gt_zero_false _ Ed). auto.
  - apply Qeq_bool_iff in Ec. apply Qeq_bool_neq in Ed.
    rewrite (gt_zero_false _ Ec), gt_zero_true by lra. auto.
  - apply Qeq_bool_iff in Ed. apply Qeq_bool_neq in Ec.
    rewrite (gt_zero_false _ Ed), gt_zero_true by lra. auto.
  - apply Qeq_bool_neq in Ec, Ed. destruct Hex; contradiction.
Qed.

Lemma exclusive_counts (df : list ResultRow) (curtailment : list Q) :
  Forall2 (fun r c => numeric (Curtailment r) = Ok c) df curtailment ->
  Forall exclusive_row df ->
  let Is_Curtailment := map (fun c => gt c 0) curtailment in
  let charging := map Charging_Power_MW df in
  let discharging := map Discharging_Power_MW df in
  (count (and_mask Is_Curtailment (map (fun p => gt p 0) charging))
   + count (and_mask Is_Curtailment (map (fun p => gt p 0) discharging))
   + count (and_mask Is_Curtailment
              (zip_with andb (map (fun p => Qeq_bool p 0) charging)
                             (map (fun p => Qeq_bool p 0) discharging))))%nat
  = count Is_Curtailment.
Proof.
  intros HF Hex. cbv zeta.
  induction HF as [|r c df cs _ _ IH]; [reflexivity|].
  inversion Hex as [|? ? (Hc & Hd & Hone) Hex']; subst.
  specialize (IH Hex'). unfold and_mask in *. simpl.
  rewrite !count_cons. rewrite <- IH.
  destruct (one_state _ _ Hc Hd Hone) as [E|[E|E]]; injection E as -> -> ->;
    destruct (gt c 0); simpl; lia.
Qed.

Lemma exclusive_energy (df : list ResultRow) (curtailment : list Q) :
  Forall2 (fun r c => numeric (Curtailment r) = Ok c) df curtailment ->
  Forall exclusive_row df ->
  Forall (fun c => 0 <= c) curtailment ->
  let Is_Curtailment := map (fun c => gt c 0) curtailment in
  let charging := map Charging_Power_MW df in
  let discharging := map Discharging_Power_MW df in
  masked_sum (and_mask Is_Curtailment (map (fun p => gt p 0) charging)) curtailment
  + masked_sum (and_mask Is_Curtailment (map (fun p => gt p 0) discharging)) curtailment
  + masked_sum (and_mask Is_Curtailment
                  (zip_with andb (map (fun p => Qeq_bool p 0) charging)
                                 (map (fun p => Qeq_bool p 0) discharging))) curtailment
  == Py.sum curtailment.
Proof.
  intros HF Hex Hnn. cbv zeta.
  induction HF as [|r c df cs _ _ IH]; [reflexivity|].
  inversion Hex as [|? ? (Hc & Hd & Hone) Hex']; subst.
  inversion Hnn as [|? ? Hc0 Hnn']; subst.
  specialize (IH Hex' Hnn'). unfold and_mask in *. simpl.
  rewrite !masked_sum_cons, sum_cons, <- IH.
  destruct (one_state _ _ Hc Hd Hone) as [E|[E|E]]; injection E as -> -> ->;
    destruct (gt c 0) eqn:Eg; simpl; try ring;
    assert (Hz : c == 0)
      by (destruct (Qlt_le_dec 0 c) as [Hlt|Hle];
          [apply gt_zero_true in Hlt; congruence | lra]);
    rewrite Hz; ring.
Qed.

(** X18 (the curtailment periods are split in three).  For a ledger whose
    powers are nonnegative and never both positive in one row, every
    curtailment period is counted in exactly one of charging, discharging
    and idle: the periods with charging and with discharging are together at
    most the curtailment periods, and the idle duration and the idle
    percentage are computed from exactly the remaining periods.  In exact
    arithmetic, therefore, the three durations add up to the curtailment
    hours and, when there is a curtailment period, the three percentages add
    up to 100 (the floats the program computes can miss these sums by
    rounding). *)
Theorem curtailment_periods_are_split
        (df : list ResultRow) (timestep_hours : Q) (r : Report) :
  analyze_curtailment_interactions df timestep_hours = Ok r ->
  Forall exclusive_row df ->
  let total := curtailment_periods_total (summary_metrics r) in
  let charging := curtailment_periods_with_charging (summary_metrics r) in
  let discharging := curtailment_periods_with_discharging (summary_metrics r) in
  (charging + discharging <= total)%nat
  /\ idle_during_curtailment_hours (time_analysis r)
     = of_count (total - charging - discharging) * timestep_hours
  /\ pct_curtailment_periods_idle (time_analysis r)
     = (if (0 <? total)%nat
        then of_count (total - charging - discharging) / of_count total * 100
        else 0)
  /\ charging_during_curtailment_hours (time_analysis r)
     + discharging_during_curtailment_hours (time_analysis r)
     + idle_during_curtailment_hours (time_analysis r)
     == curtailment_hours (time_analysis r)
  /\ ((0 < total)%nat ->
      pct_curtailment_periods_charging (time_analysis r)
      + pct_curtailment_periods_discharging (time_analysis r)
      + pct_curtailment_periods_idle (time_analysis r)
      == 100).
Proof.
  intros Hreport Hex.
  unfold analyze_curtailment_interactions in Hreport.
  apply bind_ok in Hreport as (curtailment & Ec & E).
  apply for_each_ok in Ec.
  pose proof (exclusive_counts df curtailment Ec Hex) as Hsplit. cbv zeta in Hsplit.
  injection E as <-.
  cbv zeta.
  cbn [time_analysis summary_metrics charging_during_curtailment_hours
       discharging_during_curtailment_hours idle_during_curtailment_hours
       curtailment_hours curtailment_periods_total
       curtailment_periods_with_charging curtailment_periods_with_discharging
       pct_curtailment_periods_charging pct_curtailment_periods_discharging
       pct_curtailment_periods_idle].
  set (total := count (map (fun c => gt c 0) curtailment)) in *.
  set (nc := count (and_mask _ (map (fun p => gt p 0) (map Charging_Power_MW df)))) in *.
  set (nd := count (and_mask _ (map (fun p => gt p 0) (map Discharging_Power_MW df))))
    in *.
  set (ni := count (and_mask _ (zip_with andb _ _))) in *.
  assert (Hidle : (total - nc - nd)%nat = ni) by lia.
  rewrite Hidle.
  split; [lia|]. split; [reflexivity|]. split; [reflexivity|].
  rewrite <- Hsplit.
  split.
  - rewrite !of_count_add. ring.
  - intros Hpos. apply Nat.ltb_lt in Hpos. rewrite Hpos.
    apply Nat.ltb_lt in Hpos.
    assert (Hq : 0 < of_count (nc + nd + ni)).
    { unfold of_count. rewrite <- (Zlt_Qlt 0). lia. }
    rewrite !of_count_add in *. field. lra.
Qed.

Lemma curtailment_periods_witness :
  let r := windy_report in
  let total := curtailment_periods_total (summary_metrics r) in
  let charging := curtailment_periods_with_charging (summary_metrics r) in
  let discharging := curtailment_periods_with_discharging (summary_metrics r) in
  (charging + discharging <= total)%nat
  /\ idle_during_curtailment_hours (time_analysis r)
     = of_count (total - charging - discharging) * (1 # 2)
  /\ pct_curtailment_periods_idle (time_analysis r)
     = (if (0 <? total)%nat
        then of_count (total - charging - discharging) / of_count total * 100
        else 0)
  /\ charging_during_curtailment_hours (time_analysis r)
     + discharging_during_curtailment_hours (time_analysis r)
     + idle_during_curtailment_hours (time_analysis r)
     == curtailment_hours (time_analysis r)
  /\ pct_curtailment_periods_charging (time_analysis r)
     + pct_curtailment_periods_discharging (time_analysis r)
     + pct_curtailment_periods_idle (time_analysis r)
     == 100.
Proof.
  destruct (curtailment_periods_are_split windy_ledger (1 # 2) windy_report)
    as (Hcount & Hidle & Hshare & Hhours & Hpct).
  - vm_compute. reflexivity.
  - repeat constructor; vm_compute; congruence.
  - split; [exact Hcount|]. split; [exact Hidle|]. split; [exact Hshare|].
    split; [exact Hhours | apply Hpct; vm_compute; lia].
Defined.

(** X19 (the curtailment energy is split in three).  In exact arithmetic:
    when moreover the curtailment is nonnegative, the curtailed energy
    during charging, during discharging and while idle add up to the total
    curtailed energy.  (The program adds the three parts and the total as
    floats over different rows, so there the two sides can differ by
    rounding.) *)
Theorem curtailment_energy_is_split
        (df : list ResultRow) (timestep_hours : Q) (r : Report) :
  analyze_curtailment_interactions df timestep_hours = Ok r ->
  Forall exclusive_row df ->
  Forall (fun row => exists c, Curtailment row = CNum c /\ 0 <= c) df ->
  curtailment_during_charging_mwh (energy_analysis r)
  + curtailment_during_discharging_mwh (energy_analysis r)
  + curtailment_during_idle_mwh (energy_analysis r)
  == total_curtailment_energy_mwh (energy_analysis r).
Proof.
  intros Hreport Hex Hnn.
  unfold analyze_curtailment_interactions in Hreport.
  apply bind_ok in Hreport as (curtailment & Ec & E).
  pose proof (numeric_nonneg _ _ Ec Hnn) as Hpos.
  apply for_each_ok in Ec.
  pose proof (exclusive_energy df curtailment Ec Hex Hpos) as Hsplit.
  cbv zeta in Hsplit.
  injection E as <-.
  cbn [energy_analysis curtailment_during_charging_mwh
       curtailment_during_discharging_mwh curtailment_during_idle_mwh
       total_curtailment_energy_mwh].
  rewrite <- Hsplit. ring.
Qed.

Lemma curtailment_energy_witness :
  let r := windy_report in
  curtailment_during_charging_mwh (energy_analysis r)
  + curtailment_during_discharging_mwh (energy_analysis r)
  + curtailment_during_idle_mwh (energy_analysis r)
  == total_curtailment_energy_mwh (energy_analysis r).
Proof.
  apply (curtailment_energy_is_split windy_ledger (1 # 2) windy_report).
  - vm_compute. reflexivity.
  - repeat constructor; vm_compute; congruence.
  - repeat constructor; eexists; (split; [reflexivity | vm_compute; congruence]).
Defined.

(** ** Inflation adjustment with the plant cost index *)

Lemma CEPCI_lookup (year : Z) (index : Q) :
  CEPCI_DICT !! year = Some index <-> In (year, index) CEPCI_TABLE.
Proof.
  unfold CEPCI_DICT. rewrite <- elem_of_list_to_map.
  - apply list_elem_of_In.
  - apply (bool_decide_unpack _). vm_compute. reflexivity.
Qed.

Lemma CEPCI_positive (year : Z) (index : Q) :
  CEPCI_DICT !! year = Some index -> 0 < index.
Proof.
  intros Hin%CEPCI_lookup. simpl in Hin.
  repeat (destruct Hin as [[= <- <-]|Hin]; [reflexivity|]). destruct Hin.
Qed.

Lemma CEPCI_years (year : Z) :
  is_Some (CEPCI_DICT !! year) <-> (2001 <= year <= 2024)%Z.
Proof.
  split.
  - intros [index Hin%CEPCI_lookup]. simpl in Hin.
    repeat (destruct Hin as [[= <- <-]|Hin]; [lia|]). destruct Hin.
  - intros Hy.
    assert (Hcases : In year (map fst CEPCI_TABLE)).
    { simpl. lia. }
    apply in_map_iff in Hcases as ([y index] & <- & Hin).
    exists index. apply CEPCI_lookup. exact Hin.
Qed.

Lemma adjust_cost_ok (base_cost : Q) (base_year target_year : Z) (x : Q) :
  adjust_cost_with_cepci base_cost base_year target_year = Ok x ->
  exists base_index target_index,
    CEPCI_DICT !! base_year = Some base_index
    /\ CEPCI_DICT !! target_year = Some target_index
    /\ 0 < base_index /\ 0 < target_index
    /\ x = base_cost * (target_index / base_index).
Proof.
  unfold adjust_cost_with_cepci.
  destruct (CEPCI_DICT !! base_year) as [b|] eqn:Eb; [|discriminate].
  destruct (CEPCI_DICT !! target_year) as [t|] eqn:Et; [|discriminate].
  intros E. apply bind_ok in E as (ratio & (_ & ->)%div_ok & [= <-]).
  exists b, t. repeat split; eauto using CEPCI_positive.
Qed.

Lemma adjust_cost_returns (base_cost : Q) (base_year target_year : Z)
      (base_index target_index : Q) :
  CEPCI_DICT !! base_year = Some base_index ->
  CEPCI_DICT !! target_year = Some target_index ->
  adjust_cost_with_cepci base_cost base_year target_year
  = Ok (base_cost * (target_index / base_index)).
Proof.
  intros Eb Et. unfold adjust_cost_with_cepci. rewrite Eb, Et.
  pose proof (CEPCI_positive _ _ Eb) as Hb.
  unfold Py.div. destruct (Qeq_bool base_index 0) eqn:E; [|reflexivity].
  apply Qeq_bool_iff in E. lra.
Qed.

(** X20 (years the index covers).  The adjustment returns exactly when
    both years lie between 2001 and 2024; for any other year it raises
    ValueError, and it never divides by zero. *)
Theorem cepci_adjustment_domain (base_cost : Q) (base_year target_year : Z) :
  ((2001 <= base_year <= 2024)%Z /\ (2001 <= target_year <= 2024)%Z ->
   exists x, adjust_cost_with_cepci base_cost base_year target_year = Ok x)
  /\ (~ ((2001 <= base_year <= 2024)%Z /\ (2001 <= target_year <= 2024)%Z) ->
      adjust_cost_with_cepci base_cost base_year target_year
      = Raise (ValueError "CEPCI data not available")).
Proof.
  split.
  - intros [[b Eb]%CEPCI_years [t Et]%CEPCI_years].
    rewrite (adjust_cost_returns base_cost _ _ _ _ Eb Et). eauto.
  - intros Hout. unfold adjust_cost_with_cepci.
    destruct (CEPCI_DICT !! base_year) as [b|] eqn:Eb; [|reflexivity].
    destruct (CEPCI_DICT !! target_year) as [t|] eqn:Et; [|reflexivity].
    exfalso. apply Hout. split; apply CEPCI_years; eauto.
Qed.

(** X21 (adjustments compose).  Adjusting a cost from one year to a second
    and from there to a third gives the cost adjusted from the first year
    to the third directly; in particular adjusting back to the first year
    returns the original cost. *)
Theorem cepci_adjustments_compose (base_cost : Q) (first second third : Z) (x y : Q) :
  adjust_cost_with_cepci base_cost first second = Ok x ->
  adjust_cost_with_cepci x second third = Ok y ->
  (exists z, adjust_cost_with_cepci base_cost first third = Ok z /\ z == y)
  /\ (third = first -> y == base_cost).
Proof.
  intros (a & b & Ea & Eb & Ha & Hb & ->)%adjust_cost_ok
         (b' & c & Eb' & Ec & _ & Hc & ->)%adjust_cost_ok.
  rewrite Eb in Eb'. injection Eb' as <-.
  split.
  - rewrite (adjust_cost_returns base_cost _ _ _ _ Ea Ec).
    eexists. split; [reflexivity|]. field. split; lra.
  - intros ->. rewrite Ea in Ec. injection Ec as <-. field. split; lra.
Qed.

Lemma cepci_compose_witness :
  let x := 1000 * ((7991 # 10) / (5508 # 10)) in
  let y := x * ((5508 # 10) / (7991 # 10)) in
  (exists z, adjust_cost_with_cepci 1000 2010 2010 = Ok z /\ z == y) /\ y == 1000.
Proof.
  destruct (cepci_adjustments_compose 1000 2010 2024 2010
              (1000 * ((7991 # 10) / (5508 # 10)))
              (1000 * ((7991 # 10) / (5508 # 10)) * ((5508 # 10) / (7991 # 10))))
    as [Hdirect Hback].
  - vm_compute. reflexivity.
  - vm_compute. reflexivity.
  - split; [exact Hdirect | apply Hback; reflexivity].
Defined.

(** ** The finance formulas *)

Lemma pow_returns (base : Q) (n : Z) :
  ~ base == 0 \/ (0 <= n)%Z -> Py.pow base n = Ok (Qpower base n).
Proof.
  intros H. unfold Py.pow.
  destruct (Qeq_bool base 0) eqn:E; [|reflexivity].
  destruct (Z.ltb_spec n 0); [|reflexivity].
  apply Qeq_bool_iff in E. destruct H; [contradiction | lia].
Qed.

Lemma div_returns (a b : Q) : ~ b == 0 -> Py.div a b = Ok (a / b).
Proof.
  intros H. unfold Py.div. destruct (Qeq_bool b 0) eqn:E; [|reflexivity].
  apply Qeq_bool_iff in E. contradiction.
Qed.

Lemma div_raises (a b : Q) : b == 0 -> Py.div a b = Raise ZeroDivisionError.
Proof.
  intros H. unfold Py.div. apply Qeq_bool_iff in H. rewrite H. reflexivity.
Qed.

(** Compounding over [k] years adds at most [k] times the last year's
    interest. *)
Lemma compound_growth (r : Q) (k : nat) :
  0 <= r ->
  Qpower (1 + r) (Z.of_nat k) - 1 <= inject_Z (Z.of_nat k) * r * Qpower (1 + r) (Z.of_nat k).
Proof.
  intros Hr. induction k as [|k IH].
  - change (Qpower (1 + r) (Z.of_nat 0)) with 1.
    change (inject_Z (Z.of_nat 0)) with 0. lra.
  - rewrite Nat2Z.inj_succ. unfold Z.succ.
    rewrite Qpower_plus by lra. rewrite inject_Z_plus.
    change (Qpower (1 + r) 1) with (1 + r).
    assert (Hone : 1 <= Qpower (1 + r) (Z.of_nat k)).
    { apply Qpower_1_le; [lra | lia]. }
    assert (Hk : 0 <= inject_Z (Z.of_nat k)).
    { rewrite <- (Zle_Qle 0). lia. }
    set (U := Qpower (1 + r) (Z.of_nat k)) in *.
    set (n := inject_Z (Z.of_nat k)) in *.
    change (inject_Z 1) with 1.
    assert (Hnr : 0 <= n * r) by (apply Qmult_le_0_compat; assumption).
    assert (HrU : r <= r * U) by nra.
    assert (Hmix : 0 <= n * r * U * r).
    { apply Qmult_le_0_compat; [apply Qmult_le_0_compat; [exact Hnr | lra] | exact Hr]. }
    assert (Hsq : 0 <= r * U * r).
    { apply Qmult_le_0_compat; [apply Qmult_le_0_compat; [exact Hr | lra] | exact Hr]. }
    fold U in IH. fold n in IH. lra.
Qed.

(** The capital recovery factor for a positive rate and lifetime. *)
Lemma capital_recovery_factor (capex discount_rate : Q) (lifetime : Z) :
  0 < discount_rate -> (0 < lifetime)%Z ->
  let up := Qpower (1 + discount_rate) lifetime in
  calculate_annualized_cost capex lifetime discount_rate
  = Ok (capex * (discount_rate * up / (up - 1)))
  /\ 1 < up.
Proof.
  intros Hr Hn up.
  assert (Hup : 1 < up) by (apply Qpower_1_lt; [lra | exact Hn]).
  split; [|exact Hup].
  unfold calculate_annualized_cost.
  rewrite pow_returns by (left; lra). cbn [Py.bind]. fold up.
  rewrite div_returns by lra. reflexivity.
Qed.

(** X22 (what an annuity costs).  In exact arithmetic: for a positive
    discount rate, a positive lifetime and a nonnegative investment the
    annualized cost is defined; it is at least the yearly interest on the
    investment, and the payments over the lifetime add up to at least the
    investment.  (In floats the formula loses digits in
    [(1 + rate)**lifetime - 1] for tiny rates, and raises once [1 + rate]
    rounds to 1 or the power overflows.) *)
Theorem annualized_cost_bounds (capex discount_rate : Q) (lifetime : Z) :
  0 < discount_rate -> (0 < lifetime)%Z -> 0 <= capex ->
  exists a,
    calculate_annualized_cost capex lifetime discount_rate = Ok a
    /\ capex * discount_rate <= a
    /\ capex <= a * inject_Z lifetime.
Proof.
  intros Hr Hn Hc.
  destruct (capital_recovery_factor capex discount_rate lifetime Hr Hn) as [E Hup].
  cbv zeta in E. rewrite E. eexists. split; [reflexivity|].
  set (up := Qpower (1 + discount_rate) lifetime) in *.
  assert (Hcrf : discount_rate <= discount_rate * up / (up - 1)).
  { apply Qle_shift_div_l; [lra | nra]. }
  assert (Hlife : 1 <= discount_rate * up / (up - 1) * inject_Z lifetime).
  { assert (Hgrow : up - 1 <= inject_Z lifetime * discount_rate * up).
    { pose proof (compound_growth discount_rate (Z.to_nat lifetime) (Qlt_le_weak _ _ Hr))
        as Hg.
      rewrite Z2Nat.id in Hg by lia. exact Hg. }
    assert (Heq : discount_rate * up / (up - 1) * inject_Z lifetime
                  == inject_Z lifetime * discount_rate * up / (up - 1))
      by (field; lra).
    rewrite Heq. apply Qle_shift_div_l; [lra | lra]. }
  set (crf := discount_rate * up / (up - 1)) in *.
  set (years := inject_Z lifetime) in *.
  split.
  - assert (0 <= capex * (crf - discount_rate))
      by (apply Qmult_le_0_compat; lra).
    lra.
  - assert (0 <= capex * (crf * years - 1))
      by (apply Qmult_le_0_compat; lra).
    lra.
Qed.

Lemma annualized_cost_witness :
  exists a,
    calculate_annualized_cost 1000 LIFETIME_YEARS DISCOUNT_RATE = Ok a
    /\ 1000 * DISCOUNT_RATE <= a
    /\ 1000 <= a * inject_Z LIFETIME_YEARS.
Proof.
  apply (annualized_cost_bounds 1000 DISCOUNT_RATE LIFETIME_YEARS).
  - reflexivity.
  - reflexivity.
  - vm_compute. discriminate.
Defined.

(** X23 (levelized cost and annuity agree).  In exact arithmetic: for a
    positive discount rate, a positive lifetime and a nonzero output, the
    levelized cost is a finite number, and the levelized cost of one year's
    output is the year's fixed and variable costs plus the annualized cost
    of the capital and the replacements: the present value factor of the
    one formula is the inverse of the capital recovery factor of the other.
    (In floats the two sides can differ by rounding, and both formulas
    raise once [1 + rate] rounds to 1.) *)
Theorem levelized_cost_is_annual_cost
        (annual_output capital_cost annual_fixed_cost annual_variable_cost
         pv_replacement_costs discount_rate : Q) (lifetime : Z) :
  0 < discount_rate -> (0 < lifetime)%Z -> ~ annual_output == 0 ->
  exists lc a,
    calculate_levelized_cost annual_output capital_cost annual_fixed_cost
                             annual_variable_cost pv_replacement_costs
                             lifetime discount_rate = Ok (Finite lc)
    /\ calculate_annualized_cost (capital_cost + pv_replacement_costs)
                                 lifetime discount_rate = Ok a
    /\ lc * annual_output == annual_fixed_cost + annual_variable_cost + a.
Proof.
  intros Hr Hn Hout.
  destruct (capital_recovery_factor (capital_cost + pv_replacement_costs)
              discount_rate lifetime Hr Hn) as [Ea Hup].
  cbv zeta in Ea.
  set (up := Qpower (1 + discount_rate) lifetime) in *.
  assert (Hdown : Qpower (1 + discount_rate) (- lifetime) == / up).
  { apply Qpower_opp. }
  assert (Hpvf : 0 < (1 - Qpower (1 + discount_rate) (- lifetime)) / discount_rate).
  { apply Qlt_shift_div_l; [exact Hr|]. rewrite Hdown.
    assert (Hinv : 0 < (up - 1) * / up).
    { apply Qmult_lt_0_compat; [lra | apply Qinv_lt_0_compat; lra]. }
    assert (Hunit : up * / up == 1) by (apply Qmult_inv_r; lra).
    set (iu := / up) in *. lra. }
  unfold calculate_levelized_cost.
  destruct (Qeq_bool annual_output 0) eqn:E;
    [apply Qeq_bool_iff in E; contradiction|].
  rewrite pow_returns by (left; lra). cbn [Py.bind].
  rewrite div_returns by lra. cbn [Py.bind].
  set (pvf := (1 - Qpower (1 + discount_rate) (- lifetime)) / discount_rate) in *.
  assert (Hden : ~ annual_output * pvf == 0).
  { intros Hz. destruct (Qmult_integral _ _ Hz); [contradiction | lra]. }
  rewrite div_returns by exact Hden. cbn [Py.bind].
  do 2 eexists. split; [reflexivity|]. split; [exact Ea|].
  assert (Hpvf_eq : pvf == (up - 1) / (up * discount_rate)).
  { unfold pvf. rewrite Hdown. field. split; lra. }
  rewrite Hpvf_eq. field. repeat split; first [lra | exact Hout].
Qed.

Lemma levelized_cost_witness :
  exists lc a,
    calculate_levelized_cost 500 1000 20 30 100 LIFETIME_YEARS DISCOUNT_RATE
    = Ok (Finite lc)
    /\ calculate_annualized_cost (1000 + 100) LIFETIME_YEARS DISCOUNT_RATE = Ok a
    /\ lc * 500 == 20 + 30 + a.
Proof.
  apply (levelized_cost_is_annual_cost 500 1000 20 30 100 DISCOUNT_RATE LIFETIME_YEARS).
  - reflexivity.
  - reflexivity.
  - vm_compute. discriminate.
Defined.

(** X24 (no annuity without interest or lifetime).  With a zero discount
    rate or a zero lifetime the annualized cost raises ZeroDivisionError,
    and so does the levelized cost of a nonzero output. *)
Theorem finance_formulas_degenerate
        (capex annual_output capital_cost annual_fixed_cost annual_variable_cost
         pv_replacement_costs discount_rate : Q) (lifetime : Z) :
  discount_rate == 0 \/ lifetime = 0%Z ->
  calculate_annualized_cost capex lifetime discount_rate = Raise ZeroDivisionError
  /\ (~ annual_output == 0 ->
      calculate_levelized_cost annual_output capital_cost annual_fixed_cost
                               annual_variable_cost pv_replacement_costs
                               lifetime discount_rate = Raise ZeroDivisionError).
Proof.
  intros Hdeg.
  assert (Hone : forall n, (n = lifetime \/ n = (- lifetime)%Z) ->
                           Py.pow (1 + discount_rate) n = Ok (Qpower (1 + discount_rate) n)
                           /\ Qpower (1 + discount_rate) n == 1).
  { intros n Hcase. destruct Hdeg as [Hr| ->].
    - split; [apply pow_returns; left; lra|].
      assert (Hb : 1 + discount_rate == 1) by lra.
      rewrite Hb. apply Qpower_1.
    - assert (n = 0%Z) as -> by lia.
      split; [apply pow_returns; right; lia | reflexivity]. }
  split.
  - unfold calculate_annualized_cost.
    destruct (Hone lifetime (or_introl eq_refl)) as [-> Hup]. cbn [Py.bind].
    rewrite div_raises by lra. reflexivity.
  - intros Hout. unfold calculate_levelized_cost.
    destruct (Qeq_bool annual_output 0) eqn:E;
      [apply Qeq_bool_iff in E; contradiction|].
    destruct (Hone (- lifetime)%Z (or_intror eq_refl)) as [-> Hdown]. cbn [Py.bind].
    destruct (Qeq_bool discount_rate 0) eqn:Er.
    + apply Qeq_bool_iff in Er. rewrite div_raises by exact Er. reflexivity.
    + apply Qeq_bool_neq in Er. rewrite div_returns by exact Er. cbn [Py.bind].
      rewrite div_raises; [reflexivity|].
      rewrite Hdown. field. exact Er.
Qed.

Lemma finance_formulas_witness :
  calculate_annualized_cost 1000 LIFETIME_YEARS 0 = Raise ZeroDivisionError
  /\ calculate_levelized_cost 500 1000 20 30 100 LIFETIME_YEARS 0
     = Raise ZeroDivisionError.
Proof.
  destruct (finance_formulas_degenerate 1000 500 1000 20 30 100 0 LIFETIME_YEARS)
    as [Hannual Hlevel].
  - left. reflexivity.
  - split; [exact Hannual | apply Hlevel; vm_compute; discriminate].
Defined.

(** X25 (the final tally).  The system economics never raise.  A period
    of a whole leap year (8784 hours) is not rescaled, and for no hours, or
    a negative number, the yearly profit is 0.  In exact arithmetic the
    yearly running cost is 2% of the total investment, and for a positive
    number of hours the yearly profit, scaled back by the fraction of the
    year the period covers, is the profit of the period (in floats both
    can be off by rounding). *)
Theorem economics_tally `{RealPower}
        (optimal_capacity operational_profit hours : Q) (costs : SystemCosts) :
  exists e,
    calculate_system_economics_with_optimal_storage
      optimal_capacity operational_profit hours costs = Ok e
    /\ total_annual_opex e == (2 # 100) * total_system_capex e
    /\ (0 < hours ->
        annual_operational_profit e * time_fraction e == operational_profit)
    /\ (hours == 8784 -> annual_operational_profit e == operational_profit)
    /\ (hours <= 0 -> annual_operational_profit e = 0).
Proof.
  unfold calculate_system_economics_with_optimal_storage.
  match goal with
  | |- context [calculate_annualized_cost ?c _ _] =>
      destruct (annualized_default c) as [a ->]
  end.
  cbn [Py.bind]. eexists. split; [reflexivity|].
  cbn [total_annual_opex total_system_capex annual_operational_profit time_fraction].
  split; [ring|].
  split; [|split].
  - intros Hh. destruct (Qlt_le_dec 0 (hours / (366 * 24))) as [_|Hle].
    + field. lra.
    + exfalso. apply (Qle_not_lt _ _ Hle).
      apply Qlt_shift_div_l; [reflexivity | lra].
  - intros Hh. destruct (Qlt_le_dec 0 (hours / (366 * 24))) as [_|Hle].
    + rewrite Hh. field.
    + exfalso. apply (Qle_not_lt _ _ Hle). rewrite Hh. reflexivity.
  - intros Hh. destruct (Qlt_le_dec 0 (hours / (366 * 24))) as [Hlt|_]; [|reflexivity].
    exfalso. apply (Qlt_not_le _ _ Hlt).
    apply Qle_shift_div_r; [reflexivity | lra].
Qed.

(** ** From the solver to the curtailment analysis *)

Lemma result_row_operation inst s df t row :
  result_row inst s df t = Ok row ->
  Charging_Power_MW row = s (CHARGING_POWER t)
  /\ Discharging_Power_MW row = s (DISCHARGING_POWER t)
  /\ NH3_Level_Tonnes row = s (NH3_LEVEL t)
  /\ Is_Charging row = s (IS_CHARGING_ON t)
  /\ Is_Discharging row = s (IS_DISCHARGING_ON t).
Proof.
  unfold result_row. intros E.
  apply bind_ok in E as (dt & _ & E).
  apply bind_ok in E as (inv & _ & E).
  apply bind_ok in E as (price & _ & E).
  apply bind_ok in E as (demand & _ & E).
  apply bind_ok in E as (wind & _ & E).
  apply bind_ok in E as (curt & _ & E).
  apply bind_ok in E as (carbon & _ & E).
  injection E as <-. simpl. auto.
Qed.

(** What the switches and the power limits leave at one timestep. *)
Lemma switched_operation
      (data : DataPortal) (inst : ConcreteModel) (s : Solution) (t : nat) :
  create_instance create_optimization_model data = Ok inst ->
  accepted inst s = true ->
  In t (DATETIME data) ->
  (0 <= s (CHARGING_POWER t) /\ 0 <= s (DISCHARGING_POWER t))
  /\ (s (IS_CHARGING_ON t) == 0 \/ s (IS_CHARGING_ON t) == 1)
  /\ (s (IS_DISCHARGING_ON t) == 0 \/ s (IS_DISCHARGING_ON t) == 1)
  /\ s (IS_CHARGING_ON t) + s (IS_DISCHARGING_ON t) <= 1
  /\ s (CHARGING_POWER t) <= MAXIMUM_CHARGING_POWER data * s (IS_CHARGING_ON t)
  /\ s (DISCHARGING_POWER t)
     <= MAXIMUM_DISCHARGING_POWER data * s (IS_DISCHARGING_ON t).
Proof.
  intros Hinst Hacc Ht.
  assert (Hp : In ("CHARGING_POWER",
                   IndexedVar CHARGING_POWER NonNegativeReals
                              (Some (fun m _ => (0, MAXIMUM_CHARGING_POWER m))))
                  create_optimization_model) by in_model.
  assert (Hq : In ("DISCHARGING_POWER",
                   IndexedVar DISCHARGING_POWER NonNegativeReals
                              (Some (fun m _ => (0, MAXIMUM_DISCHARGING_POWER m))))
                  create_optimization_model) by in_model.
  assert (Hc : In ("IS_CHARGING_ON", IndexedVar IS_CHARGING_ON Binary None)
                  create_optimization_model) by in_model.
  assert (Hf : In ("IS_DISCHARGING_ON", IndexedVar IS_DISCHARGING_ON Binary None)
                  create_optimization_model) by in_model.
  assert (H1 : In ("no_simultaneous_charge_discharge",
                   IndexedConstraint no_simultaneous_operation_rule)
                  create_optimization_model) by in_model.
  assert (H2 : In ("max_charging_constraint", IndexedConstraint max_charging_rule)
                  create_optimization_model) by in_model.
  assert (H4 : In ("max_discharging_constraint", IndexedConstraint max_discharging_rule)
                  create_optimization_model) by in_model.
  destruct (indexed_var_ok _ _ _ Hinst Hacc _ _ _ _ _ Hp Ht)
    as [P0%in_domain_NonNegativeReals _].
  destruct (indexed_var_ok _ _ _ Hinst Hacc _ _ _ _ _ Hq Ht)
    as [D0%in_domain_NonNegativeReals _].
  destruct (indexed_var_ok _ _ _ Hinst Hacc _ _ _ _ _ Hc Ht) as [Bc%in_domain_Binary _].
  destruct (indexed_var_ok _ _ _ Hinst Hacc _ _ _ _ _ Hf Ht) as [Bd%in_domain_Binary _].
  destruct (indexed_rule_holds _ _ _ Hinst Hacc _ _ _ H1 Ht) as (? & [= <-] & R1).
  destruct (indexed_rule_holds _ _ _ Hinst Hacc _ _ _ H2 Ht) as (? & [= <-] & R2).
  destruct (indexed_rule_holds _ _ _ Hinst Hacc _ _ _ H4 Ht) as (? & [= <-] & R4).
  simpl in R1, R2, R4. auto 10.
Qed.

(** X26 (the ledger of an accepted solution).  Every row of the ledger
    that [process_results] builds from an accepted solution has nonnegative
    powers that are not both positive, switches that are 0 or 1 and not both
    1, and a positive power only where its switch is 1: the rows are as the
    curtailment analysis needs them to split the curtailment periods. *)
Theorem accepted_ledger_rows `{RealPower}
        (self : IntegratedAmmoniaBatteryOptimizer) (data : DataPortal)
        (inst : ConcreteModel) (s : Solution) (df : DataFrame) (r : Results) :
  create_instance create_optimization_model data = Ok inst ->
  accepted inst s = true ->
  process_results self inst s df = Ok r ->
  Forall (fun row =>
            exclusive_row row
            /\ (Is_Charging row == 0 \/ Is_Charging row == 1)
            /\ (Is_Discharging row == 0 \/ Is_Discharging row == 1)
            /\ Is_Charging row + Is_Discharging row <= 1
            /\ (0 < Charging_Power_MW row -> Is_Charging row == 1)
            /\ (0 < Discharging_Power_MW row -> Is_Discharging row == 1))
         (rows (operational_results r)).
Proof.
  intros Hinst Hacc Hr.
  destruct (process_results_inv _ _ _ _ _ Hr) as (_ & _ & Hrows & _).
  rewrite (create_instance_params _ _ _ Hinst) in Hrows.
  eapply Forall2_Forall_In; [|exact Hrows].
  intros t row Ht Erow. cbv beta in Erow.
  destruct (switched_operation data inst s t Hinst Hacc Ht)
    as ([P0 D0] & Bc & Bd & R1 & R2 & R4).
  unfold exclusive_row.
  destruct (result_row_operation _ _ _ _ _ Erow) as (-> & -> & _ & -> & ->).
  destruct Bc as [Bc|Bc], Bd as [Bd|Bd]; rewrite ?Bc, ?Bd in *;
    repeat split; auto; try lra;
    try (left; lra); try (right; lra); intros; lra.
Qed.

Lemma accepted_ledger_witness :
  Forall (fun row =>
            exclusive_row row
            /\ (Is_Charging row == 0 \/ Is_Charging row == 1)
            /\ (Is_Discharging row == 0 \/ Is_Discharging row == 1)
            /\ Is_Charging row + Is_Discharging row <= 1
            /\ (0 < Charging_Power_MW row -> Is_Charging row == 1)
            /\ (0 < Discharging_Power_MW row -> Is_Discharging row == 1))
         (rows (operational_results two_step_results)).
Proof.
  apply (@accepted_ledger_rows sample_power (unit_optimizer 1) two_step_data
           two_step_instance charge_then_discharge two_step_df two_step_results).
  - vm_compute. reflexivity.
  - vm_compute. reflexivity.
  - vm_compute. reflexivity.
Defined.

(** ** Missing columns *)

Lemma result_row_without_datetime inst s df t row :
  columns df !! "DATETIME" = None ->
  result_row inst s df t = Ok row ->
  Time row = inr (TimeStep row).
Proof.
  unfold result_row. intros Hmiss E. rewrite Hmiss in E. cbn [Py.bind] in E.
  apply bind_ok in E as (inv & _ & E).
  apply bind_ok in E as (price & _ & E).
  apply bind_ok in E as (demand & _ & E).
  apply bind_ok in E as (wind & _ & E).
  apply bind_ok in E as (curt & _ & E).
  apply bind_ok in E as (carbon & _ & E).
  injection E as <-. reflexivity.
Qed.

(** C7, as the code has it (missing columns).  A frame that lacks PRICE,
    DEMAND, WIND, CURTAILMENT or CARBON_BASED_FUELS cannot be bound:
    [prepare_data] raises.  DATETIME is optional.  A frame that lacks it is
    taken as it is, without timestamp conversion or resampling; when it has
    the five series, [prepare_data] binds it: the horizon is
    [0 .. nrows - 1] and every series holds at [t] the entry of its column at
    row [t]; and every row of the ledger that [process_results] builds
    against such a frame carries its integer timestep as [Time]. *)
Theorem missing_series_column_is_fatal `{TimeOps} `{RealPower}
        (self : IntegratedAmmoniaBatteryOptimizer) (df : DataFrame) :
  (forall name, In name series_columns -> columns df !! name = None ->
                exists e, prepare_data self df = Raise e)
  /\ (columns df !! "DATETIME" = None ->
      handle_datetime self df = Ok df
      /\ ((forall name, In name series_columns -> is_Some (columns df !! name)) ->
          ~ lhv_NH3 self == 0 ->
          exists data,
            prepare_data self df = Ok data
            /\ DATETIME data = seq 0 (nrows df)
            /\ forall name, In name series_columns ->
                 exists col m,
                   columns df !! name = Some col
                   /\ bound_series data name = Some m
                   /\ forall t, m !! t
                                = if decide (t < nrows df)%nat
                                  then values col !! t else None)
      /\ (forall inst s r,
             process_results self inst s df = Ok r ->
             Forall (fun row => Time row = inr (TimeStep row))
                    (rows (operational_results r)))).
Proof.
  split.
  - intros name Hin Hmiss.
    exact (prepare_data_needs_series self df name Hin Hmiss).
  - intros Hmiss.
    assert (Hh : handle_datetime self df = Ok df).
    { unfold handle_datetime. rewrite Hmiss. reflexivity. }
    split; [exact Hh|]. split.
    + intros Hcols Hlhv.
      assert (Hbind : forall name, In name series_columns ->
                                   exists m, bind_series df (seq 0 (nrows df)) name = Ok m).
      { intros name Hin. destruct (Hcols name Hin) as [col Hc].
        unfold bind_series, getcol. rewrite Hc. simpl. eauto. }
      assert (Hdata : exists data, prepare_data self df = Ok data).
      { unfold prepare_data. rewrite Hh. cbn [Py.bind].
        destruct (Hbind "PRICE" ltac:(simpl; tauto)) as [m1 ->]. cbn [Py.bind].
        destruct (Hbind "DEMAND" ltac:(simpl; tauto)) as [m2 ->]. cbn [Py.bind].
        destruct (Hbind "WIND" ltac:(simpl; tauto)) as [m3 ->]. cbn [Py.bind].
        destruct (Hbind "CURTAILMENT" ltac:(simpl; tauto)) as [m4 ->]. cbn [Py.bind].
        destruct (Hbind "CARBON_BASED_FUELS" ltac:(simpl; tauto)) as [m5 ->].
        cbn [Py.bind]. unfold Py.div.
        destruct (Qeq_bool (lhv_NH3 self * 1000) 0) eqn:E; [|simpl; eauto].
        apply Qeq_bool_iff in E. exfalso. apply Hlhv.
        destruct (Qmult_integral _ _ E) as [E'|E']; [exact E' | discriminate E']. }
      destruct Hdata as [data Hd]. exists data. split; [exact Hd|].
      destruct (prepare_data_series _ _ _ Hd) as (df' & Hh' & Hrange & _ & Hseries).
      rewrite Hh in Hh'. injection Hh' as <-.
      split; [exact Hrange|].
      intros name Hin. destruct (Hseries name Hin) as (m & Hm & Em).
      apply bind_series_ok in Em as (col & Hc & ->).
      exists col. eexists. split; [exact Hc|]. split; [exact Hm|].
      intros t. apply dict_zip_seq.
    + intros inst s r Hr.
      destruct (process_results_inv _ _ _ _ _ Hr) as (_ & _ & Hrows & _).
      eapply Forall2_Forall_r; [|exact Hrows].
      intros t row Erow. cbv beta in Erow.
      exact (result_row_without_datetime _ _ _ _ _ Hmiss Erow).
Qed.

Lemma missing_series_column_witness :
  (exists e, prepare_data (unit_optimizer 1) no_price_df = Raise e)
  /\ handle_datetime (unit_optimizer 1) no_datetime_df = Ok no_datetime_df
  /\ (exists data,
         prepare_data (unit_optimizer 1) no_datetime_df = Ok data
         /\ DATETIME data = seq 0 (nrows no_datetime_df)
         /\ forall name, In name series_columns ->
              exists col m,
                columns no_datetime_df !! name = Some col
                /\ bound_series data name = Some m
                /\ forall t, m !! t
                             = if decide (t < nrows no_datetime_df)%nat
                               then values col !! t else None)
  /\ Forall (fun row => Time row = inr (TimeStep row))
            (rows (operational_results no_datetime_results)).
Proof.
  destruct (@missing_series_column_is_fatal reference_time sample_power
              (unit_optimizer 1) no_price_df) as [Hfatal _].
  destruct (@missing_series_column_is_fatal reference_time sample_power
              (unit_optimizer 1) no_datetime_df) as [_ Hoptional].
  destruct Hoptional as (Hkept & Hbound & Hledger); [vm_compute; reflexivity|].
  split; [apply (Hfatal "PRICE"); [left; reflexivity | vm_compute; reflexivity]|].
  split; [exact Hkept|]. split.
  - apply Hbound.
    + intros name Hin. simpl in Hin.
      destruct Hin as [<-|[<-|[<-|[<-|[<-|[]]]]]]; vm_compute; eauto.
    + vm_compute. discriminate.
  - apply (Hledger two_step_instance charge_then_discharge no_datetime_results).
    vm_compute. reflexivity.
Defined.

(** The two rows of that ledger carry 0 and 1 as their [Time]. *)
Example no_datetime_ledger_times :
  map Time (rows (operational_results no_datetime_results)) = [inr 0%nat; inr 1%nat].
Proof. vm_compute. reflexivity. Qed.
